(** * Daily task manager: persistence, mutation and undo history

    A shallow embedding of the two task managers of the repository:

    - [Main]: the SQL-backed manager of [main_v44_free_worked_tst.py]
      (classes [TaskManager] and [TaskManagerApp]);
    - [V11]: the file-backed manager of [task_manager_v1.1.py]
      (classes [Task], [Action] and [DailyTaskManager]).

    [Py] holds the fragments of the Python runtime both rely on: string
    stripping and lower-casing, zero-padded decimal formatting, calendar
    dates and ISO timestamps. *)

From Stdlib Require Import ZArith Ascii String List Lia Permutation DecimalString.
From Stdlib Require Import Sorted.
From stdpp Require Import base numbers option list strings gmap.

Local Open Scope Z_scope.

(* ===================================================================== *)
(** * Python runtime fragments *)
(* ===================================================================== *)

Module Py.

(** ** Characters and strings *)

(** [str.isspace] on the ASCII range: tab, line feed, vertical tab, form
    feed, carriage return, the four separators 0x1c-0x1f and the blank. *)
Definition is_space (c : ascii) : bool :=
  let n := N_of_ascii c in
  ((9 <=? n) && (n <=? 13) || (28 <=? n) && (n <=? 32))%N.

Fixpoint lstrip (s : string) : string :=
  match s with
  | EmptyString => EmptyString
  | String c s' => if is_space c then lstrip s' else s
  end.

(** [rstrip] keeps a character when it is no blank or when something that
    is kept follows it. *)
Fixpoint rstrip (s : string) : string :=
  match s with
  | EmptyString => EmptyString
  | String c s' =>
      match rstrip s' with
      | EmptyString => if is_space c then EmptyString else String c EmptyString
      | r => String c r
      end
  end.

(** [str.strip()] on ASCII text. (The library also strips the blanks
    beyond ASCII, such as U+00A0.) *)
Definition strip (s : string) : string := rstrip (lstrip s).

Definition lower_ascii (c : ascii) : ascii :=
  let n := N_of_ascii c in
  if ((65 <=? n) && (n <=? 90))%N then ascii_of_N (n + 32) else c.

(** [str.lower()] on ASCII text *)
Fixpoint lower (s : string) : string :=
  match s with
  | EmptyString => EmptyString
  | String c s' => String (lower_ascii c) (lower s')
  end.

(** Truth value of an optional string: [None] and the empty string are
    false. *)
Definition truthy (o : option string) : bool :=
  match o with
  | None => false
  | Some EmptyString => false
  | Some _ => true
  end.

(** ** Decimal digits *)

Definition digit_char (d : Z) : ascii := ascii_of_N (48 + Z.to_N d).

Definition digit_val (c : ascii) : option Z :=
  let n := N_of_ascii c in
  if ((48 <=? n) && (n <=? 57))%N then Some (Z.of_N n - 48) else None.

(** Exactly [w] digits, most significant first (the low [w] digits of [n]). *)
Fixpoint digits_fixed (w : nat) (n : Z) : string :=
  match w with
  | O => EmptyString
  | S w' => String.append (digits_fixed w' (n / 10))
                          (String (digit_char (n mod 10)) EmptyString)
  end.

(** Plain decimal notation of a non-negative integer. *)
Definition decimal (n : Z) : string :=
  NilZero.string_of_uint (N.to_uint (Z.to_N n)).

(** [f"{n:0wd}"] for [0 <= n]: at least [w] digits, padded with zeros. *)
Definition format_0d (w : nat) (n : Z) : string :=
  if n <? 10 ^ Z.of_nat w then digits_fixed w n else decimal n.

Fixpoint parse_digits_from (acc : Z) (s : string) : option Z :=
  match s with
  | EmptyString => Some acc
  | String c s' =>
      match digit_val c with
      | Some d => parse_digits_from (acc * 10 + d) s'
      | None => None
      end
  end.

(** A non-empty run of decimal digits. *)
Definition parse_digits (s : string) : option Z :=
  match s with
  | EmptyString => None
  | _ => parse_digits_from 0 s
  end.

(** ** Calendar dates ([datetime.date]) *)

Record Date := mkDate { d_year : Z; d_month : Z; d_day : Z }.

Definition is_leap (y : Z) : bool :=
  (y mod 4 =? 0) && (negb (y mod 100 =? 0) || (y mod 400 =? 0)).

Definition days_in_month (y m : Z) : Z :=
  if m =? 2 then (if is_leap y then 29 else 28)
  else if (m =? 4) || (m =? 6) || (m =? 9) || (m =? 11) then 30
  else 31.

Definition days_before_year (y : Z) : Z :=
  let y1 := y - 1 in y1 * 365 + y1 / 4 - y1 / 100 + y1 / 400.

Fixpoint days_before_month_nat (y : Z) (m : nat) : Z :=
  match m with
  | O => 0
  | S m' => days_before_month_nat y m' + days_in_month y (Z.of_nat (S m'))
  end.

(** Days of year [y] that precede the first day of month [m]. *)
Definition days_before_month (y m : Z) : Z :=
  days_before_month_nat y (Z.to_nat (m - 1)).

(** [date.toordinal()]: 0001-01-01 is day 1. *)
Definition toordinal (d : Date) : Z :=
  days_before_year (d_year d) + days_before_month (d_year d) (d_month d) + d_day d.

Definition valid_date (d : Date) : bool :=
  (1 <=? d_year d) && (d_year d <=? 9999) &&
  (1 <=? d_month d) && (d_month d <=? 12) &&
  (1 <=? d_day d) && (d_day d <=? days_in_month (d_year d) (d_month d)).

(** [(a - b).days] *)
Definition days_between (a b : Date) : Z := toordinal a - toordinal b.

(** [date.strftime("%Y-%m-%d")] *)
Definition strftime_ymd (d : Date) : string :=
  String.append (digits_fixed 4 (d_year d))
    (String "-" (String.append (digits_fixed 2 (d_month d))
       (String "-" (digits_fixed 2 (d_day d))))).

(** Splits at every occurrence of [sep] ([str.split(sep)]). *)
Fixpoint split_on (sep : ascii) (s : string) : list string :=
  match s with
  | EmptyString => [EmptyString]
  | String c s' =>
      if Ascii.eqb c sep then EmptyString :: split_on sep s'
      else match split_on sep s' with
           | [] => [String c EmptyString]
           | p :: ps => String c p :: ps
           end
  end.

(** The field [%d] of [strptime]: one or two digits, or a blank and one
    digit (the pattern [3[0-1]|[1-2]\d|0[1-9]|[1-9]| [1-9]]; that the
    number is a day of the month is checked with the date). *)
Definition parse_day (ds : string) : option Z :=
  match ds with
  | String c0 (String c1 EmptyString) =>
      if Ascii.eqb c0 " " then digit_val c1 else parse_digits ds
  | _ => if (String.length ds <=? 2)%nat then parse_digits ds else None
  end.

(** [datetime.strptime(s, "%Y-%m-%d").date()] on ASCII text: a year of
    four digits, a month of one or two digits and a day as [parse_day]
    reads it, separated by hyphens, with nothing before or after, naming
    a day that exists; [None] stands for [ValueError]. (On text beyond
    ASCII the library also reads digits of other scripts.) *)
Definition strptime_ymd (s : string) : option Date :=
  match split_on "-" s with
  | [ys; ms; ds] =>
      if (String.length ys =? 4)%nat && (String.length ms <=? 2)%nat
      then
        match parse_digits ys, parse_digits ms, parse_day ds with
        | Some y, Some m, Some d =>
            let r := mkDate y m d in
            if valid_date r then Some r else None
        | _, _, _ => None
        end
      else None
  | _ => None
  end.

(** ** Timestamps ([datetime.datetime], naive) *)

Record DateTime := mkDateTime {
  dt_date : Date;
  dt_hour : Z;
  dt_minute : Z;
  dt_second : Z;
  dt_microsecond : Z
}.

Definition valid_datetime (t : DateTime) : bool :=
  valid_date (dt_date t) &&
  (0 <=? dt_hour t) && (dt_hour t <? 24) &&
  (0 <=? dt_minute t) && (dt_minute t <? 60) &&
  (0 <=? dt_second t) && (dt_second t <? 60) &&
  (0 <=? dt_microsecond t) && (dt_microsecond t <? 1000000).

(** [t.strftime("%Y-%m-%d %H:%M:%S")] *)
Definition strftime_ymd_hms (t : DateTime) : string :=
  String.append (strftime_ymd (dt_date t))
    (String " " (String.append (digits_fixed 2 (dt_hour t))
      (String ":" (String.append (digits_fixed 2 (dt_minute t))
        (String ":" (digits_fixed 2 (dt_second t))))))).

(** [datetime.isoformat()]: [YYYY-MM-DDTHH:MM:SS], followed by [.ffffff]
    when the microsecond is not zero. *)
Definition isoformat (t : DateTime) : string :=
  String.append (strftime_ymd (dt_date t))
    (String "T" (String.append (digits_fixed 2 (dt_hour t))
      (String ":" (String.append (digits_fixed 2 (dt_minute t))
        (String ":" (String.append (digits_fixed 2 (dt_second t))
          (if dt_microsecond t =? 0 then EmptyString
           else String "." (digits_fixed 6 (dt_microsecond t))))))))).

Definition char_at (n : nat) (s : string) : option ascii := String.get n s.

Definition field (start len : nat) (s : string) : option Z :=
  let f := String.substring start len s in
  if (String.length f =? len)%nat then parse_digits f else None.

Definition expect (c : ascii) (n : nat) (s : string) : bool :=
  match char_at n s with
  | Some c' => Ascii.eqb c c'
  | None => false
  end.

(** The date part of [fromisoformat]: ten characters [YYYY-MM-DD]. *)
Definition parse_iso_date (s : string) : option Date :=
  if expect "-" 4 s && expect "-" 7 s then
    match field 0 4 s, field 5 2 s, field 8 2 s with
    | Some y, Some m, Some d => Some (mkDate y m d)
    | _, _, _ => None
    end
  else None.

(** The time part of [fromisoformat], read from offset 11: [HH],
    [HH:MM], [HH:MM:SS], and a fraction of three or six digits. *)
Definition parse_iso_time (s : string) : option (Z * Z * Z * Z) :=
  let n := String.length s in
  match field 11 2 s with
  | None => None
  | Some h =>
    if (n =? 13)%nat then Some (h, 0, 0, 0)
    else if negb (expect ":" 13 s) then None
    else match field 14 2 s with
    | None => None
    | Some mi =>
      if (n =? 16)%nat then Some (h, mi, 0, 0)
      else if negb (expect ":" 16 s) then None
      else match field 17 2 s with
      | None => None
      | Some sec =>
        if (n =? 19)%nat then Some (h, mi, sec, 0)
        else if negb (expect "." 19 s) then None
        else if (n =? 23)%nat then
          match field 20 3 s with
          | Some ms => Some (h, mi, sec, ms * 1000)
          | None => None
          end
        else if (n =? 26)%nat then
          match field 20 6 s with
          | Some us => Some (h, mi, sec, us)
          | None => None
          end
        else None
      end
    end
  end.

(** [datetime.fromisoformat] on naive timestamps, with the formats it
    is documented to read as the inverse of [isoformat]; any single
    character separates date and time. [None] stands for [ValueError].
    A text with a UTC offset, which the library reads as an aware
    timestamp, and the further forms later versions of the library read
    are not represented: they get [None] here as well. *)
Definition fromisoformat (s : string) : option DateTime :=
  match parse_iso_date s with
  | None => None
  | Some d =>
      let n := String.length s in
      let r :=
        if (n =? 10)%nat then Some (mkDateTime d 0 0 0 0)
        else match parse_iso_time s with
             | Some (h, mi, sec, us) => Some (mkDateTime d h mi sec us)
             | None => None
             end in
      match r with
      | Some t => if valid_datetime t then Some t else None
      | None => None
      end
  end.

(** ** Character classes *)

Definition is_digit_char (c : ascii) : bool :=
  let n := N_of_ascii c in ((48 <=? n) && (n <=? 57))%N.

Definition is_alnum_char (c : ascii) : bool :=
  let n := N_of_ascii c in
  (((48 <=? n) && (n <=? 57)) || ((65 <=? n) && (n <=? 90))
   || ((97 <=? n) && (n <=? 122)))%N.

Fixpoint all_chars (p : ascii -> bool) (s : string) : bool :=
  match s with
  | EmptyString => true
  | String c s' => p c && all_chars p s'
  end.

Definition non_empty (s : string) : bool :=
  match s with
  | EmptyString => false
  | String _ _ => true
  end.

(** [str.isdigit()] and [str.isalnum()] on ASCII text: false on the
    empty string. *)
Definition isdigit (s : string) : bool := non_empty s && all_chars is_digit_char s.

Definition isalnum (s : string) : bool := non_empty s && all_chars is_alnum_char s.

(** [s.replace(" ", "")] *)
Fixpoint remove_blanks (s : string) : string :=
  match s with
  | EmptyString => EmptyString
  | String c s' =>
      if Ascii.eqb c " " then remove_blanks s' else String c (remove_blanks s')
  end.

(** [x or None] for a string. *)
Definition or_none (s : string) : option string :=
  if non_empty s then Some s else None.

(** ** Substrings and timestamps in order *)

(** [needle in hay] for strings. *)
Fixpoint contains (needle hay : string) : bool :=
  String.prefix needle hay ||
  match hay with
  | EmptyString => false
  | String _ hay' => contains needle hay'
  end.

(** Every character lies in the ASCII range. *)
Definition is_ascii (s : string) : bool :=
  all_chars (fun c => (N_of_ascii c <? 128)%N) s.

(** [a <= b] on naive timestamps: the fields compared in order. (With
    one operand aware and the other naive the comparison raises
    [TypeError]; aware timestamps are not represented.) *)
Definition datetime_key (t : DateTime) : list Z :=
  [d_year (dt_date t); d_month (dt_date t); d_day (dt_date t);
   dt_hour t; dt_minute t; dt_second t; dt_microsecond t].

Fixpoint lex_leb (a b : list Z) : bool :=
  match a, b with
  | [], _ => true
  | _ :: _, [] => false
  | x :: a', y :: b' => (x <? y) || ((x =? y) && lex_leb a' b')
  end.

Definition datetime_leb (a b : DateTime) : bool :=
  lex_leb (datetime_key a) (datetime_key b).

(** [a < b] on dates: year, month and day compared in order. *)
Definition date_lt (a b : Date) : Prop :=
  d_year a < d_year b \/
  (d_year a = d_year b /\
   (d_month a < d_month b \/ (d_month a = d_month b /\ d_day a < d_day b))).

(** [a == b] on timestamps. *)
Definition datetime_eqb (a b : DateTime) : bool :=
  bool_decide (datetime_key a = datetime_key b).

(** ** Sorting

    [list.sort(key=..., reverse=...)] and [sorted]: the stable sort; with
    [reverse] the order is inverted and equal keys still keep their order. *)
Section Sort.
Context {A K : Type} (key : A -> K) (ltb : K -> K -> bool).

Fixpoint insert_sorted (reverse : bool) (x : A) (l : list A) : list A :=
  match l with
  | [] => [x]
  | y :: l' =>
      let y_first :=
        if reverse then ltb (key x) (key y) else ltb (key y) (key x) in
      if y_first then y :: insert_sorted reverse x l' else x :: y :: l'
  end.

Definition sort_by (reverse : bool) (l : list A) : list A :=
  List.fold_right (insert_sorted reverse) [] l.
End Sort.

(** [all(p(n) for n in range(start, start + count))] *)
Definition all_from (p : Z -> bool) (start : Z) (count : N) : bool :=
  snd (N.iter count (fun st : Z * bool => (fst st + 1, snd st && p (fst st)))
         (start, true)).

(** The order a sort on integer keys is to produce: ascending, or
    descending with [reverse]. *)
Definition key_le {A : Type} (key : A -> Z) (reverse : bool) (a b : A) : Prop :=
  if reverse then key b <= key a else key a <= key b.

End Py.

(* ===================================================================== *)
(** * The SQL-backed manager ([main_v44_free_worked_tst.py]) *)
(* ===================================================================== *)

Module Main.
Import Py.

(** ** Data model *)

(** A task as [_load_tasks] and [_find_task_by_id] hand it out: one
    dictionary entry per column of table [Tasks]. Nullable columns are
    options. *)
Record Task := mkTask {
  id : Z;
  title : string;
  description : option string;
  created_date : option string;
  created_by : option string;
  due_date : option string;
  priority : string;
  category : string;
  main_staff : option string;
  assigned_to : option string;
  completed : bool;
  applied_vessel : string;
  rev : string;
  drawing_no : option string;
  link : string;
  sdb_link : string;
  request_no : string;
  requested_date : option string;
  date_started : option string;
  qtd_mhr : Z;
  actual_mhr : Z;
  last_modified : option string;
  modified_by : option string
}.

(** What the process reads from its surroundings: the login name
    ([_get_current_user]) and the clock ([datetime.datetime.now()]). *)
Record Env := mkEnv {
  current_user : string;
  now : DateTime
}.

(** Table [Tasks] as seen through the connection ([rows], in insertion
    order) and as last committed ([durable]). A row is kept as the
    dictionary [_load_tasks] and [_find_task_by_id] build from it: the
    formatting of [created_date] and [last_modified] on the way out is
    applied where the row is written ([read_created_date],
    [read_last_modified]); the other columns come back as they were
    written. *)
Record Store := mkStore {
  rows : list Task;
  durable : list Task
}.

(** Statements the backend may refuse with a [pyodbc.Error]: INSERT,
    UPDATE and DELETE by id, and the commit. Every SELECT is taken to be
    answered; what the program does when one is refused is not part of
    this model. *)
Record Faults := mkFaults {
  insert_raises : Z -> bool;
  update_raises : Z -> bool;
  delete_raises : Z -> bool;
  commit_raises : bool
}.

Definition no_faults : Faults :=
  mkFaults (fun _ => false) (fun _ => false) (fun _ => false) false.

(** [TaskManager]: the cached list [self.tasks] and the connection. *)
Record TaskManager := mkTaskManager {
  tasks : list Task;
  db : Store
}.

(** The keyword arguments shared by [add_task] and [add_task_direct_id];
    dates arrive as strings, the way the dialog and the table hand them
    out. *)
Record Fields := mkFields {
  f_title : string;
  f_description : option string;
  f_due_date : option string;
  f_priority : string;
  f_category : string;
  f_main_staff : option string;
  f_assigned_to : option string;
  f_applied_vessel : string;
  f_rev : string;
  f_drawing_no : option string;
  f_link : string;
  f_sdb_link : string;
  f_request_no : string;
  f_requested_date : option string;
  f_date_started : option string;
  f_qtd_mhr : Z;
  f_actual_mhr : Z
}.

(** A value given for a column of type DATETIME: a date or datetime
    object, or a text, which stands here for the timestamp the table
    reads it as. *)
Inductive Stamp :=
| StampObject (t : DateTime)
| StampText (t : DateTime).

(** The [**kwargs] of [update_task]: a column is set when its entry is
    [Some]. The callers in the program pass content columns only; the
    four provenance columns are written like any other keyword. *)
Record Kwargs := mkKwargs {
  k_id : option Z;
  k_title : option string;
  k_description : option (option string);
  k_due_date : option (option string);
  k_priority : option string;
  k_category : option string;
  k_main_staff : option (option string);
  k_assigned_to : option (option string);
  k_applied_vessel : option string;
  k_rev : option string;
  k_drawing_no : option (option string);
  k_link : option string;
  k_sdb_link : option string;
  k_request_no : option string;
  k_requested_date : option (option string);
  k_date_started : option (option string);
  k_qtd_mhr : option Z;
  k_actual_mhr : option Z;
  k_completed : option bool;
  k_created_date : option (option Stamp);
  k_created_by : option (option string);
  k_last_modified : option (option Stamp);
  k_modified_by : option (option string)
}.

(** ** Statements on table [Tasks] *)

Definition has_id (i : Z) (t : Task) : bool := id t =? i.

(** [SELECT * FROM Tasks WHERE id = ?] followed by [fetchone()] *)
Definition sql_select_id (i : Z) (s : Store) : option Task :=
  List.find (has_id i) (rows s).

(** [INSERT INTO Tasks (...) VALUES (...)] *)
Definition sql_insert (t : Task) (s : Store) : Store :=
  mkStore (rows s ++ [t]) (durable s).

(** [DELETE FROM Tasks WHERE id = ?]: removes the matching rows, none
    when the id is absent. *)
Definition sql_delete (i : Z) (s : Store) : Store :=
  mkStore (List.filter (fun t => negb (has_id i t)) (rows s)) (durable s).

Definition or_keep {A} (new : option A) (old : A) : A :=
  match new with
  | Some v => v
  | None => old
  end.

(** The timestamp a DATETIME column holds once a value has gone through
    [update_task]: a date object is turned into the text of its day
    ([isinstance(value, datetime.date)]), which the table reads as that
    day at midnight. *)
Definition stored_stamp (v : Stamp) : DateTime :=
  match v with
  | StampObject t => mkDateTime (dt_date t) 0 0 0 0
  | StampText t => t
  end.

(** What [_load_tasks] and [_find_task_by_id] hand out for the two
    columns they format from a timestamp: [created_date] through
    [strftime("%Y-%m-%d")], [last_modified] through
    [strftime("%Y-%m-%d %H:%M:%S")], and [None] for NULL. Both columns
    are taken to be of type DATETIME, the one type for which the
    [isinstance] tests hand out anything but [None]. *)
Definition read_created_date (stored : option DateTime) : option string :=
  (fun t => strftime_ymd (dt_date t)) <$> stored.

Definition read_last_modified (stored : option DateTime) : option string :=
  strftime_ymd_hms <$> stored.

(** A text [YYYY-MM-DD] written into a DATETIME column: that day at
    midnight. *)
Definition midnight (day : Date) : DateTime := mkDateTime day 0 0 0 0.

(** The row after [UPDATE Tasks SET col = ?, ...]; key [id] is left out
    of the [SET] list. *)
Definition set_columns (k : Kwargs) (t : Task) : Task :=
  mkTask (id t)
    (or_keep (k_title k) (title t))
    (or_keep (k_description k) (description t))
    (match k_created_date k with
     | Some v => read_created_date (stored_stamp <$> v)
     | None => created_date t
     end)
    (or_keep (k_created_by k) (created_by t))
    (or_keep (k_due_date k) (due_date t))
    (or_keep (k_priority k) (priority t))
    (or_keep (k_category k) (category t))
    (or_keep (k_main_staff k) (main_staff t))
    (or_keep (k_assigned_to k) (assigned_to t))
    (or_keep (k_completed k) (completed t))
    (or_keep (k_applied_vessel k) (applied_vessel t))
    (or_keep (k_rev k) (rev t))
    (or_keep (k_drawing_no k) (drawing_no t))
    (or_keep (k_link k) (link t))
    (or_keep (k_sdb_link k) (sdb_link t))
    (or_keep (k_request_no k) (request_no t))
    (or_keep (k_requested_date k) (requested_date t))
    (or_keep (k_date_started k) (date_started t))
    (or_keep (k_qtd_mhr k) (qtd_mhr t))
    (or_keep (k_actual_mhr k) (actual_mhr t))
    (match k_last_modified k with
     | Some v => read_last_modified (stored_stamp <$> v)
     | None => last_modified t
     end)
    (or_keep (k_modified_by k) (modified_by t)).

(** [UPDATE Tasks SET ... WHERE id = ?] *)
Definition sql_update (i : Z) (k : Kwargs) (s : Store) : Store :=
  mkStore (List.map (fun t => if has_id i t then set_columns k t else t) (rows s))
          (durable s).

(** [self.conn.commit()] *)
Definition conn_commit (s : Store) : Store := mkStore (rows s) (rows s).

(** ** [TaskManager] *)

(** [_load_tasks] with a SELECT that is answered: the dictionaries of
    all rows. (A refused SELECT would yield the empty list; see
    [Faults].) *)
Definition _load_tasks (tm : TaskManager) : list Task := rows (db tm).

(** [_find_task_by_id] with a SELECT that is answered: the dictionary of
    the first row with the id, [None] when there is none. (A refused
    SELECT would yield [None] as well.) *)
Definition _find_task_by_id (tm : TaskManager) (task_id : Z) : option Task :=
  sql_select_id task_id (db tm).

Definition reload_tasks (tm : TaskManager) : TaskManager :=
  mkTaskManager (_load_tasks tm) (db tm).

(** [max(task.get("id", 0) for task in self.tasks)] on a non-empty list *)
Definition max_id (t : Task) (ts : list Task) : Z :=
  List.fold_left (fun m u => Z.max m (id u)) ts (id t).

(** The id [add_task] generates from the cached list. *)
Definition new_id (cache : list Task) : Z :=
  match cache with
  | [] => 1
  | t :: ts => max_id t ts + 1
  end.

(** The tuple [task_data] of [add_task]: the completed flag is the
    literal [False]; the two modification columns are not written. *)
Definition add_task_row (e : Env) (i : Z) (a : Fields) : Task :=
  mkTask i (f_title a) (f_description a)
    (read_created_date (Some (midnight (dt_date (now e))))) (Some (current_user e))
    (f_due_date a) (lower (f_priority a)) (f_category a)
    (f_main_staff a) (f_assigned_to a) false
    (f_applied_vessel a) (f_rev a) (f_drawing_no a) (f_link a)
    (f_sdb_link a) (f_request_no a) (f_requested_date a) (f_date_started a)
    (f_qtd_mhr a) (f_actual_mhr a) None None.

Inductive AddResult :=
| Added (t : Task)      (* inserted, committed, cache reloaded *)
| IdConflict            (* the generated id is taken: nothing is written, and
                           the report ([parent=self.root], which a
                           [TaskManager] does not have) raises
                           [AttributeError] *)
| DbError.              (* a [pyodbc.Error] was caught and reported *)

(** [TaskManager.add_task] *)
Definition add_task (f : Faults) (e : Env) (tm : TaskManager) (a : Fields)
  : TaskManager * AddResult :=
  let i := new_id (tasks tm) in
  match _find_task_by_id tm i with
  | Some _ => (tm, IdConflict)
  | None =>
      if insert_raises f i then (tm, DbError)
      else
        let row := add_task_row e i a in
        let s1 := sql_insert row (db tm) in
        if commit_raises f then (mkTaskManager (tasks tm) s1, DbError)
        else
          let tm1 := mkTaskManager (tasks tm) (conn_commit s1) in
          (reload_tasks tm1, Added row)
  end.

(** The tuple [task_data] of [add_task_direct_id]: the caller's id and
    completed flag; all four provenance columns are stamped from the
    clock and the login name. [last_modified] is written as the text of
    the day, like [created_date], and so comes back as that day at
    midnight. *)
Definition direct_id_row (e : Env) (task_id : Z) (a : Fields) (done : bool) : Task :=
  let created := midnight (dt_date (now e)) in
  let user := current_user e in
  mkTask task_id (f_title a) (f_description a)
    (read_created_date (Some created)) (Some user)
    (f_due_date a) (lower (f_priority a)) (f_category a)
    (f_main_staff a) (f_assigned_to a) done
    (f_applied_vessel a) (f_rev a) (f_drawing_no a) (f_link a)
    (f_sdb_link a) (f_request_no a) (f_requested_date a) (f_date_started a)
    (f_qtd_mhr a) (f_actual_mhr a) (read_last_modified (Some created)) (Some user).

(** [TaskManager.add_task_direct_id] *)
Definition add_task_direct_id (f : Faults) (e : Env) (tm : TaskManager)
    (task_id : Z) (a : Fields) (done : bool) : TaskManager :=
  if insert_raises f task_id then tm
  else
    let s1 := sql_insert (direct_id_row e task_id a done) (db tm) in
    if commit_raises f then mkTaskManager (tasks tm) s1
    else reload_tasks (mkTaskManager (tasks tm) (conn_commit s1)).

(** [validate_date] inside [update_task] *)
Definition validate_date (date_str : option string) : option string :=
  match date_str with
  | Some s =>
      if truthy (Some s) then
        match strptime_ymd s with
        | Some _ => Some s
        | None => None
        end
      else None
  | None => None
  end.

Definition validate_dates (k : Kwargs) : Kwargs :=
  mkKwargs (k_id k) (k_title k) (k_description k)
    (validate_date <$> k_due_date k)
    (k_priority k) (k_category k) (k_main_staff k) (k_assigned_to k)
    (k_applied_vessel k) (k_rev k) (k_drawing_no k) (k_link k) (k_sdb_link k)
    (k_request_no k)
    (validate_date <$> k_requested_date k)
    (validate_date <$> k_date_started k)
    (k_qtd_mhr k) (k_actual_mhr k) (k_completed k)
    (k_created_date k) (k_created_by k) (k_last_modified k) (k_modified_by k).

(** No key other than [id]: the statement built is malformed. *)
Definition no_columns (k : Kwargs) : bool :=
  match k_title k, k_description k, k_due_date k, k_priority k, k_category k,
        k_main_staff k, k_assigned_to k, k_applied_vessel k, k_rev k,
        k_drawing_no k, k_link k, k_sdb_link k, k_request_no k,
        k_requested_date k, k_date_started k, k_qtd_mhr k, k_actual_mhr k,
        k_completed k, k_created_date k, k_created_by k, k_last_modified k,
        k_modified_by k with
  | None, None, None, None, None, None, None, None, None,
    None, None, None, None, None, None, None, None, None,
    None, None, None, None => true
  | _, _, _, _, _, _, _, _, _, _, _, _, _, _, _, _, _, _, _, _, _, _ => false
  end.

(** [TaskManager.update_task] *)
Definition update_task (f : Faults) (tm : TaskManager) (task_id : Z) (k : Kwargs)
  : TaskManager :=
  let k1 := validate_dates k in
  if no_columns k1 then tm
  else if update_raises f task_id then tm
  else
    let s1 := sql_update task_id k1 (db tm) in
    if commit_raises f then mkTaskManager (tasks tm) s1
    else reload_tasks (mkTaskManager (tasks tm) (conn_commit s1)).

(** The loop of [batch_delete_tasks]: every id is attempted; a refused
    statement is logged and the loop goes on. *)
Fixpoint batch_delete_loop (f : Faults) (s : Store) (task_ids : list Z)
  : Store * (list Z * list Z) :=
  match task_ids with
  | [] => (s, ([], []))
  | i :: rest =>
      if delete_raises f i then
        let '(s', (ok, ko)) := batch_delete_loop f s rest in
        (s', (ok, i :: ko))
      else
        let '(s', (ok, ko)) := batch_delete_loop f (sql_delete i s) rest in
        (s', (i :: ok, ko))
  end.

(** [TaskManager.batch_delete_tasks]: the commit follows the loop whatever
    it met; the cached list is left as it is. *)
Definition batch_delete_tasks (f : Faults) (tm : TaskManager) (task_ids : list Z)
  : TaskManager * (list Z * list Z) :=
  let '(s1, (ok, ko)) := batch_delete_loop f (db tm) task_ids in
  if commit_raises f then (mkTaskManager (tasks tm) s1, ([], task_ids))
  else (mkTaskManager (tasks tm) (conn_commit s1), (ok, ko)).

(** [BEGIN TRANSACTION], [COMMIT TRANSACTION], [ROLLBACK TRANSACTION] as
    statements on the cursor: commit makes the connection's view durable,
    rollback returns to the last durable state. *)
Definition begin_transaction (tm : TaskManager) : TaskManager := tm.

Definition commit_transaction (tm : TaskManager) : TaskManager :=
  mkTaskManager (tasks tm) (conn_commit (db tm)).

Definition rollback_transaction (tm : TaskManager) : TaskManager :=
  mkTaskManager (tasks tm) (mkStore (durable (db tm)) (durable (db tm))).

(** ** [TaskManager]: the remaining operations *)

(** [TaskManager.delete_task] (the manager's own, next to the
    application's [delete_task] above): one DELETE, committed at once.
    The flag it returns tells that no statement was refused, not that a
    row went away. *)
Definition tm_delete_task (f : Faults) (tm : TaskManager) (task_id : Z)
  : TaskManager * bool :=
  if delete_raises f task_id then (tm, false)
  else
    let s1 := sql_delete task_id (db tm) in
    if commit_raises f then (mkTaskManager (tasks tm) s1, false)
    else (reload_tasks (mkTaskManager (tasks tm) (conn_commit s1)), true).

(** Keyword arguments with the one key [completed] ... *)
Definition kw_completed (value : bool) : Kwargs :=
  mkKwargs None None None None None None None None None None None None None None
    None None None None (Some value) None None None None.

(** ... and with the one key [assigned_to]. *)
Definition kw_assigned_to (staff_name : string) : Kwargs :=
  mkKwargs None None None None None None None (Some (Some staff_name)) None None
    None None None None None None None None None None None None None.

(** [TaskManager.complete_task] *)
Definition tm_complete_task (f : Faults) (tm : TaskManager) (task_id : Z)
  : TaskManager :=
  update_task f tm task_id (kw_completed true).

(** A filter argument counts when it is neither [None] nor empty. *)
Definition column_is (wanted : option string) (value : option string) : bool :=
  if truthy wanted then
    match wanted, value with
    | Some w, Some v => String.eqb v w
    | _, _ => false
    end
  else true.

(** The [WHERE] clause [get_filtered_tasks] builds from its arguments
    [show_completed], [category], [main_staff] and [assigned_to]; a [NULL]
    column equals nothing. *)
Definition where_clause (show_completed : bool)
    (by_category by_main_staff by_assigned_to : option string) (t : Task) : bool :=
  (show_completed || negb (completed t)) &&
  column_is by_category (Some (category t)) &&
  column_is by_main_staff (main_staff t) &&
  column_is by_assigned_to (assigned_to t).

(** [TaskManager.get_filtered_tasks] *)
Definition get_filtered_tasks (tm : TaskManager) (show_completed : bool)
    (by_category by_main_staff by_assigned_to : option string) : list Task :=
  List.filter (where_clause show_completed by_category by_main_staff by_assigned_to)
    (rows (db tm)).

(** ** [TaskManagerApp] *)

(** An entry of [deleted_tasks_stack]: keys ['timestamp'], ['tasks'] and
    ['task_ids'] of the dictionary [deletion_record]. *)
Record DeletionRecord := mkDeletionRecord {
  timestamp : DateTime;
  rec_tasks : list Task;
  rec_task_ids : list Z
}.

(** The part of the application the mutation core works on. The stack is
    a Python list: its top is the last element. *)
Record TaskManagerApp := mkApp {
  task_manager : TaskManager;
  deleted_tasks_stack : list DeletionRecord;
  max_undo_stack_size : nat
}.

(** [TaskManagerApp.__init__]: an empty stack of at most ten entries. *)
Definition init (tm : TaskManager) : TaskManagerApp := mkApp tm [] 10.

(** [refresh_task_list], as far as the task set goes: the cached list is
    reloaded ([_perform_task_refresh]). *)
Definition refresh_task_list (app : TaskManagerApp) : TaskManagerApp :=
  mkApp (reload_tasks (task_manager app))
        (deleted_tasks_stack app) (max_undo_stack_size app).

(** [stack.append(record)] followed by [stack.pop(0)] when the stack has
    grown beyond its maximum. *)
Definition push_bounded (limit : nat) (stack : list DeletionRecord)
    (record : DeletionRecord) : list DeletionRecord :=
  let stack1 := stack ++ [record] in
  if (limit <? length stack1)%nat then List.tl stack1 else stack1.

(** [TaskManagerApp.delete_task] on the selected ids, with the answer to
    the confirmation dialog. *)
Definition delete_task (f : Faults) (e : Env) (app : TaskManagerApp)
    (task_ids : list Z) (confirmed : bool) : TaskManagerApp :=
  match task_ids with
  | [] => app
  | _ :: _ =>
    if negb confirmed then app
    else
      let limit := max_undo_stack_size app in
      let tm0 := begin_transaction (task_manager app) in
      let tasks_to_delete := omap (_find_task_by_id tm0) task_ids in
      match tasks_to_delete with
      | [] => mkApp tm0 (deleted_tasks_stack app) limit
      | _ :: _ =>
        let deletion_record := mkDeletionRecord (now e) tasks_to_delete task_ids in
        let stack1 := push_bounded limit (deleted_tasks_stack app) deletion_record in
        let '(tm1, (successful_deletions, failed_deletions)) :=
          batch_delete_tasks f tm0 task_ids in
        match failed_deletions with
        | _ :: _ => mkApp (rollback_transaction tm1) (List.removelast stack1) limit
        | [] => refresh_task_list (mkApp (commit_transaction tm1) stack1 limit)
        end
      end
  end.

(** The arguments [undo_delete] hands to [add_task_direct_id] ... *)
Definition fields_of (task : Task) : Fields :=
  mkFields (title task) (description task) (due_date task) (priority task)
    (category task) (main_staff task) (assigned_to task) (applied_vessel task)
    (rev task) (drawing_no task) (link task) (sdb_link task) (request_no task)
    (requested_date task) (date_started task) (qtd_mhr task) (actual_mhr task).

(** ... and to [update_task]: eighteen columns, neither the id nor a
    provenance column among them. *)
Definition kwargs_of (task : Task) : Kwargs :=
  mkKwargs None (Some (title task)) (Some (description task))
    (Some (due_date task)) (Some (priority task)) (Some (category task))
    (Some (main_staff task)) (Some (assigned_to task))
    (Some (applied_vessel task)) (Some (rev task)) (Some (drawing_no task))
    (Some (link task)) (Some (sdb_link task)) (Some (request_no task))
    (Some (requested_date task)) (Some (date_started task))
    (Some (qtd_mhr task)) (Some (actual_mhr task)) (Some (completed task))
    None None None None.

(** The body of the restore loop of [undo_delete]: look the id up; update
    the row that holds it, or insert the task under its id. *)
Definition restore_task (f : Faults) (e : Env) (tm : TaskManager) (task : Task)
  : TaskManager :=
  match _find_task_by_id tm (id task) with
  | Some _ => update_task f tm (id task) (kwargs_of task)
  | None => add_task_direct_id f e tm (id task) (fields_of task) (completed task)
  end.

(** [TaskManagerApp.undo_delete]. Both manager calls report a refused
    statement themselves, so every task of the record counts as restored. *)
Definition undo_delete (f : Faults) (e : Env) (app : TaskManagerApp)
  : TaskManagerApp :=
  match List.rev (deleted_tasks_stack app) with
  | [] => app
  | deletion_record :: _ =>
      let limit := max_undo_stack_size app in
      let stack1 := List.removelast (deleted_tasks_stack app) in
      let tm0 := begin_transaction (task_manager app) in
      let tasks_to_restore := rec_tasks deletion_record in
      let tm1 := List.fold_left (restore_task f e) tasks_to_restore tm0 in
      match tasks_to_restore with
      | [] => mkApp (rollback_transaction tm1) stack1 limit
      | _ :: _ => refresh_task_list (mkApp (commit_transaction tm1) stack1 limit)
      end
  end.

(** ** Sorting ([TaskManagerApp.apply_sorting]) *)

(** Values of [status_key]: a rank and a string, compared as a tuple. *)
Definition StatusKey : Type := Z * string.

(** [status_key], with the day [datetime.date.today()] returns. *)
Definition status_key (today : Date) (task : Task) : StatusKey :=
  if completed task then (2, EmptyString)
  else if negb (truthy (due_date task)) then (1, EmptyString)
  else
    match due_date task with
    | None => (1, EmptyString)
    | Some s =>
        match strptime_ymd s with
        | None => (1, EmptyString)
        | Some due =>
            let days_until_due := days_between due today in
            if days_until_due <? 0
            then (0, format_0d 4 (Z.abs days_until_due))
            else (0, format_0d 4 (days_until_due + 10000))
        end
    end.

(** [priority_key]: the rank of the lower-cased priority, 3 when it is
    none of the three. *)
Definition priority_key (task : Task) : Z :=
  let p := lower (priority task) in
  if String.eqb p "high" then 0
  else if String.eqb p "medium" then 1
  else if String.eqb p "low" then 2
  else 3.

(** Tuple order on status keys: [a < b]. *)
Definition status_key_ltb (a b : StatusKey) : bool :=
  (fst a <? fst b) || ((fst a =? fst b) && String.ltb (snd a) (snd b)).

(** The columns [apply_sorting] gives a key function of their own. *)
Inductive SortColumn := ColStatus | ColPriority.

(** [apply_sorting] for those columns. *)
Definition apply_sorting (today : Date) (sort_column : SortColumn)
    (sort_reverse : bool) (tasks : list Task) : list Task :=
  match sort_column with
  | ColStatus => sort_by (status_key today) status_key_ltb sort_reverse tasks
  | ColPriority => sort_by priority_key Z.ltb sort_reverse tasks
  end.

(** ** [TaskDialog] *)

(** [USERS] *)
Definition USERS : list string :=
  ["All"; "Jay"; "Jude"; "Jorgen"; "Earl"; "Philip"; "Sam"; "Glenn"].

(** The variables and widgets [TaskDialog.save] reads. A date picker
    whose [get()] raises yields [None]; [dialog_completed_var] exists
    when a task is edited. *)
Record DialogVars := mkDialogVars {
  request_no_var : string;
  title_var : string;
  applied_vessel_var : string;
  rev_var : string;
  link_var : string;
  sdb_link_var : string;
  main_staff_var : string;
  priority_var : string;
  category_var : string;
  assigned_to_var : string;
  qtd_mhr_var : string;
  actual_mhr_var : string;
  drawing_no_var : string;
  description_text : string;
  requested_date_picker : option string;
  date_started_picker : option string;
  due_date_picker : option string;
  dialog_completed_var : option bool
}.

Definition required (value : string) (message : string) : list string :=
  if non_empty value then [] else [message].

Definition in_list (s : string) (l : list string) : bool := existsb (String.eqb s) l.

Definition one_of_users (value : string) (label : string) : list string :=
  if non_empty value && negb (in_list value (List.tl USERS))
  then [String.append label
          (String.append " must be one of: " (String.concat ", " (List.tl USERS)))]
  else [].

(** An optional man-hour entry: a run of digits when it is not empty. *)
Definition mhr_errors (value : string) (label : string) : list string :=
  if non_empty value && negb (isdigit value)
  then [String.append label " must be an integer"]
  else [].

Definition mhr_value (value : string) : Z :=
  match parse_digits value with
  | Some n => n
  | None => 0
  end.

(** The list [validation_errors] of [TaskDialog.save], in the order the
    checks run. *)
Definition validation_errors (v : DialogVars) : list string :=
  required (strip (request_no_var v)) "Request No. is required" ++
  required (strip (title_var v)) "Equipment Name is required" ++
  required (strip (applied_vessel_var v)) "Applied Vessel is required" ++
  (let rev := strip (rev_var v) in
   if negb (non_empty rev) then ["Rev is required"]
   else if negb (isdigit rev) then ["Rev must be a valid integer"]
   else []) ++
  required (strip (link_var v)) "Link is required" ++
  required (strip (sdb_link_var v)) "SDB Link is required" ++
  required (strip (main_staff_var v)) "Main Staff is required" ++
  (if in_list (lower (priority_var v)) ["low"; "medium"; "high"] then []
   else ["Priority must be one of: Low, Medium, High"]) ++
  (let category := strip (category_var v) in
   if negb (non_empty category) then ["Category is required"]
   else if negb (isalnum (remove_blanks category))
        then ["Category must be alphanumeric and spaces only"]
   else []) ++
  one_of_users (main_staff_var v) "Main Staff" ++
  one_of_users (assigned_to_var v) "Assigned To" ++
  mhr_errors (strip (qtd_mhr_var v)) "Qtd Mhr" ++
  mhr_errors (strip (actual_mhr_var v)) "Actual Mhr".

(** [TaskDialog.save]: [self.result], or [None] when a check failed and
    the dialog stays open. *)
Definition save (v : DialogVars) : option (Fields * option bool) :=
  match validation_errors v with
  | _ :: _ => None
  | [] =>
      Some (mkFields
              (strip (title_var v))
              (or_none (strip (description_text v)))
              (due_date_picker v)
              (priority_var v)
              (let category := strip (category_var v) in
               if non_empty category then category else "general")
              (Some (main_staff_var v))
              (or_none (strip (assigned_to_var v)))
              (strip (applied_vessel_var v))
              (strip (rev_var v))
              (or_none (strip (drawing_no_var v)))
              (strip (link_var v))
              (strip (sdb_link_var v))
              (strip (request_no_var v))
              (requested_date_picker v)
              (date_started_picker v)
              (mhr_value (strip (qtd_mhr_var v)))
              (mhr_value (strip (actual_mhr_var v))),
            dialog_completed_var v)
  end.

(** ** The view ([_perform_task_refresh], [update_status]) *)

(** A filter variable of the header: ["All"] stands for no filter. *)
Definition filter_arg (var : string) : option string :=
  if String.eqb var "All" then None else Some var.

(** The test of the search comprehension on one task: the six fields in
    the order they are read, each lower-cased; the first that contains
    the term decides. A field holding [None] has no [lower]: reaching it
    raises, which [None] stands for. *)
Definition search_matches (search_term : string) (task : Task) : option bool :=
  if contains search_term (lower (title task)) then Some true
  else
    match description task with
    | None => None
    | Some d =>
      if contains search_term (lower d) then Some true
      else if contains search_term (lower (applied_vessel task)) then Some true
      else if contains search_term (lower (category task)) then Some true
      else
        match main_staff task with
        | None => None
        | Some m =>
          if contains search_term (lower m) then Some true
          else
            match assigned_to task with
            | None => None
            | Some a => Some (contains search_term (lower a))
            end
        end
    end.

(** The comprehension over the filtered tasks: one task that raises ends
    it. *)
Fixpoint search_filter (search_term : string) (l : list Task) : option (list Task) :=
  match l with
  | [] => Some []
  | task :: l' =>
      match search_matches search_term task with
      | None => None
      | Some keep =>
          match search_filter search_term l' with
          | None => None
          | Some r => Some (if keep then task :: r else r)
          end
      end
  end.

(** The rows [_perform_task_refresh] goes on to show: reload, filter,
    search, sort. [None] when the search raised and the refresh ended in
    its error handler with a cleared tree. *)
Definition visible_tasks (today : Date) (tm : TaskManager) (show_completed : bool)
    (category_var main_staff_var user_var search_var : string)
    (sort : option (SortColumn * bool)) : option (list Task) :=
  let tm1 := reload_tasks tm in
  let filtered_tasks :=
    get_filtered_tasks tm1 show_completed (filter_arg category_var)
      (filter_arg main_staff_var) (filter_arg user_var) in
  let search_term := strip (lower search_var) in
  match (if non_empty search_term then search_filter search_term filtered_tasks
         else Some filtered_tasks) with
  | None => None
  | Some l =>
      Some (match sort with
            | Some (column, reverse) => apply_sorting today column reverse l
            | None => l
            end)
  end.

(** The days to the due date, when the task has one that parses. *)
Definition days_until_due (today : Date) (due : option string) : option Z :=
  if truthy due then
    match due with
    | Some s =>
        match strptime_ymd s with
        | Some d => Some (days_between d today)
        | None => None
        end
    | None => None
    end
  else None.

(** The status tag of a row in [_perform_task_refresh] ... *)
Definition status_tag (today : Date) (task : Task) : string :=
  if completed task then "completed"
  else
    match days_until_due today (due_date task) with
    | None => "pending"
    | Some days =>
        if days <? 0 then "overdue"
        else if days =? 0 then "due_today"
        else if days =? 1 then "pending_soon"
        else if days <=? 3 then "pending_soon"
        else "pending"
    end.

(** ... and the text that goes with it (in UTF-8). *)
Definition status_text (today : Date) (task : Task) : string :=
  if completed task then "✓ Completed"
  else
    match days_until_due today (due_date task) with
    | None => "• No Due Date"
    | Some days =>
        if days <? 0
        then String.append "! " (String.append (decimal (Z.abs days)) " Days Overdue")
        else if days =? 0 then "! Due Today"
        else if days =? 1 then "! Due Tomorrow"
        else String.append "• " (String.append (decimal days) " Days Left")
    end.

(** [_get_due_date_color] *)
Definition _get_due_date_color (today : Date) (due_date_str : option string) : string :=
  match days_until_due today due_date_str with
  | None => "#ffffff"
  | Some days =>
      if days <? 0 then "#ffcccc"
      else if days =? 0 then "#ffd9d9"
      else if days <=? 3 then "#ffe6e6"
      else if days <=? 7 then "#fff2cc"
      else if days <=? 14 then "#e6ffcc"
      else "#ccffcc"
  end.

(** The three numbers [update_status] shows: total, completed, pending. *)
Definition status_counts (tm : TaskManager) : Z * Z * Z :=
  let total := Z.of_nat (length (tasks tm)) in
  let done := Z.of_nat (length (List.filter completed (tasks tm))) in
  (total, done, total - done).

(** The term occurs in one of the six searched fields, an absent field
    holding nothing. *)
Definition matches_any (search_term : string) (task : Task) : bool :=
  let has (o : option string) :=
    match o with
    | Some s => contains search_term (lower s)
    | None => false
    end in
  contains search_term (lower (title task)) || has (description task) ||
  contains search_term (lower (applied_vessel task)) ||
  contains search_term (lower (category task)) ||
  has (main_staff task) || has (assigned_to task).

(** The row [undo_delete] inserts for a task of a deletion record. *)
Definition restamped (e : Env) (task : Task) : Task :=
  direct_id_row e (id task) (fields_of task) (completed task).

(** The place of a task in the order the status column is meant to give:
    overdue tasks by days overdue, then tasks by days left, then tasks
    without a due date, then completed tasks. *)
Definition status_order (today : Date) (task : Task) : Z :=
  if completed task then 200000
  else
    match days_until_due today (due_date task) with
    | None => 100000
    | Some days => if days <? 0 then Z.abs days else days + 10000
    end.

(** The due date is at most 999 days past and less than 90000 days
    ahead, when the task is pending and has one. *)
Definition near_due (today : Date) (task : Task) : Prop :=
  completed task = false ->
  forall days, days_until_due today (due_date task) = Some days ->
  -999 <= days < 90000.

(** ** [TaskManagerApp]: the remaining operations *)

(** [batch_update_completion_status] *)
Definition batch_update_completion_status (f : Faults) (tm : TaskManager)
    (task_ids : list Z) (value : bool) : TaskManager :=
  List.fold_left (fun tm0 task_id => update_task f tm0 task_id (kw_completed value))
    task_ids tm.

(** The answers to the question [complete_task] asks on a selection of
    mixed status. *)
Inductive MixedAnswer := AnswerYes | AnswerNo | AnswerCancel.

(** [TaskManagerApp.complete_task] on the selected ids. [confirmed]
    answers the yes/no dialog of a uniform selection, [choice] the
    question on a mixed one. Ids that resolve to no task are left out of
    both tests. *)
Definition complete_task (f : Faults) (app : TaskManagerApp) (task_ids : list Z)
    (confirmed : bool) (choice : MixedAnswer) : TaskManagerApp :=
  match task_ids with
  | [] => app
  | _ :: _ =>
      let tm := task_manager app in
      let found := omap (_find_task_by_id tm) task_ids in
      let all_completed := forallb completed found in
      let all_pending := forallb (fun task => negb (completed task)) found in
      let tm1 :=
        if all_completed then
          (if confirmed then batch_update_completion_status f tm task_ids false else tm)
        else if all_pending then
          (if confirmed then batch_update_completion_status f tm task_ids true else tm)
        else
          match choice with
          | AnswerYes => batch_update_completion_status f tm task_ids true
          | AnswerNo => batch_update_completion_status f tm task_ids false
          | AnswerCancel => tm
          end in
      refresh_task_list
        (mkApp tm1 (deleted_tasks_stack app) (max_undo_stack_size app))
  end.

(** [TaskManagerApp.assign_task_to] *)
Definition assign_task_to (f : Faults) (app : TaskManagerApp) (task_ids : list Z)
    (staff_name : string) : TaskManagerApp :=
  match task_ids with
  | [] => app
  | _ :: _ =>
      let tm1 :=
        List.fold_left
          (fun tm0 task_id => update_task f tm0 task_id (kw_assigned_to staff_name))
          task_ids (task_manager app) in
      refresh_task_list
        (mkApp tm1 (deleted_tasks_stack app) (max_undo_stack_size app))
  end.

(** [TaskManagerApp.add_task] with the dialog as the user left it. The
    dialog for a new task has no completed flag; were there one, the
    call of [add_task] would be refused for its unknown keyword. On an
    id conflict the [AttributeError] leaves [add_task] before the
    refresh: nothing has changed. *)
Definition app_add_task (f : Faults) (e : Env) (app : TaskManagerApp)
    (dialog : DialogVars) : TaskManagerApp :=
  match save dialog with
  | Some (fields, None) =>
      match add_task f e (task_manager app) fields with
      | (_, IdConflict) => app
      | (tm1, _) =>
          refresh_task_list
            (mkApp tm1 (deleted_tasks_stack app) (max_undo_stack_size app))
      end
  | _ => app
  end.

(** The keywords of [dialog.result], as handed to [update_task]. *)
Definition kwargs_of_result (result : Fields * option bool) : Kwargs :=
  let a := result.1 in
  mkKwargs None (Some (f_title a)) (Some (f_description a)) (Some (f_due_date a))
    (Some (f_priority a)) (Some (f_category a)) (Some (f_main_staff a))
    (Some (f_assigned_to a)) (Some (f_applied_vessel a)) (Some (f_rev a))
    (Some (f_drawing_no a)) (Some (f_link a)) (Some (f_sdb_link a))
    (Some (f_request_no a)) (Some (f_requested_date a)) (Some (f_date_started a))
    (Some (f_qtd_mhr a)) (Some (f_actual_mhr a)) result.2
    None None None None.

(** [TaskManagerApp.edit_task] with the selected id (none, or the falsy
    id 0, ends the operation) and the dialog as the user left it. *)
Definition edit_task (f : Faults) (app : TaskManagerApp) (selected : option Z)
    (dialog : DialogVars) : TaskManagerApp :=
  match selected with
  | None => app
  | Some task_id =>
      if task_id =? 0 then app
      else
        match _find_task_by_id (task_manager app) task_id with
        | None => app
        | Some _ =>
            match save dialog with
            | None => app
            | Some result =>
                refresh_task_list
                  (mkApp (update_task f (task_manager app) task_id (kwargs_of_result result))
                         (deleted_tasks_stack app) (max_undo_stack_size app))
            end
        end
  end.

(** Everything the user can do to the task set. *)
Inductive Command :=
| CmdAdd (f : Faults) (e : Env) (dialog : DialogVars)
| CmdEdit (f : Faults) (selected : option Z) (dialog : DialogVars)
| CmdComplete (f : Faults) (task_ids : list Z) (confirmed : bool) (choice : MixedAnswer)
| CmdAssign (f : Faults) (task_ids : list Z) (staff_name : string)
| CmdDelete (f : Faults) (e : Env) (task_ids : list Z) (confirmed : bool)
| CmdUndo (f : Faults) (e : Env).

Definition exec (app : TaskManagerApp) (c : Command) : TaskManagerApp :=
  match c with
  | CmdAdd f e dialog => app_add_task f e app dialog
  | CmdEdit f selected dialog => edit_task f app selected dialog
  | CmdComplete f task_ids confirmed choice => complete_task f app task_ids confirmed choice
  | CmdAssign f task_ids staff_name => assign_task_to f app task_ids staff_name
  | CmdDelete f e task_ids confirmed => delete_task f e app task_ids confirmed
  | CmdUndo f e => undo_delete f e app
  end.

Definition exec_all (app : TaskManagerApp) (cs : list Command) : TaskManagerApp :=
  List.fold_left exec cs app.

(** Ids are unique in the table and in its committed state. *)
Definition unique_ids (tm : TaskManager) : Prop :=
  NoDup (id <$> rows (db tm)) /\ NoDup (id <$> durable (db tm)).

(** What the dialog lets through to a stored row. *)
Definition well_formed_row (t : Task) : Prop :=
  title t <> EmptyString /\
  In (priority t) ["low"; "medium"; "high"]%string /\
  category t <> EmptyString /\
  (exists u, In u (List.tl USERS) /\ main_staff t = Some u) /\
  (assigned_to t = None \/ exists u, In u (List.tl USERS) /\ assigned_to t = Some u) /\
  applied_vessel t <> EmptyString /\
  isdigit (rev t) = true /\
  link t <> EmptyString /\ sdb_link t <> EmptyString /\ request_no t <> EmptyString /\
  0 <= qtd_mhr t /\ 0 <= actual_mhr t.

(** ** Runs of the application *)

(** The two operations that touch the deletion history. *)
Inductive Op :=
| OpDelete (f : Faults) (e : Env) (task_ids : list Z) (confirmed : bool)
| OpUndo (f : Faults) (e : Env).

Definition step (app : TaskManagerApp) (op : Op) : TaskManagerApp :=
  match op with
  | OpDelete f e task_ids confirmed => delete_task f e app task_ids confirmed
  | OpUndo f e => undo_delete f e app
  end.

Definition run (app : TaskManagerApp) (ops : list Op) : TaskManagerApp :=
  List.fold_left step ops app.

(** ** Predicates of the statements *)

(** The rows left once the ids of a batch are deleted. *)
Definition without_ids (ids : list Z) (l : list Task) : list Task :=
  List.filter (fun t => negb (existsb (Z.eqb (id t)) ids)) l.

(** [t'] carries the id and the eighteen content columns of [t], the
    priority in lower case. *)
Definition same_content (t t' : Task) : Prop :=
  id t' = id t /\ title t' = title t /\ description t' = description t /\
  due_date t' = due_date t /\ priority t' = lower (priority t) /\
  category t' = category t /\ main_staff t' = main_staff t /\
  assigned_to t' = assigned_to t /\ completed t' = completed t /\
  applied_vessel t' = applied_vessel t /\ rev t' = rev t /\
  drawing_no t' = drawing_no t /\ link t' = link t /\ sdb_link t' = sdb_link t /\
  request_no t' = request_no t /\ requested_date t' = requested_date t /\
  date_started t' = date_started t /\ qtd_mhr t' = qtd_mhr t /\
  actual_mhr t' = actual_mhr t.

(** The four provenance columns of [t'] hold the day and the user of the
    restore: [created_date] as [YYYY-MM-DD], [last_modified] as that day
    at midnight, [YYYY-MM-DD 00:00:00]. *)
Definition stamped (e : Env) (t' : Task) : Prop :=
  created_date t' = Some (strftime_ymd (dt_date (now e))) /\
  created_by t' = Some (current_user e) /\
  last_modified t' =
    Some (String.append (strftime_ymd (dt_date (now e))) " 00:00:00") /\
  modified_by t' = Some (current_user e).

(** [r'] is row [r] with its content columns overwritten from [task]:
    dates pass [validate_date], id and provenance stay those of [r]. *)
Definition overwritten (task r r' : Task) : Prop :=
  id r' = id r /\ title r' = title task /\ description r' = description task /\
  due_date r' = validate_date (due_date task) /\ priority r' = priority task /\
  category r' = category task /\ main_staff r' = main_staff task /\
  assigned_to r' = assigned_to task /\ completed r' = completed task /\
  applied_vessel r' = applied_vessel task /\ rev r' = rev task /\
  drawing_no r' = drawing_no task /\ link r' = link task /\
  sdb_link r' = sdb_link task /\ request_no r' = request_no task /\
  requested_date r' = validate_date (requested_date task) /\
  date_started r' = validate_date (date_started task) /\
  qtd_mhr r' = qtd_mhr task /\ actual_mhr r' = actual_mhr task /\
  created_date r' = created_date r /\ created_by r' = created_by r /\
  last_modified r' = last_modified r /\ modified_by r' = modified_by r.

End Main.

(* ===================================================================== *)
(** * The file-backed manager ([task_manager_v1.1.py]) *)
(* ===================================================================== *)

Module V11.
Import Py.

(** ** Data model *)

(** Values a field of a task or an entry of the JSON document can hold
    (numbers are integers, nested objects are left out). *)
#[warnings="-register-all"]
Inductive pyval :=
| PNone
| PBool (b : bool)
| PInt (n : Z)
| PStr (s : string)
| PList (l : list pyval).

(** Truth value of a Python object ([not x] is its negation). *)
Definition py_truthy (v : pyval) : bool :=
  match v with
  | PNone => false
  | PBool b => b
  | PInt n => negb (n =? 0)
  | PStr s => negb (String.eqb s EmptyString)
  | PList l => match l with [] => false | _ => true end
  end.

(** Class [Task]. The constructor stores its arguments as they come;
    [reminders] is a list of naive timestamps. *)
Record Task := mkTask {
  title : pyval;
  description : pyval;
  priority : pyval;
  due_date : pyval;
  completed : pyval;
  category : pyval;
  reminders : list DateTime;
  notes : pyval
}.

(** [Task.to_dict] *)
Definition to_dict (t : Task) : gmap string pyval :=
  <["title" := title t]>
  (<["description" := description t]>
  (<["priority" := priority t]>
  (<["due_date" := due_date t]>
  (<["completed" := completed t]>
  (<["category" := category t]>
  (<["reminders" := PList ((fun r => PStr (isoformat r)) <$> reminders t)]>
  (<["notes" := notes t]> ∅))))))).

(** [datetime.fromisoformat(r)] for an entry of the reminder list; an
    entry that is no string, or no timestamp, raises. *)
Definition parse_reminder (v : pyval) : option DateTime :=
  match v with
  | PStr s => fromisoformat s
  | _ => None
  end.

(** [data.get('reminders', [])], iterated: a list is read entry by
    entry; a string is read character by character, and no single
    character is a timestamp; any other value cannot be iterated. *)
Definition get_reminders (data : gmap string pyval) : option (list DateTime) :=
  match data !! "reminders" with
  | None => Some []
  | Some (PList l) => mapM parse_reminder l
  | Some (PStr s) => if non_empty s then None else Some []
  | Some _ => None
  end.

(** [Task.from_dict]; [None] stands for the exception a missing key or a
    malformed reminder raises. *)
Definition from_dict (data : gmap string pyval) : option Task :=
  rs ← get_reminders data;
  t ← data !! "title";
  d ← data !! "description";
  p ← data !! "priority";
  due ← data !! "due_date";
  c ← data !! "completed";
  Some (mkTask t d p due c
          (default (PStr "General") (data !! "category"))
          rs
          (default (PStr "") (data !! "notes"))).

(** The task list an action of kind [clear_completed] holds: a deep copy
    of the list, or, once [undo] has bound [self.tasks] to that very
    list, the live list itself. *)
Inductive TasksRef :=
| Snapshot (l : list Task)
| Live.

(** Class [Action], one constructor per [action_type] with the fields
    that kind is built with. *)
Inductive Action :=
| ActAdd (task_index : nat) (new_state : gmap string pyval)
| ActEdit (task_index : nat) (old_state new_state : gmap string pyval)
| ActDelete (task_index : nat) (old_state : gmap string pyval)
| ActClearCompleted (old_state : TasksRef).

Definition action_type (a : Action) : string :=
  match a with
  | ActAdd _ _ => "add"
  | ActEdit _ _ _ => "edit"
  | ActDelete _ _ => "delete"
  | ActClearCompleted _ => "clear_completed"
  end.

(** [DailyTaskManager]: the task list, the JSON document of [task_file]
    ([None] while the file does not exist) and the two stacks, each a
    Python list with its top at the end. *)
Record DailyTaskManager := mkManager {
  tasks : list Task;
  task_file : option (list (gmap string pyval));
  undo_stack : list Action;
  redo_stack : list Action
}.

(** [DailyTaskManager.__init__] before [load_tasks] *)
Definition init (file : option (list (gmap string pyval))) : DailyTaskManager :=
  mkManager [] file [] [].

(** The entry widgets [add_task] and [edit_task] read. *)
Record Form := mkForm {
  title_entry : string;
  desc_text : string;
  priority_combo : string;
  due_date_entry : string;     (* [get_date().strftime("%Y-%m-%d")] *)
  completed_var : bool;
  category_entry : string;
  notes_text : string
}.

(** ** Operations *)

(** Binding [self.tasks] to another list: an action that held the old
    list as [Live] keeps it as it is now. *)
Definition freeze (current : list Task) (a : Action) : Action :=
  match a with
  | ActClearCompleted Live => ActClearCompleted (Snapshot current)
  | _ => a
  end.

Definition rebind (m : DailyTaskManager) (new_tasks : list Task) : DailyTaskManager :=
  mkManager new_tasks (task_file m)
    (freeze (tasks m) <$> undo_stack m)
    (freeze (tasks m) <$> redo_stack m).

(** In-place change of the list [self.tasks] names. *)
Definition set_tasks (m : DailyTaskManager) (l : list Task) : DailyTaskManager :=
  mkManager l (task_file m) (undo_stack m) (redo_stack m).

(** [save_tasks] *)
Definition save_tasks (m : DailyTaskManager) : DailyTaskManager :=
  mkManager (tasks m) (Some (to_dict <$> tasks m)) (undo_stack m) (redo_stack m).

(** [load_tasks]: a document that does not convert leaves the list as it
    was. *)
Definition load_tasks (m : DailyTaskManager) : DailyTaskManager :=
  match task_file m with
  | None => m
  | Some data =>
      match mapM from_dict data with
      | Some l => rebind m l
      | None => m
      end
  end.

(** [import_tasks] with the parsed document of the chosen file ([None]
    when the dialog was cancelled). *)
Definition import_tasks (m : DailyTaskManager)
    (chosen : option (list (gmap string pyval))) : DailyTaskManager :=
  match chosen with
  | None => m
  | Some data =>
      match mapM from_dict data with
      | Some imported_tasks => save_tasks (set_tasks m (tasks m ++ imported_tasks))
      | None => m
      end
  end.

(** [record_action] *)
Definition record_action (m : DailyTaskManager) (action : Action) : DailyTaskManager :=
  mkManager (tasks m) (task_file m) (undo_stack m ++ [action]) [].

(** The title test of [add_task] and [edit_task]. *)
Definition title_rejected (title : string) : bool :=
  String.eqb title "" || String.eqb title "Enter task title here".

Definition read_description (w : Form) : string :=
  let description := strip (desc_text w) in
  if String.eqb description "Enter task description here" then "" else description.

(** The [Task(...)] both operations build from the form. *)
Definition task_of_form (w : Form) (rs : list DateTime) : Task :=
  mkTask (PStr (strip (title_entry w))) (PStr (read_description w))
    (PStr (priority_combo w)) (PStr (due_date_entry w)) (PBool (completed_var w))
    (PStr (strip (category_entry w))) rs (PStr (strip (notes_text w))).

(** [add_task] *)
Definition add_task (m : DailyTaskManager) (w : Form) : DailyTaskManager :=
  if title_rejected (strip (title_entry w)) then m
  else
    let task := task_of_form w [] in
    let m1 := set_tasks m (tasks m ++ [task]) in
    let action := ActAdd (length (tasks m1) - 1) (to_dict task) in
    save_tasks (record_action m1 action).

(** [edit_task] with the index of the one selected row; an index outside
    the list raises inside the handler and nothing changes. *)
Definition edit_task (m : DailyTaskManager) (index : nat) (w : Form)
  : DailyTaskManager :=
  if title_rejected (strip (title_entry w)) then m
  else
    match tasks m !! index with
    | None => m
    | Some old =>
        let task := task_of_form w (reminders old) in
        let m1 := set_tasks m (<[index := task]> (tasks m)) in
        save_tasks (record_action m1 (ActEdit index (to_dict old) (to_dict task)))
    end.

(** The loop of [delete_task] over the indices, highest first: an index
    outside the list raises and ends the loop; what was deleted before
    stays deleted and recorded. The result tells whether the loop ran to
    its end. *)
Fixpoint delete_loop (m : DailyTaskManager) (indices : list nat)
  : DailyTaskManager * bool :=
  match indices with
  | [] => (m, true)
  | index :: rest =>
      match tasks m !! index with
      | None => (m, false)
      | Some deleted_task =>
          let m1 := record_action m (ActDelete index (to_dict deleted_task)) in
          delete_loop (set_tasks m1 (delete index (tasks m1))) rest
      end
  end.

(** [delete_task] on the selected rows, with the answer to the dialog. *)
Definition delete_task (m : DailyTaskManager) (selected : list nat)
    (confirmed : bool) : DailyTaskManager :=
  match selected with
  | [] => m
  | _ :: _ =>
      if negb confirmed then m
      else
        let selected_indices := sort_by (fun i : nat => i) Nat.ltb true selected in
        match delete_loop m selected_indices with
        | (m1, true) => save_tasks m1
        | (m1, false) => m1
        end
  end.

(** [clear_completed_tasks] *)
Definition clear_completed_tasks (m : DailyTaskManager) (confirmed : bool)
  : DailyTaskManager :=
  if negb confirmed then m
  else
    let m1 := record_action m (ActClearCompleted (Snapshot (tasks m))) in
    save_tasks
      (rebind m1 (List.filter (fun task => negb (py_truthy (completed task))) (tasks m1))).

(** The branch of [undo] for one action; [None] when it raises. The
    action is the top of the redo stack by then. *)
Definition undo_action (m : DailyTaskManager) (action : Action)
  : option DailyTaskManager :=
  match action with
  | ActAdd i _ =>
      if (i <? length (tasks m))%nat then Some (set_tasks m (delete i (tasks m)))
      else None
  | ActEdit i old _ =>
      t ← from_dict old;
      if (i <? length (tasks m))%nat then Some (set_tasks m (<[i := t]> (tasks m)))
      else None
  | ActDelete i old =>
      t ← from_dict old;
      Some (set_tasks m (take i (tasks m) ++ t :: drop i (tasks m)))
  | ActClearCompleted (Snapshot l) =>
      let m1 := rebind m l in
      Some (mkManager (tasks m1) (task_file m1) (undo_stack m1)
              (List.removelast (redo_stack m1) ++ [ActClearCompleted Live]))
  | ActClearCompleted Live => Some m
  end.

(** [undo] *)
Definition undo (m : DailyTaskManager) : DailyTaskManager :=
  match List.rev (undo_stack m) with
  | [] => m
  | action :: _ =>
      let m1 := mkManager (tasks m) (task_file m)
                  (List.removelast (undo_stack m)) (redo_stack m ++ [action]) in
      match undo_action m1 action with
      | Some m2 => save_tasks m2
      | None => m1
      end
  end.

(** The branch of [redo] for one action; [None] when it raises. *)
Definition redo_action (m : DailyTaskManager) (action : Action)
  : option DailyTaskManager :=
  match action with
  | ActAdd _ new =>
      t ← from_dict new;
      Some (set_tasks m (tasks m ++ [t]))
  | ActEdit i _ new =>
      t ← from_dict new;
      if (i <? length (tasks m))%nat then Some (set_tasks m (<[i := t]> (tasks m)))
      else None
  | ActDelete i _ =>
      if (i <? length (tasks m))%nat then Some (set_tasks m (delete i (tasks m)))
      else None
  | ActClearCompleted _ =>
      Some (rebind m (List.filter (fun task => negb (py_truthy (completed task))) (tasks m)))
  end.

(** [redo] *)
Definition redo (m : DailyTaskManager) : DailyTaskManager :=
  match List.rev (redo_stack m) with
  | [] => m
  | action :: _ =>
      let m1 := mkManager (tasks m) (task_file m)
                  (undo_stack m ++ [action]) (List.removelast (redo_stack m)) in
      match redo_action m1 action with
      | Some m2 => save_tasks m2
      | None => m1
      end
  end.

(** ** The task list on screen ([update_task_list]) *)

(** The filter widgets. *)
Record Filters := mkFilters {
  filter_priority : string;
  filter_completed_var : string;
  filter_category : string;
  search_var : string
}.

(** [field.lower()]: only a string has the method, [None] stands for
    the [AttributeError] of any other value. *)
Definition lower_of (field : pyval) : option string :=
  match field with
  | PStr s => Some (lower s)
  | _ => None
  end.

(** [field != s] for a string [s]: a value that is no string differs. *)
Definition differs_from (field : pyval) (s : string) : bool :=
  match field with
  | PStr s' => negb (String.eqb s' s)
  | _ => true
  end.

(** The condition of the last [continue]: the search term is not empty
    and occurs in none of title, category, description and notes, read
    in that order until one contains it. *)
Definition search_hides (search_term : string) (task : Task) : option bool :=
  if negb (non_empty search_term) then Some false
  else
    t ← lower_of (title task);
    if contains search_term t then Some false
    else
      c ← lower_of (category task);
      if contains search_term c then Some false
      else
        d ← lower_of (description task);
        if contains search_term d then Some false
        else
          n ← lower_of (notes task);
          Some (negb (contains search_term n)).

(** The body of the loop for one task: whether a row is inserted. *)
Definition row_shown (f : Filters) (task : Task) : option bool :=
  let priority_filter := filter_priority f in
  let completed_filter := filter_completed_var f in
  let category_filter := lower (strip (filter_category f)) in
  let search_term := lower (strip (search_var f)) in
  if negb (String.eqb priority_filter "All") && differs_from (priority task) priority_filter
  then Some false
  else if String.eqb completed_filter "Completed" && negb (py_truthy (completed task))
  then Some false
  else if String.eqb completed_filter "Not Completed" && py_truthy (completed task)
  then Some false
  else
    hidden ← (if non_empty category_filter
              then c ← lower_of (category task); Some (negb (contains category_filter c))
              else Some false);
    if (hidden : bool) then Some false
    else
      hidden' ← search_hides search_term task;
      Some (negb hidden').

(** The loop over [enumerate(self.tasks, start=1)]: the rows inserted,
    each with the number it shows as its text and the task it shows, and
    whether the loop ran to its end. A task that raises ends the loop;
    the rows inserted before it stay in the tree. *)
Fixpoint update_rows (f : Filters) (i : nat) (tasks : list Task)
  : list (nat * Task) * bool :=
  match tasks with
  | [] => ([], true)
  | task :: rest =>
      match row_shown f task with
      | None => ([], false)
      | Some true =>
          let '(rows, finished) := update_rows f (S i) rest in
          ((i, task) :: rows, finished)
      | Some false => update_rows f (S i) rest
      end
  end.

(** [update_task_list] *)
Definition update_task_list (f : Filters) (m : DailyTaskManager)
  : list (nat * Task) * bool :=
  update_rows f 1 (tasks m).

(** [int(self.task_tree.item(item, 'text')) - 1] for each selected row. *)
Definition selected_indices (selection : list (nat * Task)) : list nat :=
  (fun row => (fst row - 1)%nat) <$> selection.

(** ** Reminders ([check_reminders]) *)

(** [list.remove(x)]: the first entry equal to [x] is taken out; [None]
    stands for [ValueError]. *)
Fixpoint list_remove (x : DateTime) (l : list DateTime) : option (list DateTime) :=
  match l with
  | [] => None
  | y :: l' => if datetime_eqb y x then Some l' else cons y <$> list_remove x l'
  end.

Definition set_reminders (task : Task) (rs : list DateTime) : Task :=
  mkTask (title task) (description task) (priority task) (due_date task)
    (completed task) (category task) rs (notes task).

(** The inner loop for one task, over the copy [task.reminders[:]]: a
    reminder that is due is shown and taken out of the task's own list,
    and the tasks are saved; [save] gives the document for a state of
    that list. The result is the list that is left, the document and
    the number of notifications. *)
Fixpoint remind_loop (now : DateTime) (save : list DateTime -> list (gmap string pyval))
    (copy live : list DateTime) (file : option (list (gmap string pyval))) (shown : nat)
  : option (list DateTime * option (list (gmap string pyval)) * nat) :=
  match copy with
  | [] => Some (live, file, shown)
  | reminder :: rest =>
      if datetime_leb reminder now then
        live' ← list_remove reminder live;
        remind_loop now save rest live' (Some (save live')) (S shown)
      else remind_loop now save rest live file shown
  end.

(** The loop over the tasks, [done] being the tasks already visited,
    with the title and description each notification will show. *)
Fixpoint check_reminders_loop (now : DateTime) (done todo : list Task)
    (file : option (list (gmap string pyval)))
  : option (list Task * option (list (gmap string pyval)) * list (pyval * pyval)) :=
  match todo with
  | [] => Some (done, file, [])
  | task :: rest =>
      '(live, file', shown) ←
        remind_loop now (fun rs => to_dict <$> (done ++ set_reminders task rs :: rest))
          (reminders task) (reminders task) file 0;
      '(tasks', file'', notifications) ←
        check_reminders_loop now (done ++ [set_reminders task live]) rest file';
      Some (tasks', file'', replicate shown (title task, description task) ++ notifications)
  end.

(** One pass of [check_reminders] (the body of its [while True]) with
    the clock reading it starts with, on the task list and the saved
    document: the list and the document after the pass and the
    notifications shown. *)
Definition check_reminders_pass (now : DateTime) (tasks : list Task)
    (file : option (list (gmap string pyval)))
  : option (list Task * option (list (gmap string pyval)) * list (pyval * pyval)) :=
  check_reminders_loop now [] tasks file.

(** ** Runs of the manager *)

(** The operations that pass through the recorded history. *)
Inductive Op :=
| OpAdd (w : Form)
| OpEdit (index : nat) (w : Form)
| OpDelete (selected : list nat) (confirmed : bool)
| OpClearCompleted (confirmed : bool)
| OpUndo
| OpRedo.

Definition step (m : DailyTaskManager) (op : Op) : DailyTaskManager :=
  match op with
  | OpAdd w => add_task m w
  | OpEdit index w => edit_task m index w
  | OpDelete selected confirmed => delete_task m selected confirmed
  | OpClearCompleted confirmed => clear_completed_tasks m confirmed
  | OpUndo => undo m
  | OpRedo => redo m
  end.

Definition run (m : DailyTaskManager) (ops : list Op) : DailyTaskManager :=
  List.fold_left step ops m.

(** ** Predicates of the statements *)

(** The keys of the dictionary form. *)
Definition field_names : gset string :=
  {[ "title"; "description"; "priority"; "due_date"; "completed"; "category";
     "reminders"; "notes" ]}.

(** Every reminder of the task is a timestamp that exists. *)
Definition valid_reminders (t : Task) : Prop :=
  Forall (fun r => valid_datetime r = true) (reminders t).

(** The title is a non-empty value. *)
Definition titled (t : Task) : Prop := py_truthy (title t) = true.

Definition titled_dict (d : gmap string pyval) : Prop :=
  forall v, d !! "title" = Some v -> py_truthy v = true.

Definition titled_action (a : Action) : Prop :=
  match a with
  | ActAdd _ new => titled_dict new
  | ActEdit _ old new => titled_dict old /\ titled_dict new
  | ActDelete _ old => titled_dict old
  | ActClearCompleted (Snapshot l) => Forall titled l
  | ActClearCompleted Live => True
  end.

(** The task list and both stacks carry titles; the saved document is
    left aside. *)
Definition titled_core (m : DailyTaskManager) : Prop :=
  Forall titled (tasks m) /\
  Forall titled_action (undo_stack m) /\
  Forall titled_action (redo_stack m).

Definition titled_file (m : DailyTaskManager) : Prop :=
  match task_file m with
  | Some data => Forall titled_dict data
  | None => True
  end.

(** No task of the list, of the saved document or of a recorded state
    has an empty title. *)
Definition titled_state (m : DailyTaskManager) : Prop :=
  titled_core m /\ titled_file m.

(** The reminders of a task that are due at [now], and the task with
    only the reminders that are not. *)
Definition is_due (now : DateTime) (r : DateTime) : bool := datetime_leb r now.

Definition pending_reminders (now : DateTime) (task : Task) : Task :=
  set_reminders task (List.filter (fun r => negb (is_due now r)) (reminders task)).

Definition due_count (now : DateTime) (task : Task) : nat :=
  length (List.filter (is_due now) (reminders task)).

(** The filters that hide nothing. *)
Definition no_filters : Filters := mkFilters "All" "All" "" "".

(** The tasks at the given positions, positions outside the list passed
    over. *)
Definition tasks_at (l : list Task) (indices : list nat) : list Task :=
  omap (fun i => l !! i) indices.

(** The action [delete_task] records for each position. *)
Definition delete_actions (l : list Task) (indices : list nat) : list Action :=
  omap (fun i => ActDelete i ∘ to_dict <$> l !! i) indices.

(** The list after the deletions of [delete_task], one position at a
    time. *)
Definition delete_all (l : list Task) (indices : list nat) : list Task :=
  List.fold_left (fun acc i => delete i acc) indices l.

End V11.

(* ===================================================================== *)
(** * Sample data *)
(* ===================================================================== *)

Module Samples.
Import Py.

(** A login name and a clock reading. *)
Definition sample_env : Main.Env :=
  Main.mkEnv "bob" (mkDateTime (mkDate 2026 11 4) 9 30 0 0).

(** A stored task created by another user. *)
Definition sample_task (i : Z) (name : string) (due : option string) : Main.Task :=
  Main.mkTask i name None (Some "2025-01-15") (Some "alice") due "high" "general"
    (Some "Jay") None false "MV Aurora" "0" None "L" "S" "R-1" None None 0 0
    (Some "2025-02-01 08:00:00") (Some "alice").

Definition sample_fields : Main.Fields :=
  Main.mkFields "Calibrate sensor" None (Some "2025-03-01") "High" "general"
    (Some "Jay") None "MV Aurora" "0" None "L" "S" "R-1" None None 0 0.

(** A manager whose cache mirrors a committed table. *)
Definition manager_of (l : list Main.Task) : Main.TaskManager :=
  Main.mkTaskManager l (Main.mkStore l l).

Definition two_tasks : list Main.Task :=
  [sample_task 1 "Calibrate sensor" None; sample_task 2 "Order valves" None].

(** Eleven single deletions, one task each. *)
Definition eleven_tasks : list Main.Task :=
  (fun i => sample_task (Z.of_nat i) "t" None) <$> seq 1 11.

Definition ten_deletions : list Main.Op :=
  (fun i => Main.OpDelete Main.no_faults sample_env [Z.of_nat i] true) <$> seq 1 10.

(** A filled-in form of the file-backed manager. *)
Definition sample_form : V11.Form :=
  V11.mkForm "  Calibrate sensor " "check drift" "High" "2025-03-01" false
    "General" "".

(** A JSON document with one task whose title is empty. *)
Definition untitled_document : list (gmap string V11.pyval) :=
  [ <["title" := V11.PStr ""]>
    (<["description" := V11.PStr "d"]>
    (<["priority" := V11.PStr "Low"]>
    (<["due_date" := V11.PStr "2025-03-01"]>
    (<["completed" := V11.PBool false]> ∅)))) ].

(** A task with two reminders. *)
Definition sample_v11_task : V11.Task :=
  V11.mkTask (V11.PStr "Calibrate sensor") (V11.PStr "") (V11.PStr "High")
    (V11.PStr "2025-03-01") (V11.PBool false) (V11.PStr "General")
    [mkDateTime (mkDate 2025 2 28) 9 0 0 0; mkDateTime (mkDate 2025 3 1) 7 30 15 250]
    (V11.PStr "").

(** A dialog filled in for a new task. *)
Definition sample_dialog : Main.DialogVars :=
  Main.mkDialogVars "R-1" " Calibrate sensor " "MV Aurora" "0" "L" "S" "Jay" "High"
    "general" "" "" "" "" "" None None (Some "2025-03-01") None.

(** Three tasks of the file-backed manager, the second completed. *)
Definition three_v11_tasks : list V11.Task :=
  [ sample_v11_task;
    V11.mkTask (V11.PStr "Order valves") (V11.PStr "") (V11.PStr "Low")
      (V11.PStr "2025-03-02") (V11.PBool true) (V11.PStr "Stores") [] (V11.PStr "");
    V11.mkTask (V11.PStr "Paint deck") (V11.PStr "") (V11.PStr "Medium")
      (V11.PStr "2025-03-05") (V11.PBool false) (V11.PStr "General")
      [mkDateTime (mkDate 2025 3 1) 7 30 15 250] (V11.PStr "") ].

(** A backend that refuses to delete the row with id 11. *)
Definition refuses_eleven : Main.Faults :=
  Main.mkFaults (fun _ => false) (fun _ => false) (fun i => i =? 11) false.

(** A JSON document with one well-formed task. *)
Definition one_task_document : list (gmap string V11.pyval) :=
  [ <["title" := V11.PStr "Order valves"]>
    (<["description" := V11.PStr ""]>
    (<["priority" := V11.PStr "Low"]>
    (<["due_date" := V11.PStr "2025-03-02"]>
    (<["completed" := V11.PBool false]> ∅)))) ].

End Samples.

(* ===================================================================== *)
(** * Properties of the runtime fragments *)
(* ===================================================================== *)

Module PyFacts.
Import Py.

Lemma digit_val_char (d : Z) : 0 <= d < 10 -> digit_val (digit_char d) = Some d.
Proof.
  intros Hd. unfold digit_val, digit_char.
  assert (Hn : (48 + Z.to_N d < 256)%N) by lia.
  rewrite N_ascii_embedding by exact Hn.
  destruct (N.leb_spec 48 (48 + Z.to_N d)); [|lia].
  destruct (N.leb_spec (48 + Z.to_N d) 57); [|lia].
  simpl. f_equal. lia.
Qed.

Lemma parse_digits_from_app (s1 s2 : string) (acc : Z) :
  parse_digits_from acc (String.append s1 s2) =
  match parse_digits_from acc s1 with
  | Some n => parse_digits_from n s2
  | None => None
  end.
Proof.
  revert acc. induction s1 as [|c s1 IH]; intros acc; simpl; [reflexivity|].
  destruct (digit_val c); [apply IH | reflexivity].
Qed.

Lemma parse_digits_fixed (w : nat) : forall n acc,
  0 <= n < 10 ^ Z.of_nat w ->
  parse_digits_from acc (digits_fixed w n) = Some (acc * 10 ^ Z.of_nat w + n).
Proof.
  induction w as [|w IH]; intros n acc Hn.
  - simpl in *. f_equal. lia.
  - rewrite Nat2Z.inj_succ, Z.pow_succ_r in * by lia.
    cbn [digits_fixed]. rewrite parse_digits_from_app, IH.
    + cbn [parse_digits_from]. rewrite digit_val_char.
      * f_equal. pose proof (Z.div_mod n 10). lia.
      * apply Z.mod_pos_bound. lia.
    + split; [apply Z.div_pos; lia | apply Z.div_lt_upper_bound; lia].
Qed.

Lemma length_append (s1 s2 : string) :
  String.length (String.append s1 s2) = (String.length s1 + String.length s2)%nat.
Proof. induction s1 as [|c s1 IH]; simpl; [reflexivity | now rewrite IH]. Qed.

Lemma length_digits_fixed (w : nat) (n : Z) : String.length (digits_fixed w n) = w.
Proof.
  revert n. induction w as [|w IH]; intros n; [reflexivity|].
  cbn [digits_fixed]. rewrite length_append, IH. simpl. lia.
Qed.

(** Two, four and six digits, character by character. *)
Lemma digits_fixed_2 (n : Z) :
  digits_fixed 2 n =
  String (digit_char (n / 10 mod 10)) (String (digit_char (n mod 10)) EmptyString).
Proof. reflexivity. Qed.

Lemma digits_fixed_4 (n : Z) :
  digits_fixed 4 n =
  String (digit_char (n / 10 / 10 / 10 mod 10))
    (String (digit_char (n / 10 / 10 mod 10))
       (String (digit_char (n / 10 mod 10))
          (String (digit_char (n mod 10)) EmptyString))).
Proof. reflexivity. Qed.

Lemma digits_fixed_6 (n : Z) :
  digits_fixed 6 n =
  String (digit_char (n / 10 / 10 / 10 / 10 / 10 mod 10))
    (String (digit_char (n / 10 / 10 / 10 / 10 mod 10))
       (String (digit_char (n / 10 / 10 / 10 mod 10))
          (String (digit_char (n / 10 / 10 mod 10))
             (String (digit_char (n / 10 mod 10))
                (String (digit_char (n mod 10)) EmptyString))))).
Proof. reflexivity. Qed.

Lemma parse_2 (a b : Z) : 0 <= a < 10 -> 0 <= b < 10 ->
  parse_digits (String (digit_char a) (String (digit_char b) EmptyString))
  = Some (a * 10 + b).
Proof.
  intros Ha Hb. cbn [parse_digits parse_digits_from].
  rewrite !digit_val_char by assumption. reflexivity.
Qed.

Lemma parse_4 (a b c d : Z) :
  0 <= a < 10 -> 0 <= b < 10 -> 0 <= c < 10 -> 0 <= d < 10 ->
  parse_digits (String (digit_char a) (String (digit_char b)
     (String (digit_char c) (String (digit_char d) EmptyString))))
  = Some (((a * 10 + b) * 10 + c) * 10 + d).
Proof.
  intros Ha Hb Hc Hd. cbn [parse_digits parse_digits_from].
  rewrite !digit_val_char by assumption. reflexivity.
Qed.

Lemma parse_6 (a b c d x y : Z) :
  0 <= a < 10 -> 0 <= b < 10 -> 0 <= c < 10 -> 0 <= d < 10 ->
  0 <= x < 10 -> 0 <= y < 10 ->
  parse_digits (String (digit_char a) (String (digit_char b)
     (String (digit_char c) (String (digit_char d)
        (String (digit_char x) (String (digit_char y) EmptyString))))))
  = Some (((((a * 10 + b) * 10 + c) * 10 + d) * 10 + x) * 10 + y).
Proof.
  intros Ha Hb Hc Hd Hx Hy. cbn [parse_digits parse_digits_from].
  rewrite !digit_val_char by assumption. reflexivity.
Qed.

Lemma mod10_bound (n : Z) : 0 <= n mod 10 < 10.
Proof. apply Z.mod_pos_bound. lia. Qed.

Lemma recompose_2 (n : Z) : 0 <= n < 100 -> n / 10 mod 10 * 10 + n mod 10 = n.
Proof. intros H. Z.to_euclidean_division_equations. lia. Qed.

Lemma recompose_4 (n : Z) : 0 <= n < 10000 ->
  ((n / 10 / 10 / 10 mod 10 * 10 + n / 10 / 10 mod 10) * 10 + n / 10 mod 10) * 10
  + n mod 10 = n.
Proof. intros H. Z.to_euclidean_division_equations. lia. Qed.

Lemma recompose_6 (n : Z) : 0 <= n < 1000000 ->
  ((((n / 10 / 10 / 10 / 10 / 10 mod 10 * 10 + n / 10 / 10 / 10 / 10 mod 10) * 10
     + n / 10 / 10 / 10 mod 10) * 10 + n / 10 / 10 mod 10) * 10 + n / 10 mod 10) * 10
  + n mod 10 = n.
Proof. intros H. Z.to_euclidean_division_equations. lia. Qed.

Lemma days_in_month_le (y m : Z) : 28 <= days_in_month y m <= 31.
Proof.
  unfold days_in_month.
  destruct (m =? 2); [destruct (is_leap y); lia|].
  destruct ((m =? 4) || (m =? 6) || (m =? 9) || (m =? 11)); lia.
Qed.

(** The bounds a valid timestamp gives, as propositions. *)
Lemma valid_datetime_bounds (t : DateTime) :
  valid_datetime t = true ->
  (1 <= d_year (dt_date t) <= 9999) /\ (1 <= d_month (dt_date t) <= 12) /\
  (1 <= d_day (dt_date t) <= 31) /\ (0 <= dt_hour t < 24) /\
  (0 <= dt_minute t < 60) /\ (0 <= dt_second t < 60) /\
  (0 <= dt_microsecond t < 1000000).
Proof.
  unfold valid_datetime, valid_date. intros H.
  repeat (apply andb_prop in H; destruct H as [H ?]).
  pose proof (days_in_month_le (d_year (dt_date t)) (d_month (dt_date t))).
  lia.
Qed.

(** [fromisoformat] inverts [isoformat] on every valid timestamp. *)
Lemma fromisoformat_isoformat (t : DateTime) :
  valid_datetime t = true -> fromisoformat (isoformat t) = Some t.
Proof.
  intros Hv. pose proof (valid_datetime_bounds t Hv) as (Hy & Hm & Hd & Hh & Hmi & Hs & Hu).
  destruct t as [[y m d] h mi s u]. cbn [dt_date d_year d_month d_day dt_hour dt_minute
    dt_second dt_microsecond] in *.
  unfold isoformat, strftime_ymd.
  cbn [dt_date d_year d_month d_day dt_hour dt_minute dt_second dt_microsecond].
  rewrite !digits_fixed_2, digits_fixed_4.
  destruct (Z.eqb_spec u 0) as [->|Hu0].
  - unfold fromisoformat, parse_iso_date, parse_iso_time, field, expect, char_at.
    cbv [String.append String.get String.substring String.length Nat.eqb
         Ascii.eqb Bool.eqb andb negb].
    rewrite parse_4, !parse_2 by apply mod10_bound.
    rewrite recompose_4, !recompose_2 by lia.
    rewrite Hv. reflexivity.
  - rewrite digits_fixed_6.
    unfold fromisoformat, parse_iso_date, parse_iso_time, field, expect, char_at.
    cbv [String.append String.get String.substring String.length Nat.eqb
         Ascii.eqb Bool.eqb andb negb].
    rewrite parse_4, parse_6, !parse_2 by apply mod10_bound.
    rewrite recompose_4, recompose_6, !recompose_2 by lia.
    rewrite Hv. reflexivity.
Qed.

End PyFacts.

(* ===================================================================== *)
(** * Properties of the SQL-backed manager *)
(* ===================================================================== *)

Module MainFacts.
Import Py Main Samples.

(** ** Lookups and ids *)

Lemma find_id_None (i : Z) (l : list Task) :
  List.find (has_id i) l = None <-> i ∉ id <$> l.
Proof.
  induction l as [|t l IH]; simpl.
  - split; [intros _; apply not_elem_of_nil | reflexivity].
  - unfold has_id at 1. destruct (Z.eqb_spec (id t) i) as [E|N].
    + split; [discriminate|]. intros H. exfalso. apply H. rewrite E. left.
    + rewrite IH. rewrite not_elem_of_cons. intuition.
Qed.

Lemma find_id_Some (i : Z) (l : list Task) (t : Task) :
  List.find (has_id i) l = Some t -> t ∈ l /\ id t = i.
Proof.
  induction l as [|u l IH]; simpl; [discriminate|].
  unfold has_id at 1. destruct (Z.eqb_spec (id u) i) as [E|N].
  - intros [= ->]. split; [left | exact E].
  - intros H. destruct (IH H). split; [right|]; assumption.
Qed.

(** With ids that are unique, looking up the id of a row finds that row. *)
Lemma find_id_NoDup (l : list Task) (t : Task) :
  NoDup (id <$> l) -> t ∈ l -> List.find (has_id (id t)) l = Some t.
Proof.
  induction l as [|u l IH]; intros Hnd Hin; [inversion Hin|].
  rewrite fmap_cons in Hnd. apply NoDup_cons in Hnd as [Hu Hnd].
  simpl. unfold has_id at 1. apply elem_of_cons in Hin as [->|Hin].
  - rewrite Z.eqb_refl. reflexivity.
  - destruct (Z.eqb_spec (id u) (id t)) as [E|N].
    + exfalso. apply Hu. rewrite E. apply list_elem_of_fmap. eauto.
    + apply IH; assumption.
Qed.

Lemma fold_max_ge (ts : list Task) : forall m,
  m <= List.fold_left (fun m u => Z.max m (id u)) ts m /\
  (forall u, u ∈ ts -> id u <= List.fold_left (fun m u => Z.max m (id u)) ts m).
Proof.
  induction ts as [|t ts IH]; intros m; simpl.
  - split; [lia | intros u Hu; inversion Hu].
  - destruct (IH (Z.max m (id t))) as [H1 H2]. split; [lia|].
    intros u Hu. apply elem_of_cons in Hu as [->|Hu]; [lia | auto].
Qed.

Lemma fold_max_in (ts : list Task) : forall m,
  List.fold_left (fun m u => Z.max m (id u)) ts m = m \/
  List.fold_left (fun m u => Z.max m (id u)) ts m ∈ id <$> ts.
Proof.
  induction ts as [|t ts IH]; intros m; simpl; [left; reflexivity|].
  destruct (IH (Z.max m (id t))) as [E|E].
  - rewrite E. destruct (Z.max_spec m (id t)) as [[_ ->]|[_ ->]].
    + right. left.
    + left. reflexivity.
  - right. right. exact E.
Qed.

(** [new_id] is one more than the greatest cached id, and 1 on the empty
    list. *)
Lemma new_id_spec (cache : list Task) :
  exists m, new_id cache = m + 1 /\
    ((cache = [] /\ m = 0) \/
     (m ∈ id <$> cache /\ forall i, i ∈ id <$> cache -> i <= m)).
Proof.
  destruct cache as [|t ts].
  - exists 0. split; [reflexivity | left; split; reflexivity].
  - exists (max_id t ts). split; [reflexivity|]. right. unfold max_id. split.
    + rewrite fmap_cons. destruct (fold_max_in ts (id t)) as [->|H]; [left | right; exact H].
    + intros i Hi. apply list_elem_of_fmap in Hi as (u & -> & Hu).
      destruct (fold_max_ge ts (id t)) as [H1 H2].
      apply elem_of_cons in Hu as [->|Hu]; [exact H1 | auto].
Qed.

Lemma new_id_fresh (cache : list Task) : new_id cache ∉ id <$> cache.
Proof.
  destruct (new_id_spec cache) as (m & E & [[-> _]|[_ Hmax]]).
  - apply not_elem_of_nil.
  - intros Hin. apply Hmax in Hin. lia.
Qed.

(** A row appended under an id no row carries is the row found. *)
Lemma find_app_fresh (l : list Task) (t : Task) :
  id t ∉ (id <$> l) -> List.find (has_id (id t)) (l ++ [t]) = Some t.
Proof.
  induction l as [|u l IH]; intros H; cbn.
  - unfold has_id. rewrite Z.eqb_refl. reflexivity.
  - rewrite fmap_cons in H. apply not_elem_of_cons in H as [Hne H].
    unfold has_id at 1. destruct (Z.eqb_spec (id u) (id t)); [congruence|].
    apply IH, H.
Qed.

(** ** The id [add_task] assigns *)

(** C5. Whenever [add_task] inserts a task, its id is the greatest id of
    the cached task list plus one (1 when the list is empty), an id no
    cached and no stored task carries, and the row is appended to the
    table; with a cache that mirrors the table and no refused statement
    the insertion does take place. *)
Theorem add_task_id (f : Faults) (e : Env) (tm : TaskManager) (a : Fields) :
  (forall tm' t, add_task f e tm a = (tm', Added t) ->
     (exists m, id t = m + 1 /\
        ((tasks tm = [] /\ m = 0) \/
         (m ∈ id <$> tasks tm /\ forall i, i ∈ id <$> tasks tm -> i <= m))) /\
     (id t ∉ (id <$> tasks tm)) /\
     (id t ∉ (id <$> rows (db tm))) /\
     rows (db tm') = rows (db tm) ++ [t] /\
     tasks tm' = rows (db tm'))
  /\
  (tasks tm = rows (db tm) ->
   insert_raises f (new_id (tasks tm)) = false ->
   commit_raises f = false ->
   exists tm' t, add_task f e tm a = (tm', Added t)).
Proof.
  split.
  - intros tm' t. unfold add_task.
    destruct (_find_task_by_id tm (new_id (tasks tm))) eqn:Hfind; [discriminate|].
    destruct (insert_raises f (new_id (tasks tm))); [discriminate|].
    destruct (commit_raises f); [discriminate|].
    intros [= <- <-]. cbn [id add_task_row].
    split; [apply new_id_spec|].
    split; [apply new_id_fresh|].
    split; [apply find_id_None, Hfind|].
    split; reflexivity.
  - intros Hsync Hins Hcom. unfold add_task.
    assert (Hfind : _find_task_by_id tm (new_id (tasks tm)) = None).
    { unfold _find_task_by_id, sql_select_id. apply find_id_None.
      rewrite <- Hsync. apply new_id_fresh. }
    rewrite Hfind, Hins, Hcom. eauto.
Qed.

Lemma add_task_id_witness :
  let tm := manager_of [sample_task 3 "a" None; sample_task 7 "b" None] in
  exists tm' t,
    add_task no_faults sample_env tm sample_fields = (tm', Added t) /\
    id t = 8 /\ id t ∉ (id <$> rows (db tm)).
Proof.
  intros tm.
  destruct (add_task_id no_faults sample_env tm sample_fields) as [Hid Hrun].
  destruct Hrun as (tm' & t & E); [reflexivity | reflexivity | reflexivity |].
  exists tm', t. split; [exact E|].
  destruct (Hid tm' t E) as (_ & _ & Hfresh & _).
  split; [|exact Hfresh].
  vm_compute in E. injection E as _ <-. reflexivity.
Defined.

(** ** The completed flag [add_task] writes *)

(** C10. [add_task] takes no completed flag: the row it writes holds
    the literal [False]. With a cache that mirrors the table and a
    backend that refuses nothing, [add_task] does insert: exactly one row
    is appended, it is found under its new id, and it is pending.
    Whatever the arguments, the cache and the faults, [add_task] either
    leaves the table as it is or appends exactly one row, and that row is
    pending. *)
Theorem add_task_inserts_pending (f : Faults) (e : Env) (tm : TaskManager) (a : Fields) :
  (tasks tm = rows (db tm) ->
   insert_raises f (new_id (tasks tm)) = false ->
   commit_raises f = false ->
   exists tm' t,
     add_task f e tm a = (tm', Added t) /\
     rows (db tm') = rows (db tm) ++ [t] /\
     tasks tm' = rows (db tm') /\
     durable (db tm') = rows (db tm') /\
     _find_task_by_id tm' (id t) = Some t /\
     completed t = false)
  /\
  match add_task f e tm a with
  | (tm', Added t) =>
      rows (db tm') = rows (db tm) ++ [t] /\ completed t = false
  | (tm', IdConflict) => rows (db tm') = rows (db tm)
  | (tm', DbError) =>
      rows (db tm') = rows (db tm) \/
      exists t, rows (db tm') = rows (db tm) ++ [t] /\ completed t = false
  end.
Proof.
  split.
  - intros Hsync Hins Hcom.
    assert (Hfresh : new_id (tasks tm) ∉ (id <$> rows (db tm))).
    { rewrite <- Hsync. apply new_id_fresh. }
    assert (Hfind : _find_task_by_id tm (new_id (tasks tm)) = None).
    { unfold _find_task_by_id, sql_select_id. apply find_id_None, Hfresh. }
    unfold add_task. rewrite Hfind, Hins, Hcom.
    eexists _, _. split; [reflexivity|].
    cbn [reload_tasks _load_tasks db rows durable tasks conn_commit sql_insert].
    repeat (split; [reflexivity|]). split; [|reflexivity].
    unfold _find_task_by_id, sql_select_id.
    cbn [db rows conn_commit sql_insert reload_tasks].
    apply (find_app_fresh (rows (db tm)) (add_task_row e (new_id (tasks tm)) a)), Hfresh.
  - unfold add_task.
    destruct (_find_task_by_id tm (new_id (tasks tm))); [reflexivity|].
    destruct (insert_raises f (new_id (tasks tm))); [left; reflexivity|].
    destruct (commit_raises f).
    + right. eexists. split; reflexivity.
    + split; reflexivity.
Qed.

Lemma add_task_inserts_pending_witness :
  let tm := manager_of two_tasks in
  exists tm' t,
    add_task no_faults sample_env tm sample_fields = (tm', Added t) /\
    rows (db tm') = two_tasks ++ [t] /\ completed t = false.
Proof.
  intros tm.
  destruct (proj1 (add_task_inserts_pending no_faults sample_env tm sample_fields))
    as (tm' & t & E & Hrows & _ & _ & _ & Hc); [reflexivity | reflexivity | reflexivity |].
  exists tm', t. split; [exact E|]. split; [exact Hrows | exact Hc].
Defined.



(** ** Batch deletion *)

Lemma filter_filter_andb {A} (p q : A -> bool) (l : list A) :
  List.filter q (List.filter p l) = List.filter (fun x => p x && q x) l.
Proof.
  induction l as [|x l IH]; simpl; [reflexivity|].
  destruct (p x); simpl; [destruct (q x)|]; rewrite IH; reflexivity.
Qed.

Lemma without_ids_cons (i : Z) (ids : list Z) (l : list Task) :
  without_ids (i :: ids) l =
  without_ids ids (List.filter (fun t => negb (has_id i t)) l).
Proof.
  unfold without_ids. rewrite filter_filter_andb.
  apply List.filter_ext. intros t. simpl. unfold has_id.
  apply negb_orb.
Qed.

Lemma without_ids_nil (l : list Task) : without_ids [] l = l.
Proof.
  unfold without_ids. induction l as [|t l IH]; [reflexivity|].
  cbn [List.filter existsb negb]. f_equal. exact IH.
Qed.

(** Without a refused statement the loop deletes every id it is given. *)
Lemma batch_delete_loop_ok (f : Faults) (ids : list Z) : forall s,
  (forall i, i ∈ ids -> delete_raises f i = false) ->
  batch_delete_loop f s ids =
  (mkStore (without_ids ids (rows s)) (durable s), (ids, [])).
Proof.
  induction ids as [|i ids IH]; intros s Hok; simpl.
  - rewrite without_ids_nil. destruct s; reflexivity.
  - rewrite (Hok i) by left.
    rewrite IH by (intros j Hj; apply Hok; right; exact Hj).
    rewrite without_ids_cons. reflexivity.
Qed.

(** A refused statement ends up in the list of failed ids. *)
Lemma batch_delete_loop_failed (f : Faults) (ids : list Z) : forall s i,
  i ∈ ids -> delete_raises f i = true ->
  (batch_delete_loop f s ids).2.2 <> [].
Proof.
  induction ids as [|j ids IH]; intros s i Hin Hi; [inversion Hin|].
  simpl. destruct (delete_raises f j) eqn:Hj.
  - destruct (batch_delete_loop f s ids) as [s' [ok ko]]. simpl. discriminate.
  - apply elem_of_cons in Hin as [->|Hin]; [congruence|].
    specialize (IH (sql_delete j s) i Hin Hi).
    destruct (batch_delete_loop f (sql_delete j s) ids) as [s' [ok ko]]. exact IH.
Qed.

Lemma length_push_bounded (limit : nat) (stack : list DeletionRecord) (r : DeletionRecord) :
  (length stack <= limit)%nat -> (length (push_bounded limit stack r) <= limit)%nat.
Proof.
  intros H. unfold push_bounded.
  destruct (Nat.ltb_spec limit (length (stack ++ [r]))) as [Hlt|Hle]; [|exact Hle].
  rewrite length_app in Hlt. simpl in Hlt.
  destruct stack as [|x stack]; simpl in *; [lia|].
  rewrite length_app. simpl. lia.
Qed.

Lemma push_bounded_below (limit : nat) (stack : list DeletionRecord) (r : DeletionRecord) :
  (length stack < limit)%nat -> push_bounded limit stack r = stack ++ [r].
Proof.
  intros H. unfold push_bounded.
  destruct (Nat.ltb_spec limit (length (stack ++ [r]))) as [Hlt|Hle]; [|reflexivity].
  rewrite length_app in Hlt. simpl in Hlt. lia.
Qed.

(** At capacity the oldest entry leaves and the new one is on top. *)
Lemma push_bounded_full (limit : nat) (stack : list DeletionRecord) (r : DeletionRecord) :
  (0 < limit)%nat -> length stack = limit ->
  push_bounded limit stack r = List.tl stack ++ [r].
Proof.
  intros Hpos H. unfold push_bounded.
  destruct (Nat.ltb_spec limit (length (stack ++ [r]))) as [Hlt|Hle].
  - destruct stack as [|x stack]; [simpl in H; lia | reflexivity].
  - rewrite length_app in Hle. simpl in Hle. lia.
Qed.

Lemma push_bounded_top (limit : nat) (stack : list DeletionRecord) (r : DeletionRecord) :
  (0 < limit)%nat -> exists st, push_bounded limit stack r = st ++ [r].
Proof.
  intros Hpos. unfold push_bounded.
  destruct (Nat.ltb_spec limit (length (stack ++ [r]))) as [Hlt|Hle].
  - destruct stack as [|x stack].
    + simpl in Hlt. lia.
    + exists stack. reflexivity.
  - exists stack. reflexivity.
Qed.

(** What a deletion that is carried out leaves on the history. *)
Lemma delete_task_pushes (f : Faults) (e : Env) (app : TaskManagerApp)
    (i0 : Z) (rest : list Z) :
  omap (_find_task_by_id (task_manager app)) (i0 :: rest) <> [] ->
  (forall i, i ∈ i0 :: rest -> delete_raises f i = false) ->
  commit_raises f = false ->
  deleted_tasks_stack (delete_task f e app (i0 :: rest) true) =
    push_bounded (max_undo_stack_size app) (deleted_tasks_stack app)
      (mkDeletionRecord (now e)
         (omap (_find_task_by_id (task_manager app)) (i0 :: rest)) (i0 :: rest)).
Proof.
  intros Hfound Hok Hcom. unfold delete_task. cbn [negb]. unfold begin_transaction.
  destruct (omap (_find_task_by_id (task_manager app)) (i0 :: rest)) as [|t0 found'] eqn:E;
    [congruence|].
  unfold batch_delete_tasks. rewrite batch_delete_loop_ok by exact Hok.
  rewrite Hcom. reflexivity.
Qed.

(** C1, amended. A batch with at least one id, confirmed by the user:
    - when no id names a stored task, table and history stay as they are;
    - when some id does and no statement is refused, ids without a task
      are passed over: the rows of all ids of the batch are gone, the
      table is committed, and one entry with the snapshots of the tasks
      found is pushed on the history;
    - when a statement is refused, the entry pushed for the invocation is
      taken off again: a history below its maximum is as before. *)
Theorem delete_task_batch (f : Faults) (e : Env) (app : TaskManagerApp)
    (i0 : Z) (rest : list Z) :
  let task_ids := i0 :: rest in
  let app' := delete_task f e app task_ids true in
  let found := omap (_find_task_by_id (task_manager app)) task_ids in
  (found = [] ->
     rows (db (task_manager app')) = rows (db (task_manager app)) /\
     deleted_tasks_stack app' = deleted_tasks_stack app)
  /\
  (found <> [] ->
   (forall i, i ∈ task_ids -> delete_raises f i = false) ->
   commit_raises f = false ->
     rows (db (task_manager app')) = without_ids task_ids (rows (db (task_manager app))) /\
     durable (db (task_manager app')) = rows (db (task_manager app')) /\
     tasks (task_manager app') = rows (db (task_manager app')) /\
     deleted_tasks_stack app' =
       push_bounded (max_undo_stack_size app) (deleted_tasks_stack app)
         (mkDeletionRecord (now e) found task_ids))
  /\
  (found <> [] ->
   (exists i, i ∈ task_ids /\ delete_raises f i = true) \/ commit_raises f = true ->
   (length (deleted_tasks_stack app) < max_undo_stack_size app)%nat ->
     deleted_tasks_stack app' = deleted_tasks_stack app).
Proof.
  intros task_ids app' found. subst app'. unfold delete_task.
  cbn [negb]. unfold begin_transaction. fold task_ids. fold found.
  split; [|split].
  - intros ->. split; reflexivity.
  - intros Hfound Hok Hcom.
    destruct found as [|t0 found'] eqn:Efound; [congruence|].
    unfold batch_delete_tasks. rewrite batch_delete_loop_ok by exact Hok.
    rewrite Hcom. cbn. repeat split; reflexivity.
  - intros Hfound Hfail Hlen.
    destruct found as [|t0 found'] eqn:Efound; [congruence|].
    rewrite push_bounded_below by exact Hlen.
    destruct (batch_delete_tasks f (task_manager app) task_ids) as [tm1 [ok ko]] eqn:Ebatch.
    assert (Hko : ko <> []).
    { unfold batch_delete_tasks in Ebatch.
      destruct (batch_delete_loop f (db (task_manager app)) task_ids)
        as [s1 [ok1 ko1]] eqn:Eloop.
      destruct (commit_raises f) eqn:Hcom.
      - injection Ebatch as _ _ <-. discriminate.
      - injection Ebatch as _ _ <-.
        destruct Hfail as [(i & Hin & Hi)|Hc]; [|discriminate].
        pose proof (batch_delete_loop_failed f task_ids (db (task_manager app)) i Hin Hi) as H.
        rewrite Eloop in H. exact H. }
    destruct ko as [|k ko]; [congruence|].
    cbn [deleted_tasks_stack]. apply List.removelast_last.
Qed.

Lemma delete_task_batch_witness :
  let app := init (manager_of two_tasks) in
  let app' := delete_task no_faults sample_env app [1; 3] true in
  rows (db (task_manager app')) = [sample_task 2 "Order valves" None] /\
  length (deleted_tasks_stack app') = 1%nat.
Proof.
  intros app app'.
  destruct (delete_task_batch no_faults sample_env app 1 [3]) as (_ & Hok & _).
  destruct Hok as (Hrows & _ & _ & Hstack);
    [vm_compute; discriminate | reflexivity | reflexivity |].
  subst app'. rewrite Hrows, Hstack. split; reflexivity.
Defined.

(** C1 as stated fails: the batch [1; 3] on a table that holds tasks 1 and
    2 names an id without a task, yet task 1 is deleted, the deletion is
    committed and a history entry is recorded. *)
Lemma delete_task_missing_id_counterexample :
  let app := init (manager_of two_tasks) in
  let app' := delete_task no_faults sample_env app [1; 3] true in
  _find_task_by_id (task_manager app) 3 = None /\
  rows (db (task_manager app)) = two_tasks /\
  rows (db (task_manager app')) = [sample_task 2 "Order valves" None] /\
  durable (db (task_manager app')) = [sample_task 2 "Order valves" None] /\
  rows (db (task_manager app')) <> rows (db (task_manager app)) /\
  deleted_tasks_stack app = [] /\
  deleted_tasks_stack app' =
    [mkDeletionRecord (now sample_env) [sample_task 1 "Calibrate sensor" None] [1; 3]].
Proof.
  cbv zeta. repeat split; try reflexivity. vm_compute. discriminate.
Qed.


(** ** Restoring deleted tasks *)

Lemma direct_id_row_same_content (e : Env) (task : Task) :
  same_content task (direct_id_row e (id task) (fields_of task) (completed task)).
Proof. unfold same_content. repeat split; reflexivity. Qed.

Lemma direct_id_row_stamped (e : Env) (task_id : Z) (a : Fields) (done : bool) :
  stamped e (direct_id_row e task_id a done).
Proof. unfold stamped. repeat split; reflexivity. Qed.

Lemma set_columns_overwritten (task r : Task) :
  overwritten task r (set_columns (validate_dates (kwargs_of task)) r).
Proof. unfold overwritten. repeat split; reflexivity. Qed.

(** The restore of a task whose id is free, on a reliable backend. *)
Lemma restore_task_free (e : Env) (tm : TaskManager) (task : Task) :
  _find_task_by_id tm (id task) = None ->
  restore_task no_faults e tm task =
  manager_of (rows (db tm) ++ [direct_id_row e (id task) (fields_of task) (completed task)]).
Proof. intros H. unfold restore_task. rewrite H. reflexivity. Qed.

(** C4, amended. [restore_task] first looks the id of the task up. When
    a row holds that id, the row is updated in place: its content columns
    are overwritten from the task, its id and provenance columns stay,
    and no row is added. Otherwise the task is inserted under its
    original id with its content columns, and the four provenance columns
    are stamped with the day and the user of the restore. *)
Theorem restore_task_effect (e : Env) (tm : TaskManager) (task : Task) :
  let tm' := restore_task no_faults e tm task in
  match _find_task_by_id tm (id task) with
  | Some _ =>
      Forall2 (fun r r' => if has_id (id task) r then overwritten task r r' else r' = r)
        (rows (db tm)) (rows (db tm'))
  | None =>
      exists t', rows (db tm') = rows (db tm) ++ [t'] /\
                 same_content task t' /\ stamped e t'
  end.
Proof.
  intros tm'. subst tm'.
  destruct (_find_task_by_id tm (id task)) as [existing|] eqn:Hfind.
  - unfold restore_task. rewrite Hfind. unfold update_task. cbn.
    induction (rows (db tm)) as [|r l IH]; simpl; constructor; [|exact IH].
    destruct (has_id (id task) r); [apply set_columns_overwritten | reflexivity].
  - rewrite restore_task_free by exact Hfind.
    eexists. split; [reflexivity|].
    split; [apply direct_id_row_same_content | apply direct_id_row_stamped].
Qed.

(** C4 as stated fails: a task created by alice, restored by bob into a
    table whose id 1 is free, comes back under id 1 but with bob as its
    creator, the day of the restore as its creation date and that day at
    midnight as its last modification. *)
Lemma restore_task_provenance_counterexample :
  let task := sample_task 1 "Calibrate sensor" None in
  let tm' := restore_task no_faults sample_env (manager_of []) task in
  _find_task_by_id (manager_of []) (id task) = None /\
  created_by task = Some "alice" /\
  created_date task = Some "2025-01-15" /\
  last_modified task = Some "2025-02-01 08:00:00" /\
  exists t', rows (db tm') = [t'] /\ id t' = 1 /\
             created_by t' = Some "bob" /\
             created_date t' = Some "2026-11-04" /\
             last_modified t' = Some "2026-11-04 00:00:00" /\
             created_by t' <> created_by task /\
             created_date t' <> created_date task /\
             last_modified t' <> last_modified task.
Proof.
  cbv zeta. repeat split. eexists. split; [reflexivity|].
  repeat split; discriminate.
Qed.

(** ** Delete, then undo *)

Lemma find_without_ids (i : Z) (ids : list Z) (l : list Task) :
  i ∈ ids -> List.find (has_id i) (without_ids ids l) = None.
Proof.
  intros Hin. apply find_id_None. intros H.
  apply list_elem_of_fmap in H as (t & -> & Ht).
  apply list_elem_of_In, List.filter_In in Ht as [_ Ht].
  apply negb_true_iff in Ht.
  assert (Hex : existsb (Z.eqb (id t)) ids = true).
  { apply List.existsb_exists. exists (id t). split.
    - apply list_elem_of_In. exact Hin.
    - apply Z.eqb_refl. }
  congruence.
Qed.

Lemma find_app_None (i : Z) (l1 l2 : list Task) :
  List.find (has_id i) l1 = None -> List.find (has_id i) l2 = None ->
  List.find (has_id i) (l1 ++ l2) = None.
Proof.
  intros H1 H2. apply find_id_None. rewrite fmap_app. intros H.
  apply elem_of_app in H as [H|H]; [apply find_id_None in H1 | apply find_id_None in H2];
    contradiction.
Qed.

(** The batch of two stored tasks, deleted on a reliable backend. *)
Lemma delete_two (e : Env) (app : TaskManagerApp) (a b : Task) :
  NoDup (id <$> rows (db (task_manager app))) ->
  a ∈ rows (db (task_manager app)) ->
  b ∈ rows (db (task_manager app)) ->
  delete_task no_faults e app [id a; id b] true =
  mkApp (manager_of (without_ids [id a; id b] (rows (db (task_manager app)))))
    (push_bounded (max_undo_stack_size app) (deleted_tasks_stack app)
       (mkDeletionRecord (now e) [a; b] [id a; id b]))
    (max_undo_stack_size app).
Proof.
  intros Hnd Ha Hb.
  unfold delete_task. cbn [negb]. unfold begin_transaction.
  cbn [omap list_omap]. unfold _find_task_by_id, sql_select_id.
  rewrite !find_id_NoDup by assumption.
  unfold batch_delete_tasks.
  rewrite batch_delete_loop_ok by (intros; reflexivity).
  cbn [commit_raises no_faults].
  reflexivity.
Qed.





(** ** The bounded deletion history *)

Lemma delete_task_limit (f : Faults) (e : Env) (app : TaskManagerApp)
    (task_ids : list Z) (confirmed : bool) :
  max_undo_stack_size (delete_task f e app task_ids confirmed) = max_undo_stack_size app.
Proof.
  unfold delete_task. destruct task_ids as [|i rest]; [reflexivity|].
  destruct confirmed; [|reflexivity]. cbn [negb].
  destruct (omap _ (i :: rest)); [reflexivity|].
  destruct (batch_delete_tasks f _ (i :: rest)) as [tm1 [ok [|k ko]]]; reflexivity.
Qed.

Lemma length_removelast_le {A} (l : list A) : (length (List.removelast l) <= length l)%nat.
Proof.
  induction l as [|x [|y l] IH]; simpl in *; lia.
Qed.

Lemma delete_task_stack_le (f : Faults) (e : Env) (app : TaskManagerApp)
    (task_ids : list Z) (confirmed : bool) :
  (length (deleted_tasks_stack app) <= max_undo_stack_size app)%nat ->
  (length (deleted_tasks_stack (delete_task f e app task_ids confirmed))
   <= max_undo_stack_size app)%nat.
Proof.
  intros H. unfold delete_task. destruct task_ids as [|i rest]; [exact H|].
  destruct confirmed; [|exact H]. cbn [negb].
  destruct (omap _ (i :: rest)) as [|t found]; [exact H|].
  destruct (batch_delete_tasks f _ (i :: rest)) as [tm1 [ok [|k ko]]];
    cbn [deleted_tasks_stack refresh_task_list].
  - apply length_push_bounded, H.
  - etransitivity; [apply length_removelast_le | apply length_push_bounded, H].
Qed.

(** [undo_delete] takes the newest entry off the history, and nothing
    else. *)
Lemma undo_delete_stack (f : Faults) (e : Env) (app : TaskManagerApp) :
  deleted_tasks_stack (undo_delete f e app) = List.removelast (deleted_tasks_stack app) /\
  max_undo_stack_size (undo_delete f e app) = max_undo_stack_size app.
Proof.
  unfold undo_delete. destruct (List.rev (deleted_tasks_stack app)) as [|r rs] eqn:E.
  - assert (deleted_tasks_stack app = []) as ->; [|split; reflexivity].
    destruct (deleted_tasks_stack app) as [|x l]; [reflexivity|].
    simpl in E. destruct (List.rev l); discriminate.
  - destruct (rec_tasks r); split; reflexivity.
Qed.

Lemma run_invariant (ops : list Op) : forall app,
  (length (deleted_tasks_stack app) <= max_undo_stack_size app)%nat ->
  (length (deleted_tasks_stack (run app ops)) <= max_undo_stack_size (run app ops))%nat /\
  max_undo_stack_size (run app ops) = max_undo_stack_size app.
Proof.
  induction ops as [|op ops IH]; intros app H; [split; [exact H | reflexivity]|].
  unfold run in *. cbn [List.fold_left].
  assert (Hstep : (length (deleted_tasks_stack (step app op))
                   <= max_undo_stack_size (step app op))%nat
                  /\ max_undo_stack_size (step app op) = max_undo_stack_size app).
  { destruct op as [f e ids c|f e]; cbn [step].
    - rewrite delete_task_limit. split; [apply delete_task_stack_le, H | reflexivity].
    - destruct (undo_delete_stack f e app) as [-> ->].
      split; [|reflexivity]. etransitivity; [apply length_removelast_le | exact H]. }
  destruct Hstep as [H1 H2]. destruct (IH _ H1) as [H3 H4].
  split; [exact H3 | congruence].
Qed.

(** C3, amended, for [deleted_tasks_stack]. After any sequence of
    deletions and undos, with any faults, the history of the
    application holds at most [max_undo_stack_size] = 10 entries; [undo]
    only ever takes its newest entry; and a deletion that succeeds while
    the history holds 10 entries drops exactly the oldest one and puts the
    new record on top. *)
Theorem deletion_history_bounded (tm : TaskManager) (ops : list Op) :
  let app := run (init tm) ops in
  max_undo_stack_size app = 10%nat /\
  (length (deleted_tasks_stack app) <= 10)%nat /\
  (forall f e,
     deleted_tasks_stack (undo_delete f e app) = List.removelast (deleted_tasks_stack app)) /\
  (forall f e i0 rest,
     let task_ids := i0 :: rest in
     let found := omap (_find_task_by_id (task_manager app)) task_ids in
     found <> [] ->
     (forall i, i ∈ task_ids -> delete_raises f i = false) ->
     commit_raises f = false ->
     length (deleted_tasks_stack app) = 10%nat ->
     deleted_tasks_stack (delete_task f e app task_ids true) =
       List.tl (deleted_tasks_stack app) ++ [mkDeletionRecord (now e) found task_ids]).
Proof.
  intros app.
  destruct (run_invariant ops (init tm)) as [Hlen Hmax]; [simpl; lia|].
  fold app in Hlen, Hmax. cbn [init max_undo_stack_size] in Hmax.
  split; [exact Hmax|]. split; [rewrite Hmax in Hlen; exact Hlen|].
  split; [intros f e; apply undo_delete_stack|].
  intros f e i0 rest task_ids found Hfound Hok Hcom Hfull. subst task_ids found.
  rewrite (delete_task_pushes f e app i0 rest Hfound Hok Hcom).
  rewrite Hmax. apply push_bounded_full; [lia | exact Hfull].
Qed.

Lemma deletion_history_bounded_witness :
  let app := run (init (manager_of eleven_tasks)) ten_deletions in
  length (deleted_tasks_stack app) = 10%nat /\
  rec_task_ids <$> deleted_tasks_stack (delete_task no_faults sample_env app [11] true)
    = [[2]; [3]; [4]; [5]; [6]; [7]; [8]; [9]; [10]; [11]].
Proof.
  intros app.
  destruct (deletion_history_bounded (manager_of eleven_tasks) ten_deletions)
    as (_ & _ & _ & Hevict).
  fold app in Hevict.
  assert (Hfull : length (deleted_tasks_stack app) = 10%nat) by (vm_compute; reflexivity).
  split; [exact Hfull|].
  rewrite (Hevict no_faults sample_env 11 []);
    [vm_compute; reflexivity | vm_compute; discriminate | reflexivity | reflexivity
    | exact Hfull].
Defined.

(** ** Sorting by status *)

(** C8 fails on the code for due dates far from today. With the clock at
    2026-11-04, a pending task due 1999-01-01 is overdue by 10169 days
    and a pending task due 2026-11-07 has three days left; their keys are
    the strings "10169" and "10003", compared as text, so the sort by
    status puts the overdue task after the other one. *)
Lemma status_sort_overdue_after_pending :
  let today := mkDate 2026 11 4 in
  let old := sample_task 1 "overdue" (Some "1999-01-01") in
  let soon := sample_task 2 "soon" (Some "2026-11-07") in
  days_between (mkDate 1999 1 1) today = -10169 /\
  days_between (mkDate 2026 11 7) today = 3 /\
  status_key today old = (0, "10169") /\
  status_key today soon = (0, "10003") /\
  apply_sorting today ColStatus false [old; soon] = [soon; old].
Proof. cbv zeta. repeat split; vm_compute; reflexivity. Qed.

(** The same slip among tasks that are not overdue: a task due in 90000
    days or more gets a six-digit key and sorts before a task due
    tomorrow. *)
Lemma status_sort_far_before_near :
  let today := mkDate 2026 11 4 in
  let near := sample_task 1 "near" (Some "2026-11-05") in
  let far := sample_task 2 "far" (Some "2273-04-10") in
  status_key today near = (0, "10001") /\
  status_key today far = (0, "100007") /\
  apply_sorting today ColStatus false [near; far] = [far; near].
Proof. cbv zeta. repeat split; vm_compute; reflexivity. Qed.

End MainFacts.

(* ===================================================================== *)
(** * Properties of the file-backed manager *)
(* ===================================================================== *)

Module V11Facts.
Import Py V11 Samples.

(** ** Dictionary form *)

Lemma parse_reminders_isoformat (rs : list DateTime) :
  Forall (fun r => valid_datetime r = true) rs ->
  mapM parse_reminder ((fun r => PStr (isoformat r)) <$> rs) = Some rs.
Proof.
  induction 1 as [|r rs Hr _ IH]; [reflexivity|].
  rewrite fmap_cons. cbn [mapM]. cbn [parse_reminder].
  rewrite PyFacts.fromisoformat_isoformat by exact Hr.
  cbn. rewrite IH. reflexivity.
Qed.

Lemma to_dict_lookups (t : Task) :
  to_dict t !! "title" = Some (title t) /\
  to_dict t !! "description" = Some (description t) /\
  to_dict t !! "priority" = Some (priority t) /\
  to_dict t !! "due_date" = Some (due_date t) /\
  to_dict t !! "completed" = Some (completed t) /\
  to_dict t !! "category" = Some (category t) /\
  to_dict t !! "reminders" = Some (PList ((fun r => PStr (isoformat r)) <$> reminders t)) /\
  to_dict t !! "notes" = Some (notes t).
Proof. unfold to_dict. repeat split; by simplify_map_eq. Qed.

Lemma from_dict_to_dict (t : Task) :
  valid_reminders t -> from_dict (to_dict t) = Some t.
Proof.
  intros Hv. destruct (to_dict_lookups t) as (Ht & Hd & Hp & Hdue & Hc & Hcat & Hr & Hn).
  unfold from_dict, get_reminders. rewrite Hr, Ht, Hd, Hp, Hdue, Hc, Hcat, Hn.
  rewrite parse_reminders_isoformat by exact Hv.
  destruct t; reflexivity.
Qed.

Lemma dom_to_dict (t : Task) : dom (to_dict t) = field_names.
Proof. unfold to_dict, field_names. rewrite !dom_insert_L, dom_empty_L. set_solver. Qed.

Lemma mapM_from_dict_to_dict (l : list Task) :
  Forall valid_reminders l -> mapM from_dict (to_dict <$> l) = Some l.
Proof.
  induction 1 as [|t l Ht _ IH]; [reflexivity|].
  rewrite fmap_cons. cbn [mapM]. rewrite from_dict_to_dict by exact Ht.
  cbn. rewrite IH. reflexivity.
Qed.

(** C9. The dictionary form of a task has exactly the eight fields, and
    parsing it gives the task back, field by field. Hence a load after a
    save reproduces the saved task list: [save_tasks] writes the
    dictionary forms of the list, and [load_tasks] of a manager started
    on the saved document, which holds no task of its own, ends with
    exactly the list that was saved. Reminders are timestamps that
    exist. *)
Theorem to_dict_from_dict_roundtrip :
  (forall t, valid_reminders t ->
     dom (to_dict t) = field_names /\ from_dict (to_dict t) = Some t) /\
  (forall m, Forall valid_reminders (tasks m) ->
     task_file (save_tasks m) = Some (to_dict <$> tasks m) /\
     tasks (init (task_file (save_tasks m))) = [] /\
     tasks (load_tasks (init (task_file (save_tasks m)))) = tasks m /\
     tasks (load_tasks (save_tasks m)) = tasks m).
Proof.
  split.
  - intros t Hv. split; [apply dom_to_dict | apply from_dict_to_dict, Hv].
  - intros m Hv. split; [reflexivity|]. split; [reflexivity|].
    unfold load_tasks, save_tasks, init. cbn [task_file tasks].
    rewrite mapM_from_dict_to_dict by exact Hv. split; reflexivity.
Qed.

Lemma to_dict_from_dict_roundtrip_witness :
  valid_reminders sample_v11_task /\
  from_dict (to_dict sample_v11_task) = Some sample_v11_task /\
  tasks (load_tasks (init (task_file (save_tasks (mkManager [sample_v11_task] None [] [])))))
    = [sample_v11_task].
Proof.
  assert (Hv : valid_reminders sample_v11_task).
  { unfold valid_reminders. repeat constructor. }
  destruct to_dict_from_dict_roundtrip as [Htask Hfile].
  split; [exact Hv|]. split.
  - apply (Htask sample_v11_task Hv).
  - apply (Hfile (mkManager [sample_v11_task] None [] [])). repeat constructor.
Defined.


(** ** Undo and redo of an addition *)

Lemma rev_snoc_top {A} (l : list A) (x : A) : List.rev (l ++ [x]) = x :: List.rev l.
Proof. rewrite List.rev_app_distr. reflexivity. Qed.

(** The list ends in the element [List.rev] puts first. *)
Lemma rev_top_snoc {A} (l : list A) (x : A) (xs : list A) :
  List.rev l = x :: xs -> l = List.removelast l ++ [x].
Proof.
  intros E. assert (Hl : l = List.rev xs ++ [x]).
  { rewrite <- (List.rev_involutive l), E. reflexivity. }
  rewrite Hl at 2. rewrite List.removelast_last. exact Hl.
Qed.

Lemma task_of_form_valid (w : Form) : valid_reminders (task_of_form w []).
Proof. constructor. Qed.

Lemma add_task_accepted (m : DailyTaskManager) (w : Form) :
  title_rejected (strip (title_entry w)) = false ->
  add_task m w =
  mkManager (tasks m ++ [task_of_form w []])
    (Some (to_dict <$> (tasks m ++ [task_of_form w []])))
    (undo_stack m ++ [ActAdd (length (tasks m)) (to_dict (task_of_form w []))])
    [].
Proof.
  intros H. unfold add_task. rewrite H.
  unfold save_tasks, record_action, set_tasks. cbn [tasks task_file undo_stack redo_stack].
  rewrite length_app. cbn [length].
  replace (length (tasks m) + 1 - 1)%nat with (length (tasks m)) by lia.
  reflexivity.
Qed.

Lemma delete_last {A} (l : list A) (x : A) : delete (length l) (l ++ [x]) = l.
Proof. induction l as [|y l IH]; [reflexivity|]. cbn. f_equal. exact IH. Qed.

Lemma undo_top (m : DailyTaskManager) (st : list Action) (a : Action) :
  undo_stack m = st ++ [a] ->
  undo m =
  match undo_action (mkManager (tasks m) (task_file m) st (redo_stack m ++ [a])) a with
  | Some m2 => save_tasks m2
  | None => mkManager (tasks m) (task_file m) st (redo_stack m ++ [a])
  end.
Proof.
  intros E. unfold undo. rewrite E, rev_snoc_top, List.removelast_last. reflexivity.
Qed.

Lemma redo_top (m : DailyTaskManager) (rd : list Action) (a : Action) :
  redo_stack m = rd ++ [a] ->
  redo m =
  match redo_action (mkManager (tasks m) (task_file m) (undo_stack m ++ [a]) rd) a with
  | Some m2 => save_tasks m2
  | None => mkManager (tasks m) (task_file m) (undo_stack m ++ [a]) rd
  end.
Proof.
  intros E. unfold redo. rewrite E, rev_snoc_top, List.removelast_last. reflexivity.
Qed.

(** [undo] of the addition of the last task, and [redo] of it. *)
Lemma undo_last_add (l : list Task) (t : Task) (file : option (list (gmap string pyval)))
    (st rd : list Action) :
  undo (mkManager (l ++ [t]) file (st ++ [ActAdd (length l) (to_dict t)]) rd) =
  mkManager l (Some (to_dict <$> l)) st (rd ++ [ActAdd (length l) (to_dict t)]).
Proof.
  rewrite (undo_top _ st (ActAdd (length l) (to_dict t))) by reflexivity.
  cbn [tasks task_file redo_stack undo_action]. rewrite length_app. cbn [length].
  destruct (Nat.ltb_spec (length l) (length l + 1)) as [_|Hge]; [|lia].
  unfold set_tasks, save_tasks. cbn [tasks task_file undo_stack redo_stack].
  rewrite delete_last. reflexivity.
Qed.

Lemma redo_last_add (l : list Task) (t : Task) (file : option (list (gmap string pyval)))
    (st rd : list Action) :
  valid_reminders t ->
  redo (mkManager l file st (rd ++ [ActAdd (length l) (to_dict t)])) =
  mkManager (l ++ [t]) (Some (to_dict <$> (l ++ [t])))
    (st ++ [ActAdd (length l) (to_dict t)]) rd.
Proof.
  intros Hv. rewrite (redo_top _ rd (ActAdd (length l) (to_dict t))) by reflexivity.
  cbn [tasks task_file undo_stack redo_action]. rewrite from_dict_to_dict by exact Hv.
  reflexivity.
Qed.




(** ** The undo stack has no bound *)

Lemma record_actions_length (actions : list Action) : forall m,
  length (undo_stack (List.fold_left record_action actions m))
  = (length (undo_stack m) + length actions)%nat.
Proof.
  induction actions as [|a actions IH]; intros m; simpl; [lia|].
  rewrite IH. unfold record_action. cbn [undo_stack]. rewrite length_app. simpl. lia.
Qed.

(** C3 as stated fails for [record_action]: no depth bounds the undo
    stack; one recorded action more than any proposed bound is kept with
    all the others. *)
Lemma record_action_unbounded_counterexample :
  ~ exists max_depth : nat, forall actions : list Action,
      (length (undo_stack (List.fold_left record_action actions (init None)))
       <= max_depth)%nat.
Proof.
  intros [max_depth H].
  specialize (H (replicate (S max_depth) (ActAdd 0 ∅))).
  rewrite record_actions_length, length_replicate in H. simpl in H. lia.
Qed.


(** ** Titles *)

Lemma titled_dict_to_dict (t : Task) : titled t -> titled_dict (to_dict t).
Proof.
  intros H v Hv. destruct (to_dict_lookups t) as [E _].
  rewrite E in Hv. injection Hv as <-. exact H.
Qed.

Lemma from_dict_titled (d : gmap string pyval) (t : Task) :
  from_dict d = Some t -> titled_dict d -> titled t.
Proof.
  unfold from_dict. intros H Hd.
  destruct (get_reminders d) as [rs|]; [|discriminate].
  destruct (d !! "title") as [v|] eqn:Ev; [|discriminate].
  destruct (d !! "description"); [|discriminate].
  destruct (d !! "priority"); [|discriminate].
  destruct (d !! "due_date"); [|discriminate].
  destruct (d !! "completed"); [|discriminate].
  cbn in H. injection H as <-. exact (Hd v Ev).
Qed.

Lemma task_of_form_titled (w : Form) (rs : list DateTime) :
  title_rejected (strip (title_entry w)) = false -> titled (task_of_form w rs).
Proof.
  unfold title_rejected, titled. cbn [task_of_form title py_truthy]. intros H.
  apply orb_false_elim in H as [H _]. rewrite H. reflexivity.
Qed.

Lemma Forall_removelast {A} (P : A -> Prop) (l : list A) :
  Forall P l -> Forall P (List.removelast l).
Proof.
  induction 1 as [|x l Hx Hl IH]; [constructor|].
  destruct l as [|y l]; [constructor|]. cbn [List.removelast] in *.
  constructor; assumption.
Qed.

Lemma Forall_list_filter {A} (P : A -> Prop) (f : A -> bool) (l : list A) :
  Forall P l -> Forall P (List.filter f l).
Proof.
  induction 1 as [|x l Hx Hl IH]; [constructor|].
  cbn [List.filter]. destruct (f x); [constructor|]; assumption.
Qed.

Lemma Forall_rev_top {A} (P : A -> Prop) (l : list A) (x : A) (xs : list A) :
  List.rev l = x :: xs -> Forall P l -> P x.
Proof.
  intros E H. rewrite (rev_top_snoc l x xs E) in H.
  apply Forall_app in H as [_ H]. inversion H; assumption.
Qed.

Lemma freeze_titled (current : list Task) (a : Action) :
  Forall titled current -> titled_action a -> titled_action (freeze current a).
Proof.
  intros Hc Ha. destruct a as [| | |[l|]]; cbn; assumption.
Qed.

Lemma Forall_freeze (current : list Task) (stack : list Action) :
  Forall titled current -> Forall titled_action stack ->
  Forall titled_action (freeze current <$> stack).
Proof.
  intros Hc Hs. apply Forall_fmap. eapply Forall_impl; [exact Hs|].
  intros a Ha. apply freeze_titled; assumption.
Qed.

Lemma rebind_core (m : DailyTaskManager) (l : list Task) :
  titled_core m -> Forall titled l -> titled_core (rebind m l).
Proof.
  intros (Ht & Hu & Hr) Hl. unfold rebind, titled_core.
  cbn [tasks undo_stack redo_stack].
  split; [exact Hl|]. split; apply Forall_freeze; assumption.
Qed.

(** Saving writes a document with titles. *)
Lemma save_tasks_titled (m : DailyTaskManager) :
  titled_core m -> titled_state (save_tasks m).
Proof.
  intros Hc. split; [exact Hc|].
  unfold titled_file, save_tasks. cbn [task_file].
  destruct Hc as [Ht _]. apply Forall_fmap.
  eapply Forall_impl; [exact Ht|]. intros t. apply titled_dict_to_dict.
Qed.

(** A state that kept the document of a good state. *)
Lemma titled_state_same_file (m m1 : DailyTaskManager) :
  titled_state m -> titled_core m1 -> task_file m1 = task_file m -> titled_state m1.
Proof.
  intros [_ Hf] Hc E. split; [exact Hc|]. unfold titled_file in *. rewrite E. exact Hf.
Qed.

Lemma record_action_core (m : DailyTaskManager) (a : Action) :
  titled_core m -> titled_action a -> titled_core (record_action m a).
Proof.
  intros (Ht & Hu & _) Ha. unfold record_action, titled_core.
  cbn [tasks undo_stack redo_stack].
  split; [exact Ht|]. split; [|constructor].
  apply Forall_app. split; [exact Hu | constructor; [exact Ha | constructor]].
Qed.

Lemma set_tasks_core (m : DailyTaskManager) (l : list Task) :
  titled_core m -> Forall titled l -> titled_core (set_tasks m l).
Proof. intros (_ & Hu & Hr) Hl. repeat split; assumption. Qed.

Lemma add_task_titled (m : DailyTaskManager) (w : Form) :
  titled_state m -> titled_state (add_task m w).
Proof.
  intros Hm. unfold add_task.
  destruct (title_rejected (strip (title_entry w))) eqn:Hrej; [exact Hm|].
  pose proof (task_of_form_titled w [] Hrej) as Ht.
  apply save_tasks_titled, record_action_core.
  - apply set_tasks_core; [apply Hm|].
    apply Forall_app. split; [apply Hm | constructor; [exact Ht | constructor]].
  - cbn. apply titled_dict_to_dict, Ht.
Qed.

Lemma edit_task_titled (m : DailyTaskManager) (index : nat) (w : Form) :
  titled_state m -> titled_state (edit_task m index w).
Proof.
  intros Hm. unfold edit_task.
  destruct (title_rejected (strip (title_entry w))) eqn:Hrej; [exact Hm|].
  destruct (tasks m !! index) as [old|] eqn:Hold; [|exact Hm].
  pose proof (task_of_form_titled w (reminders old) Hrej) as Ht.
  assert (Hold' : titled old).
  { destruct Hm as [[Hts _] _]. eapply Forall_lookup_1; eassumption. }
  apply save_tasks_titled, record_action_core.
  - apply set_tasks_core; [apply Hm|].
    apply Forall_insert; [apply Hm | exact Ht].
  - cbn. split; apply titled_dict_to_dict; assumption.
Qed.

Lemma delete_loop_titled (indices : list nat) : forall m,
  titled_core m ->
  titled_core (delete_loop m indices).1 /\
  task_file (delete_loop m indices).1 = task_file m.
Proof.
  induction indices as [|index rest IH]; intros m Hm; cbn [delete_loop].
  - split; [exact Hm | reflexivity].
  - destruct (tasks m !! index) as [t|] eqn:Ht; [|split; [exact Hm | reflexivity]].
    assert (Htt : titled t).
    { destruct Hm as [Hts _]. eapply Forall_lookup_1; eassumption. }
    destruct (IH (set_tasks (record_action m (ActDelete index (to_dict t)))
                    (delete index (tasks (record_action m (ActDelete index (to_dict t)))))))
      as [Hc Hf]; [|split; [exact Hc | rewrite Hf; reflexivity]].
    apply set_tasks_core.
    + apply record_action_core; [exact Hm|]. cbn. apply titled_dict_to_dict, Htt.
    + cbn [record_action tasks]. apply Forall_delete, Hm.
Qed.

Lemma delete_task_titled (m : DailyTaskManager) (selected : list nat) (confirmed : bool) :
  titled_state m -> titled_state (delete_task m selected confirmed).
Proof.
  intros Hm. unfold delete_task. destruct selected as [|i rest]; [exact Hm|].
  destruct confirmed; [|exact Hm]. cbn [negb].
  destruct (delete_loop_titled (sort_by (fun i : nat => i) Nat.ltb true (i :: rest)) m)
    as [Hc Hf]; [apply Hm|].
  destruct (delete_loop m _) as [m1 [|]]; cbn [fst] in Hc, Hf.
  - apply save_tasks_titled, Hc.
  - eapply titled_state_same_file; eassumption.
Qed.

Lemma clear_completed_tasks_titled (m : DailyTaskManager) (confirmed : bool) :
  titled_state m -> titled_state (clear_completed_tasks m confirmed).
Proof.
  intros Hm. unfold clear_completed_tasks. destruct confirmed; [|exact Hm]. cbn [negb].
  apply save_tasks_titled, rebind_core.
  - apply record_action_core; [apply Hm|]. cbn. apply Hm.
  - apply Forall_list_filter. cbn [record_action tasks]. apply Hm.
Qed.

Lemma undo_action_titled (m : DailyTaskManager) (a : Action) (m2 : DailyTaskManager) :
  titled_core m -> titled_action a -> undo_action m a = Some m2 -> titled_core m2.
Proof.
  intros Hm Ha H. destruct a as [i new|i old new|i old|[l|]]; cbn [undo_action] in H.
  - destruct (i <? length (tasks m))%nat; [|discriminate]. injection H as <-.
    apply set_tasks_core; [exact Hm | apply Forall_delete, Hm].
  - destruct (from_dict old) as [t|] eqn:Et; [|discriminate]. cbn [mbind option_bind] in H.
    destruct (i <? length (tasks m))%nat; [|discriminate]. injection H as <-.
    apply set_tasks_core; [exact Hm|].
    apply Forall_insert; [apply Hm | eapply from_dict_titled; [exact Et | apply Ha]].
  - destruct (from_dict old) as [t|] eqn:Et; [|discriminate]. cbn [mbind option_bind] in H.
    injection H as <-. apply set_tasks_core; [exact Hm|].
    apply Forall_app. split; [apply Forall_take, Hm|].
    constructor; [eapply from_dict_titled; [exact Et | exact Ha] | apply Forall_drop, Hm].
  - injection H as <-.
    pose proof (rebind_core m l Hm Ha) as (Ht & Hu & Hr).
    unfold titled_core. cbn [tasks undo_stack redo_stack].
    split; [exact Ht|]. split; [exact Hu|].
    apply Forall_app. split; [apply Forall_removelast, Hr|].
    constructor; [exact I | constructor].
  - injection H as <-. exact Hm.
Qed.

Lemma redo_action_titled (m : DailyTaskManager) (a : Action) (m2 : DailyTaskManager) :
  titled_core m -> titled_action a -> redo_action m a = Some m2 -> titled_core m2.
Proof.
  intros Hm Ha H. destruct a as [i new|i old new|i old|r]; cbn [redo_action] in H.
  - destruct (from_dict new) as [t|] eqn:Et; [|discriminate]. cbn [mbind option_bind] in H.
    injection H as <-. apply set_tasks_core; [exact Hm|].
    apply Forall_app. split; [apply Hm|].
    constructor; [eapply from_dict_titled; [exact Et | exact Ha] | constructor].
  - destruct (from_dict new) as [t|] eqn:Et; [|discriminate]. cbn [mbind option_bind] in H.
    destruct (i <? length (tasks m))%nat; [|discriminate]. injection H as <-.
    apply set_tasks_core; [exact Hm|].
    apply Forall_insert; [apply Hm | eapply from_dict_titled; [exact Et | apply Ha]].
  - destruct (i <? length (tasks m))%nat; [|discriminate]. injection H as <-.
    apply set_tasks_core; [exact Hm | apply Forall_delete, Hm].
  - injection H as <-. apply rebind_core; [exact Hm|].
    apply Forall_list_filter, Hm.
Qed.

Lemma undo_titled (m : DailyTaskManager) : titled_state m -> titled_state (undo m).
Proof.
  intros Hm. unfold undo.
  destruct (List.rev (undo_stack m)) as [|a rest] eqn:E; [exact Hm|].
  destruct Hm as [(Ht & Hu & Hr) Hf].
  pose proof (Forall_rev_top _ _ _ _ E Hu) as Ha.
  set (m1 := mkManager (tasks m) (task_file m) (List.removelast (undo_stack m))
               (redo_stack m ++ [a])).
  assert (H1 : titled_core m1).
  { split; [exact Ht|]. split; [apply Forall_removelast, Hu|].
    apply Forall_app. split; [exact Hr | constructor; [exact Ha | constructor]]. }
  destruct (undo_action m1 a) as [m2|] eqn:E2.
  - apply save_tasks_titled. eapply undo_action_titled; eassumption.
  - split; [exact H1 | exact Hf].
Qed.

Lemma redo_titled (m : DailyTaskManager) : titled_state m -> titled_state (redo m).
Proof.
  intros Hm. unfold redo.
  destruct (List.rev (redo_stack m)) as [|a rest] eqn:E; [exact Hm|].
  destruct Hm as [(Ht & Hu & Hr) Hf].
  pose proof (Forall_rev_top _ _ _ _ E Hr) as Ha.
  set (m1 := mkManager (tasks m) (task_file m) (undo_stack m ++ [a])
               (List.removelast (redo_stack m))).
  assert (H1 : titled_core m1).
  { split; [exact Ht|]. split; [|apply Forall_removelast, Hr].
    apply Forall_app. split; [exact Hu | constructor; [exact Ha | constructor]]. }
  destruct (redo_action m1 a) as [m2|] eqn:E2.
  - apply save_tasks_titled. eapply redo_action_titled; eassumption.
  - split; [exact H1 | exact Hf].
Qed.

Lemma step_titled (m : DailyTaskManager) (op : Op) :
  titled_state m -> titled_state (step m op).
Proof.
  destruct op; cbn [step];
    auto using add_task_titled, edit_task_titled, delete_task_titled,
               clear_completed_tasks_titled, undo_titled, redo_titled.
Qed.

Lemma run_titled (ops : list Op) : forall m, titled_state m -> titled_state (run m ops).
Proof.
  induction ops as [|op ops IH]; intros m Hm; [exact Hm|].
  apply IH, step_titled, Hm.
Qed.

(** C6 as stated fails for [import_tasks]: a document whose only task has
    the empty title is taken over as it is, and the task is written to the
    task file. *)
Lemma import_empty_title_counterexample :
  let m := import_tasks (init None) (Some untitled_document) in
  titled_state (init None) /\
  title <$> tasks m = [PStr ""] /\
  (exists d, task_file m = Some [d] /\ d !! "title" = Some (PStr "")) /\
  ~ titled_state m.
Proof.
  cbv zeta. split; [repeat split; constructor|].
  split; [vm_compute; reflexivity|].
  split.
  - eexists. split; [reflexivity|]. vm_compute. reflexivity.
  - intros [[Ht _] _]. vm_compute in Ht. inversion Ht as [|t l Hbad _]. discriminate Hbad.
Qed.

End V11Facts.

(* ===================================================================== *)
(** * Titles in both managers *)
(* ===================================================================== *)

Module Titles.
Import Py Samples.

Lemma required_nil (value message : string) :
  Main.required value message = [] -> Py.non_empty value = true.
Proof. unfold Main.required. destruct (Py.non_empty value); [reflexivity | discriminate]. Qed.

(** A dialog that [save] accepts has a title that is not empty. *)
Lemma save_title (v : Main.DialogVars) (a : Main.Fields) (c : option bool) :
  Main.save v = Some (a, c) ->
  Main.f_title a = strip (Main.title_var v) /\ Main.f_title a <> EmptyString.
Proof.
  unfold Main.save. destruct (Main.validation_errors v) as [|x l] eqn:E; [|discriminate].
  intros [= <- _]. cbn [Main.f_title]. split; [reflexivity|].
  unfold Main.validation_errors in E.
  apply app_eq_nil in E as [_ E]. apply app_eq_nil in E as [E _].
  apply required_nil in E. destruct (strip (Main.title_var v)); [discriminate | discriminate].
Qed.

(** C6, amended. In the file-backed manager, every run of add, edit,
    delete, clear-completed, undo and redo keeps non-empty titles in the
    task list, in the saved document and in every recorded state: add and
    edit reject an empty title, the others only replay what was
    recorded. In the SQL-backed manager, the dialog that feeds add and
    edit hands on a title only when, stripped, it is not empty. *)
Theorem titles_stay_nonempty :
  (forall (m : V11.DailyTaskManager) (ops : list V11.Op),
     V11.titled_state m -> V11.titled_state (V11.run m ops)) /\
  (forall (v : Main.DialogVars) (a : Main.Fields) (c : option bool),
     Main.save v = Some (a, c) ->
     Main.f_title a = strip (Main.title_var v) /\ Main.f_title a <> EmptyString).
Proof.
  split.
  - intros m ops. apply V11Facts.run_titled.
  - apply save_title.
Qed.

Lemma titles_stay_nonempty_witness :
  V11.titled_state
    (V11.run (V11.init None) [V11.OpAdd sample_form; V11.OpUndo; V11.OpRedo]) /\
  (exists a c, Main.save sample_dialog = Some (a, c) /\
               Main.f_title a = "Calibrate sensor"%string).
Proof.
  destruct titles_stay_nonempty as [Hrun Hsave]. split.
  - apply Hrun. repeat split; constructor.
  - eexists _, _. split; [vm_compute; reflexivity|]. reflexivity.
Defined.

End Titles.

(* ===================================================================== *)
(** * Further properties of the runtime fragments *)
(* ===================================================================== *)

Module PyExtra.
Import Py.

(** ** The stable sort *)

Section SortFacts.
Context {A K : Type} (key : A -> K) (ltb : K -> K -> bool).

Lemma insert_sorted_perm (reverse : bool) (x : A) (l : list A) :
  Permutation (insert_sorted key ltb reverse x l) (x :: l).
Proof.
  induction l as [|y l IH]; [reflexivity|]. cbn [insert_sorted].
  destruct (if reverse then ltb (key x) (key y) else ltb (key y) (key x)).
  - rewrite IH. apply perm_swap.
  - reflexivity.
Qed.

Lemma sort_by_perm (reverse : bool) (l : list A) :
  Permutation (sort_by key ltb reverse l) l.
Proof.
  induction l as [|x l IH]; [reflexivity|]. unfold sort_by in *. cbn [List.fold_right].
  rewrite insert_sorted_perm. constructor. exact IH.
Qed.

(** Elements that no comparison tells apart keep their order. *)
Lemma insert_sorted_filter (p : A -> bool) (reverse : bool) (x : A) (l : list A) :
  (forall a b, p a = true -> p b = true -> ltb (key a) (key b) = false) ->
  List.filter p (insert_sorted key ltb reverse x l) = List.filter p (x :: l).
Proof.
  intros Hp. induction l as [|y l IH]; [reflexivity|]. cbn [insert_sorted].
  destruct (if reverse then ltb (key x) (key y) else ltb (key y) (key x)) eqn:E;
    [|reflexivity].
  cbn [List.filter] in *. rewrite IH.
  destruct (p x) eqn:Hx, (p y) eqn:Hy; try reflexivity.
  exfalso. destruct reverse; rewrite Hp in E by assumption; discriminate.
Qed.

Lemma sort_by_filter (p : A -> bool) (reverse : bool) (l : list A) :
  (forall a b, p a = true -> p b = true -> ltb (key a) (key b) = false) ->
  List.filter p (sort_by key ltb reverse l) = List.filter p l.
Proof.
  intros Hp. induction l as [|x l IH]; [reflexivity|]. unfold sort_by in *.
  cbn [List.fold_right]. rewrite insert_sorted_filter by exact Hp.
  cbn [List.filter]. rewrite IH. reflexivity.
Qed.

End SortFacts.

(** Two keys that order the elements of a list alike sort it alike. *)
Lemma insert_sorted_ext {A K1 K2} (k1 : A -> K1) (lt1 : K1 -> K1 -> bool)
    (k2 : A -> K2) (lt2 : K2 -> K2 -> bool) (reverse : bool) (x : A) (l : list A) :
  (forall y, In y l -> lt1 (k1 x) (k1 y) = lt2 (k2 x) (k2 y) /\
                       lt1 (k1 y) (k1 x) = lt2 (k2 y) (k2 x)) ->
  insert_sorted k1 lt1 reverse x l = insert_sorted k2 lt2 reverse x l.
Proof.
  induction l as [|y l IH]; intros H; [reflexivity|]. cbn [insert_sorted].
  destruct (H y (or_introl eq_refl)) as [H1 H2]. rewrite H1, H2.
  rewrite IH by (intros z Hz; apply H; right; exact Hz). reflexivity.
Qed.

Lemma sort_by_ext {A K1 K2} (k1 : A -> K1) (lt1 : K1 -> K1 -> bool)
    (k2 : A -> K2) (lt2 : K2 -> K2 -> bool) (reverse : bool) (l : list A) :
  (forall x y, In x l -> In y l -> lt1 (k1 x) (k1 y) = lt2 (k2 x) (k2 y)) ->
  sort_by k1 lt1 reverse l = sort_by k2 lt2 reverse l.
Proof.
  induction l as [|x l IH]; intros H; [reflexivity|]. unfold sort_by in *.
  cbn [List.fold_right].
  rewrite IH by (intros a b Ha Hb; apply H; right; assumption).
  apply insert_sorted_ext. intros y Hy.
  assert (Hy' : In y l).
  { eapply Permutation_in; [apply (sort_by_perm k2 lt2 reverse l) | exact Hy]. }
  split; apply H; (left; reflexivity) || (right; exact Hy').
Qed.

(** With integer keys the result is in order. *)
Section SortZ.
Context {A : Type} (key : A -> Z).

Lemma insert_sorted_Z (reverse : bool) (x : A) (l : list A) :
  StronglySorted (key_le key reverse) l ->
  StronglySorted (key_le key reverse) (insert_sorted key Z.ltb reverse x l).
Proof.
  induction 1 as [|y l Hl IH Hy]; [repeat constructor|]. cbn [insert_sorted].
  destruct (if reverse then key x <? key y else key y <? key x) eqn:E.
  - constructor; [exact IH|].
    apply List.Forall_forall. intros z Hz.
    apply (Permutation_in _ (insert_sorted_perm key Z.ltb reverse x l)) in Hz.
    destruct Hz as [<-|Hz].
    + unfold key_le. destruct reverse; apply Z.ltb_lt in E; lia.
    + rewrite List.Forall_forall in Hy. apply Hy, Hz.
  - constructor; [constructor; assumption|].
    assert (Hxy : key_le key reverse x y).
    { unfold key_le. destruct reverse; apply Z.ltb_ge in E; lia. }
    constructor; [exact Hxy|].
    eapply Forall_impl; [exact Hy|]. intros z Hz. cbv beta in Hz.
    unfold key_le in *. destruct reverse; lia.
Qed.

Lemma sort_by_Z_sorted (reverse : bool) (l : list A) :
  StronglySorted (key_le key reverse) (sort_by key Z.ltb reverse l).
Proof.
  induction l as [|x l IH]; [constructor|]. unfold sort_by in *.
  cbn [List.fold_right]. apply insert_sorted_Z, IH.
Qed.

Lemma sort_by_Z_stable (reverse : bool) (k : Z) (l : list A) :
  List.filter (fun x => key x =? k) (sort_by key Z.ltb reverse l)
  = List.filter (fun x => key x =? k) l.
Proof.
  apply sort_by_filter. intros a b Ha Hb.
  apply Z.eqb_eq in Ha, Hb. apply Z.ltb_ge. lia.
Qed.

End SortZ.

(** ** Digit strings in order *)

Lemma compare_append (s1 s2 t1 t2 : string) :
  String.length s1 = String.length s2 ->
  String.compare (String.append s1 t1) (String.append s2 t2) =
  match String.compare s1 s2 with
  | Eq => String.compare t1 t2
  | c => c
  end.
Proof.
  revert s2. induction s1 as [|c1 s1 IH]; intros [|c2 s2] Hlen;
    try discriminate; [reflexivity|].
  change (String.append (String c1 s1) t1) with (String c1 (String.append s1 t1)).
  change (String.append (String c2 s2) t2) with (String c2 (String.append s2 t2)).
  cbn [String.compare]. destruct (Ascii.compare c1 c2); try reflexivity.
  apply IH. cbn in Hlen. congruence.
Qed.

Lemma compare_digit_char (a b : Z) :
  0 <= a < 10 -> 0 <= b < 10 -> Ascii.compare (digit_char a) (digit_char b) = (a ?= b).
Proof.
  intros Ha Hb. unfold Ascii.compare, digit_char.
  rewrite !N_ascii_embedding by lia.
  destruct (Z.compare_spec a b) as [E|E|E].
  - subst. apply N.compare_refl.
  - apply N.compare_lt_iff. lia.
  - apply N.compare_gt_iff. lia.
Qed.

Lemma compare_by_tenths (a b : Z) :
  match a / 10 ?= b / 10 with
  | Eq => a mod 10 ?= b mod 10
  | c => c
  end = (a ?= b).
Proof.
  pose proof (Z.div_mod a 10). pose proof (Z.div_mod b 10).
  pose proof (Z.mod_pos_bound a 10). pose proof (Z.mod_pos_bound b 10).
  destruct (Z.compare_spec (a / 10) (b / 10)) as [E|E|E].
  - destruct (Z.compare_spec (a mod 10) (b mod 10)) as [E'|E'|E'];
      symmetry; [apply Z.compare_eq_iff | apply Z.compare_lt_iff | apply Z.compare_gt_iff];
      lia.
  - symmetry. apply Z.compare_lt_iff. lia.
  - symmetry. apply Z.compare_gt_iff. lia.
Qed.

(** Numbers written with the same number of digits compare as text the
    way they compare as numbers. *)
Lemma compare_digits_fixed (w : nat) : forall a b,
  0 <= a < 10 ^ Z.of_nat w -> 0 <= b < 10 ^ Z.of_nat w ->
  String.compare (digits_fixed w a) (digits_fixed w b) = (a ?= b).
Proof.
  induction w as [|w IH]; intros a b Ha Hb.
  - cbn in *. assert (a = 0) as -> by lia. assert (b = 0) as -> by lia. reflexivity.
  - rewrite Nat2Z.inj_succ, Z.pow_succ_r in Ha, Hb by lia.
    cbn [digits_fixed].
    rewrite compare_append by (rewrite !PyFacts.length_digits_fixed; reflexivity).
    rewrite IH by (split; [apply Z.div_pos; lia | apply Z.div_lt_upper_bound; lia]).
    cbn [String.compare].
    rewrite compare_digit_char by (apply Z.mod_pos_bound; lia).
    replace (match a mod 10 ?= b mod 10 with Eq => Eq | Lt => Lt | Gt => Gt end)
      with (a mod 10 ?= b mod 10) by (destruct (a mod 10 ?= b mod 10); reflexivity).
    apply compare_by_tenths.
Qed.

Lemma all_from_spec (p : Z -> bool) (start : Z) (count : N) :
  all_from p start count = true ->
  forall n, start <= n < start + Z.of_N count -> p n = true.
Proof.
  unfold all_from.
  assert (H : forall c,
    fst (N.iter c (fun st : Z * bool => (fst st + 1, snd st && p (fst st))) (start, true))
      = start + Z.of_N c /\
    (snd (N.iter c (fun st : Z * bool => (fst st + 1, snd st && p (fst st))) (start, true))
      = true -> forall n, start <= n < start + Z.of_N c -> p n = true)).
  { intros c. induction c as [|c [IH1 IH2]] using N.peano_ind.
    - cbn. split; [lia | intros _ n Hn; lia].
    - rewrite N.iter_succ. cbn [fst snd]. rewrite IH1. split; [lia|].
      intros Hall n Hn. apply andb_true_iff in Hall as [Hall Hp].
      destruct (Z.eq_dec n (start + Z.of_N c)) as [->|Hne]; [exact Hp|].
      apply IH2; [exact Hall | lia]. }
  intros Hall. apply (H count), Hall.
Qed.

(** From 10000 to 99999 the plain notation has five digits. *)
Lemma decimal_five_digits (n : Z) :
  10000 <= n < 100000 -> decimal n = digits_fixed 5 n.
Proof.
  intros Hn. apply String.eqb_eq.
  apply (all_from_spec (fun n => String.eqb (decimal n) (digits_fixed 5 n)) 10000 90000).
  - vm_compute. reflexivity.
  - lia.
Qed.

(** ** Lists *)

Lemma length_filter_split {A} (p : A -> bool) (l : list A) :
  (length (List.filter p l) + length (List.filter (fun x => negb (p x)) l) = length l)%nat.
Proof.
  induction l as [|x l IH]; [reflexivity|]. cbn [List.filter].
  destruct (p x); cbn [negb length]; lia.
Qed.

(** ** The calendar *)

Lemma digit_char_not_hyphen (d : Z) :
  0 <= d < 10 -> Ascii.eqb (digit_char d) "-" = false.
Proof.
  intros H.
  assert (Hd : d = 0 \/ d = 1 \/ d = 2 \/ d = 3 \/ d = 4 \/ d = 5 \/ d = 6 \/ d = 7 \/
               d = 8 \/ d = 9) by lia.
  repeat (destruct Hd as [->|Hd]; [reflexivity|]). subst d. reflexivity.
Qed.

Lemma digit_char_not_blank (d : Z) :
  0 <= d < 10 -> Ascii.eqb (digit_char d) " " = false.
Proof.
  intros H.
  assert (Hd : d = 0 \/ d = 1 \/ d = 2 \/ d = 3 \/ d = 4 \/ d = 5 \/ d = 6 \/ d = 7 \/
               d = 8 \/ d = 9) by lia.
  repeat (destruct Hd as [->|Hd]; [reflexivity|]). subst d. reflexivity.
Qed.

(** [strptime] reads back what [strftime] writes. *)
Lemma strptime_strftime (d : Date) :
  valid_date d = true -> strptime_ymd (strftime_ymd d) = Some d.
Proof.
  intros Hv. pose proof Hv as Hb. unfold valid_date in Hb.
  repeat (apply andb_prop in Hb; destruct Hb as [Hb ?]).
  pose proof (PyFacts.days_in_month_le (d_year d) (d_month d)).
  destruct d as [y m dd]. cbn [d_year d_month d_day] in *.
  unfold strftime_ymd. cbn [d_year d_month d_day].
  rewrite !PyFacts.digits_fixed_2, PyFacts.digits_fixed_4.
  unfold strptime_ymd.
  cbv [String.append]. cbn [split_on].
  rewrite !digit_char_not_hyphen by apply PyFacts.mod10_bound.
  cbn [Ascii.eqb Bool.eqb split_on String.length Nat.eqb Nat.leb andb].
  unfold parse_day. rewrite digit_char_not_blank by apply PyFacts.mod10_bound.

  rewrite PyFacts.parse_4, !PyFacts.parse_2 by apply PyFacts.mod10_bound.
  rewrite PyFacts.recompose_4, !PyFacts.recompose_2 by lia.
  rewrite Hv. reflexivity.
Qed.

Lemma days_before_year_succ (y : Z) :
  days_before_year (y + 1) = days_before_year y + (if is_leap y then 366 else 365).
Proof.
  unfold days_before_year, is_leap. replace (y + 1 - 1) with y by lia.
  destruct (Z.eqb_spec (y mod 4) 0), (Z.eqb_spec (y mod 100) 0), (Z.eqb_spec (y mod 400) 0);
    cbn [andb orb negb]; Z.to_euclidean_division_equations; lia.
Qed.

Lemma days_before_year_mono (y1 y2 : Z) :
  y1 <= y2 -> days_before_year y1 <= days_before_year y2.
Proof.
  intros H. unfold days_before_year. Z.to_euclidean_division_equations. lia.
Qed.

Lemma month_cases (m : Z) :
  1 <= m <= 12 ->
  m = 1 \/ m = 2 \/ m = 3 \/ m = 4 \/ m = 5 \/ m = 6 \/ m = 7 \/ m = 8 \/ m = 9 \/
  m = 10 \/ m = 11 \/ m = 12.
Proof. lia. Qed.

(** The days before each month, and the length of the year. *)
Lemma days_before_month_bounds (y m : Z) :
  1 <= m <= 12 ->
  0 <= days_before_month y m /\
  days_before_month y m + days_in_month y m <= (if is_leap y then 366 else 365).
Proof.
  intros H. apply month_cases in H.
  repeat (destruct H as [->|H]; [cbv [days_before_month days_before_month_nat Z.to_nat
    Z.sub Z.add Z.opp Z.pos_sub Pos.to_nat Pos.iter_op Nat.add Pos.pred_double Z.succ_double
    Z.pred_double Z.double days_in_month Z.of_nat Pos.of_succ_nat Pos.succ Z.eqb Pos.eqb orb];
    destruct (is_leap y); lia|]).
  subst m. cbv [days_before_month days_before_month_nat Z.to_nat
    Z.sub Z.add Z.opp Z.pos_sub Pos.to_nat Pos.iter_op Nat.add Pos.pred_double Z.succ_double
    Z.pred_double Z.double days_in_month Z.of_nat Pos.of_succ_nat Pos.succ Z.eqb Pos.eqb orb].
  destruct (is_leap y); lia.
Qed.

Lemma days_before_month_next (y m1 m2 : Z) :
  1 <= m1 -> m1 < m2 -> m2 <= 12 ->
  days_before_month y m1 + days_in_month y m1 <= days_before_month y m2.
Proof.
  intros H1 H12 H2.
  assert (Hn : exists n1 n2 : nat, m1 = Z.of_nat (S n1) /\ m2 = Z.of_nat (S n2) /\ (n1 < n2)%nat).
  { exists (Z.to_nat (m1 - 1)), (Z.to_nat (m2 - 1)). lia. }
  destruct Hn as (n1 & n2 & -> & -> & Hlt). unfold days_before_month.
  replace (Z.to_nat (Z.of_nat (S n1) - 1)) with n1 by lia.
  replace (Z.to_nat (Z.of_nat (S n2) - 1)) with n2 by lia.
  induction Hlt as [|n2 Hlt IH].
  - cbn [days_before_month_nat]. lia.
  - cbn [days_before_month_nat].
    pose proof (PyFacts.days_in_month_le y (Z.of_nat (S n2))).
    assert (Z.of_nat (S n2) <= 12) by lia. specialize (IH ltac:(lia)). lia.
Qed.

(** Earlier dates have smaller ordinals. *)
Lemma toordinal_lt (a b : Date) :
  valid_date a = true -> valid_date b = true -> date_lt a b -> toordinal a < toordinal b.
Proof.
  intros Ha Hb. unfold valid_date in Ha, Hb.
  repeat (apply andb_prop in Ha; destruct Ha as [Ha ?]).
  repeat (apply andb_prop in Hb; destruct Hb as [Hb ?]).
  destruct a as [ya ma da], b as [yb mb db]. unfold date_lt, toordinal.
  cbn [d_year d_month d_day] in *.
  pose proof (days_before_month_bounds ya ma ltac:(lia)) as [Ha0 Ha1].
  pose proof (days_before_month_bounds yb mb ltac:(lia)) as [Hb0 Hb1].
  intros [Hy|[-> [Hm|[-> Hd]]]].
  - pose proof (days_before_year_succ ya) as Hs.
    pose proof (days_before_year_mono (ya + 1) yb ltac:(lia)). lia.
  - pose proof (days_before_month_next yb ma mb ltac:(lia) Hm ltac:(lia)). lia.
  - lia.
Qed.

Lemma toordinal_order (a b : Date) :
  valid_date a = true -> valid_date b = true ->
  (toordinal a < toordinal b <-> date_lt a b) /\
  (toordinal a = toordinal b <-> a = b).
Proof.
  intros Ha Hb.
  assert (Htri : date_lt a b \/ a = b \/ date_lt b a).
  { destruct a as [ya ma da], b as [yb mb db]. unfold date_lt. cbn [d_year d_month d_day].
    destruct (Z.lt_trichotomy ya yb) as [?|[->|?]]; [lia| |lia].
    destruct (Z.lt_trichotomy ma mb) as [?|[->|?]]; [lia| |lia].
    destruct (Z.lt_trichotomy da db) as [?|[->|?]]; [lia| |lia].
    right; left; reflexivity. }
  pose proof (toordinal_lt a b Ha Hb). pose proof (toordinal_lt b a Hb Ha).
  split; split.
  - intros Hlt. destruct Htri as [?|[->|?]]; [assumption | lia | ].
    specialize (H0 H1). lia.
  - assumption.
  - intros E. destruct Htri as [?|[?|?]]; [specialize (H H1); lia | assumption |
      specialize (H0 H1); lia].
  - intros ->. reflexivity.
Qed.


End PyExtra.

(* ===================================================================== *)
(** * Further properties of the SQL-backed manager *)
(* ===================================================================== *)

Module MainExtra.
Import Py Main Samples MainFacts.

(** ** Adding, finding, deleting *)

Lemma add_task_Added (f : Faults) (e : Env) (tm tm' : TaskManager) (a : Fields) (t : Task) :
  add_task f e tm a = (tm', Added t) ->
  t = add_task_row e (new_id (tasks tm)) a /\
  (id t ∉ (id <$> rows (db tm))) /\
  rows (db tm') = rows (db tm) ++ [t] /\
  tasks tm' = rows (db tm').
Proof.
  unfold add_task.
  destruct (_find_task_by_id tm (new_id (tasks tm))) eqn:Hfind; [discriminate|].
  destruct (insert_raises f _); [discriminate|].
  destruct (commit_raises f); [discriminate|].
  intros [= <- <-]. split; [reflexivity|].
  split; [apply find_id_None, Hfind|]. split; reflexivity.
Qed.

(** X1. A task that [add_task] has inserted is found under its new id,
    in the table and in the reloaded cache, as the row built from the
    caller's fields: priority in lower case, pending, created by the
    current user today, never modified. *)
Theorem add_then_find (f : Faults) (e : Env) (tm tm' : TaskManager) (a : Fields) (t : Task) :
  add_task f e tm a = (tm', Added t) ->
  _find_task_by_id tm' (id t) = Some t /\
  t ∈ tasks tm' /\
  t = add_task_row e (new_id (tasks tm)) a /\
  priority t = lower (f_priority a) /\
  created_by t = Some (current_user e) /\
  last_modified t = None /\ modified_by t = None.
Proof.
  intros H. destruct (add_task_Added _ _ _ _ _ _ H) as (Ht & Hfresh & Hrows & Hcache).
  split.
  - unfold _find_task_by_id, sql_select_id. rewrite Hrows. apply find_app_fresh, Hfresh.
  - split; [rewrite Hcache, Hrows; apply elem_of_app; right; left|].
    split; [exact Ht|]. rewrite Ht. repeat split; reflexivity.
Qed.

Lemma add_then_find_witness :
  exists tm' t,
    add_task no_faults sample_env (manager_of two_tasks) sample_fields = (tm', Added t) /\
    _find_task_by_id tm' 3 = Some t /\ priority t = "high"%string.
Proof.
  eexists _, _. split; [reflexivity|].
  destruct (add_then_find no_faults sample_env (manager_of two_tasks) _ sample_fields _ eq_refl)
    as (Hfind & _ & _ & Hp & _).
  split; [exact Hfind | exact Hp].
Defined.

Lemma filter_not_id_fresh (i : Z) (l : list Task) :
  i ∉ (id <$> l) -> List.filter (fun t => negb (has_id i t)) l = l.
Proof.
  induction l as [|t l IH]; intros H; [reflexivity|].
  rewrite fmap_cons in H. apply not_elem_of_cons in H as [Hne H].
  cbn [List.filter]. unfold has_id at 1.
  destruct (Z.eqb_spec (id t) i) as [E|_]; [congruence|].
  cbn [negb]. f_equal. apply IH, H.
Qed.

Lemma tm_delete_task_rows (tm : TaskManager) (task_id : Z) :
  rows (db (tm_delete_task no_faults tm task_id).1)
  = List.filter (fun t => negb (has_id task_id t)) (rows (db tm)).
Proof. reflexivity. Qed.

(** X2. [TaskManager.delete_task] on a reliable backend removes every
    row with the id and no other, keeps the order of the rest, commits
    and reloads; afterwards the id is not found. It reports success also
    when the table held no such row, and then nothing has changed. *)
Theorem tm_delete_task_effect (tm : TaskManager) (task_id : Z) :
  let r := tm_delete_task no_faults tm task_id in
  r.2 = true /\
  rows (db r.1) = List.filter (fun t => negb (has_id task_id t)) (rows (db tm)) /\
  durable (db r.1) = rows (db r.1) /\
  tasks r.1 = rows (db r.1) /\
  _find_task_by_id r.1 task_id = None /\
  (forall t, t ∈ rows (db r.1) <-> t ∈ rows (db tm) /\ id t <> task_id) /\
  (_find_task_by_id tm task_id = None -> rows (db r.1) = rows (db tm)).
Proof.
  cbv zeta. unfold tm_delete_task. cbn.
  split; [reflexivity|]. split; [reflexivity|]. split; [reflexivity|].
  split; [reflexivity|]. split; [|split].
  - unfold _find_task_by_id, sql_select_id. cbn. apply find_id_None.
    intros H. apply list_elem_of_fmap in H as (t & -> & Ht).
    apply list_elem_of_In, List.filter_In in Ht as [_ Ht].
    unfold has_id in Ht. rewrite Z.eqb_refl in Ht. discriminate.
  - intros t. rewrite !list_elem_of_In, List.filter_In. unfold has_id.
    destruct (Z.eqb_spec (id t) task_id); cbn; intuition congruence.
  - intros H. apply filter_not_id_fresh, find_id_None, H.
Qed.

(** X3. Adding a task and deleting it under the id it was given restores
    the table row for row. *)
Theorem add_then_delete (f : Faults) (e : Env) (tm tm' : TaskManager) (a : Fields) (t : Task) :
  add_task f e tm a = (tm', Added t) ->
  rows (db (tm_delete_task no_faults tm' (id t)).1) = rows (db tm).
Proof.
  intros H. destruct (add_task_Added _ _ _ _ _ _ H) as (_ & Hfresh & Hrows & _).
  rewrite tm_delete_task_rows.
  rewrite Hrows, List.filter_app, filter_not_id_fresh by exact Hfresh.
  cbn. unfold has_id. rewrite Z.eqb_refl. cbn. apply List.app_nil_r.
Qed.

Lemma add_then_delete_witness :
  exists tm' t,
    add_task no_faults sample_env (manager_of two_tasks) sample_fields = (tm', Added t) /\
    rows (db (tm_delete_task no_faults tm' (id t)).1) = two_tasks.
Proof.
  eexists _, _. split; [reflexivity|].
  apply (add_then_delete no_faults sample_env (manager_of two_tasks) _ sample_fields _ eq_refl).
Defined.

(** ** Updates *)

Lemma Forall2_map_same {A} (R : A -> A -> Prop) (g : A -> A) (l : list A) :
  (forall x, R x (g x)) -> Forall2 R l (List.map g l).
Proof. intros H. induction l; simpl; constructor; auto. Qed.

Lemma Forall2_same {A} (R : A -> A -> Prop) (l : list A) :
  (forall x, R x x) -> Forall2 R l l.
Proof. intros H. induction l; constructor; auto. Qed.

Lemma map_update_absent (i : Z) (g : Task -> Task) (l : list Task) :
  i ∉ (id <$> l) -> List.map (fun t => if has_id i t then g t else t) l = l.
Proof.
  induction l as [|r l IH]; intros H; [reflexivity|].
  rewrite fmap_cons in H. apply not_elem_of_cons in H as [Hne H].
  cbn [List.map]. unfold has_id at 1.
  destruct (Z.eqb_spec (id r) i); [congruence|]. f_equal. apply IH, H.
Qed.

(** X4. [update_task] never stamps a row. Whatever the backend
    refuses, it keeps the number and order of the rows and every id, and
    leaves each row with another id exactly as it was. A provenance
    column ([created_date], [created_by], [last_modified], [modified_by])
    of the row with the id changes only when that column is among the
    keyword arguments; it is then written like any other keyword (a
    datetime object given for [last_modified] loses its time of day).
    None of the callers in the program passes one: not the edit dialog,
    not completion, not assignment, not the update branch of undo. An id
    that no row carries is no error: the table is unchanged. *)
Theorem update_task_frame (f : Faults) (tm : TaskManager) (task_id : Z) (k : Kwargs) :
  let tm' := update_task f tm task_id k in
  Forall2 (fun r r' =>
             id r' = id r /\
             (k_created_date k = None -> created_date r' = created_date r) /\
             (k_created_by k = None -> created_by r' = created_by r) /\
             (k_last_modified k = None -> last_modified r' = last_modified r) /\
             (k_modified_by k = None -> modified_by r' = modified_by r) /\
             (id r <> task_id -> r' = r))
    (rows (db tm)) (rows (db tm')) /\
  (_find_task_by_id tm task_id = None -> rows (db tm') = rows (db tm)) /\
  (update_raises f task_id = false ->
   forall r', r' ∈ rows (db tm') -> id r' = task_id ->
     (forall v, k_modified_by k = Some v -> modified_by r' = v) /\
     (forall v, k_created_by k = Some v -> created_by r' = v) /\
     (forall t, k_last_modified k = Some (Some (StampObject t)) ->
        last_modified r' = Some (String.append (strftime_ymd (dt_date t)) " 00:00:00"))) /\
  (forall k0,
     (exists task, k0 = kwargs_of task) \/ (exists result, k0 = kwargs_of_result result) \/
     (exists value, k0 = kw_completed value) \/ (exists name, k0 = kw_assigned_to name) ->
     k_created_date k0 = None /\ k_created_by k0 = None /\
     k_last_modified k0 = None /\ k_modified_by k0 = None).
Proof.
  cbv zeta.
  assert (Hmap : Forall2 (fun r r' =>
             id r' = id r /\
             (k_created_date k = None -> created_date r' = created_date r) /\
             (k_created_by k = None -> created_by r' = created_by r) /\
             (k_last_modified k = None -> last_modified r' = last_modified r) /\
             (k_modified_by k = None -> modified_by r' = modified_by r) /\
             (id r <> task_id -> r' = r))
    (rows (db tm))
    (List.map (fun t => if has_id task_id t then set_columns (validate_dates k) t else t)
       (rows (db tm)))).
  { apply Forall2_map_same. intros r. unfold has_id.
    destruct (Z.eqb_spec (id r) task_id); [|repeat split; reflexivity].
    cbn [set_columns validate_dates id created_date created_by last_modified modified_by
         k_created_date k_created_by k_last_modified k_modified_by].
    repeat split; try (intros ->; reflexivity). congruence. }
  assert (Hnone : _find_task_by_id tm task_id = None ->
    List.map (fun t => if has_id task_id t then set_columns (validate_dates k) t else t)
       (rows (db tm)) = rows (db tm)).
  { intros H. apply map_update_absent, find_id_None, H. }
  assert (Hwritten : forall r',
    r' ∈ List.map (fun t => if has_id task_id t then set_columns (validate_dates k) t else t)
           (rows (db tm)) -> id r' = task_id ->
     (forall v, k_modified_by k = Some v -> modified_by r' = v) /\
     (forall v, k_created_by k = Some v -> created_by r' = v) /\
     (forall t, k_last_modified k = Some (Some (StampObject t)) ->
        last_modified r' = Some (String.append (strftime_ymd (dt_date t)) " 00:00:00"))).
  { intros r' Hin Hid. apply list_elem_of_In, List.in_map_iff in Hin as (r & Hr & _).
    assert (Hhas : has_id task_id r = true).
    { destruct (has_id task_id r) eqn:E; [reflexivity|]. subst r'.
      unfold has_id in E. rewrite Hid, Z.eqb_refl in E. discriminate. }
    rewrite Hhas in Hr. subst r'.
    cbn [set_columns validate_dates created_by last_modified modified_by
         k_created_by k_last_modified k_modified_by].
    repeat split; intros v Hv; rewrite Hv; reflexivity. }
  split; [|split; [|split]].
  - unfold update_task.
    destruct (no_columns (validate_dates k));
      [apply Forall2_same; intros x; repeat split; auto|].
    destruct (update_raises f task_id);
      [apply Forall2_same; intros x; repeat split; auto|].
    destruct (commit_raises f); exact Hmap.
  - unfold update_task.
    destruct (no_columns (validate_dates k)); [reflexivity|].
    destruct (update_raises f task_id); [reflexivity|].
    destruct (commit_raises f); exact Hnone.
  - intros Hup r' Hin Hid. unfold update_task in Hin. rewrite Hup in Hin.
    destruct (no_columns (validate_dates k)) eqn:Hcols.
    + unfold no_columns in Hcols. cbn [validate_dates k_title k_description k_due_date
        k_priority k_category k_main_staff k_assigned_to k_applied_vessel k_rev k_drawing_no
        k_link k_sdb_link k_request_no k_requested_date k_date_started k_qtd_mhr
        k_actual_mhr k_completed k_created_date k_created_by k_last_modified
        k_modified_by] in Hcols.
      repeat split; intros v Hv; rewrite Hv in Hcols;
        repeat match type of Hcols with
               | match ?x with _ => _ end = _ => destruct x
               end; discriminate.
    + destruct (commit_raises f); apply Hwritten; assumption.
  - intros k0 [(task & ->)|[(result & ->)|[(value & ->)|(name & ->)]]];
      repeat split; reflexivity.
Qed.

Lemma validate_date_parses (v : option string) (s : string) :
  validate_date v = Some s ->
  v = Some s /\ exists d, strptime_ymd s = Some d /\ valid_date d = true.
Proof.
  unfold validate_date. destruct v as [s0|]; [|discriminate].
  destruct (truthy (Some s0)); [|discriminate].
  destruct (strptime_ymd s0) as [d|] eqn:E; [|discriminate].
  intros [= <-]. split; [reflexivity|]. exists d. split; [exact E|].
  unfold strptime_ymd in E.
  destruct (split_on "-" s0) as [|ys [|ms [|ds [|]]]]; try discriminate.
  destruct ((String.length ys =? 4)%nat && (String.length ms <=? 2)%nat); [|discriminate].
  destruct (parse_digits ys), (parse_digits ms), (parse_day ds); try discriminate.
  destruct (valid_date _) eqn:Ev; [|discriminate]. injection E as <-. exact Ev.
Qed.

Lemma validate_date_truthy (v : option string) (s : string) :
  validate_date v = Some s -> truthy (Some s) = true.
Proof.
  unfold validate_date. destruct v as [s0|]; [|discriminate].
  destruct (truthy (Some s0)) eqn:E; [|discriminate].
  destruct (strptime_ymd s0); [|discriminate]. intros [= <-]. exact E.
Qed.

(** X5. A date that went through [update_task] can always be read
    again. For dates given as ASCII text and an update the backend
    carries out: each of [due_date], [requested_date] and
    [date_started] that was among the keyword arguments is stored as
    given when [strptime] reads it as a day that exists (a day written
    as a blank and a digit included), and as [None] otherwise. So the
    views never meet a due date they cannot parse in a row written by
    [update_task]: the days until due are those of the day it names, or
    the task has no due date. *)
Theorem update_task_dates (today : Date) (tm : TaskManager) (task_id : Z) (k : Kwargs)
    (r' : Task) :
  no_columns (validate_dates k) = false ->
  r' ∈ rows (db (update_task no_faults tm task_id k)) ->
  id r' = task_id ->
  (forall v, k_due_date k = Some v ->
     (forall s, v = Some s -> is_ascii s = true) ->
     due_date r' = validate_date v /\
     match due_date r' with
     | Some s =>
         v = Some s /\
         exists d, strptime_ymd s = Some d /\ valid_date d = true /\
                   days_until_due today (due_date r') = Some (days_between d today)
     | None => days_until_due today (due_date r') = None
     end) /\
  (forall v, k_requested_date k = Some v ->
     (forall s, v = Some s -> is_ascii s = true) ->
     requested_date r' = validate_date v /\
     forall s, requested_date r' = Some s ->
       v = Some s /\ exists d, strptime_ymd s = Some d /\ valid_date d = true) /\
  (forall v, k_date_started k = Some v ->
     (forall s, v = Some s -> is_ascii s = true) ->
     date_started r' = validate_date v /\
     forall s, date_started r' = Some s ->
       v = Some s /\ exists d, strptime_ymd s = Some d /\ valid_date d = true).
Proof.
  intros Hcols Hin Hid. unfold update_task in Hin. rewrite Hcols in Hin. cbn in Hin.
  apply list_elem_of_In, List.in_map_iff in Hin as (r & Hr & _).
  assert (Hhas : has_id task_id r = true).
  { destruct (has_id task_id r) eqn:E; [reflexivity|]. subst r'.
    unfold has_id in E. rewrite Hid, Z.eqb_refl in E. discriminate. }
  rewrite Hhas in Hr. subst r'.
  split; [|split]; intros v Hv _;
    cbn [set_columns validate_dates due_date requested_date date_started
         k_due_date k_requested_date k_date_started]; rewrite Hv;
    cbn [fmap option_fmap option_map or_keep].
  - split; [reflexivity|].
    destruct (validate_date v) as [s|] eqn:E; [|reflexivity].
    destruct (validate_date_parses v s E) as (-> & d & Hd & Hvalid).
    split; [reflexivity|]. exists d. split; [exact Hd|]. split; [exact Hvalid|].
    unfold days_until_due. rewrite (validate_date_truthy _ _ E), Hd. reflexivity.
  - split; [reflexivity | intros s Hs; apply validate_date_parses, Hs].
  - split; [reflexivity | intros s Hs; apply validate_date_parses, Hs].
Qed.

Lemma update_task_dates_witness :
  let k := mkKwargs None None None (Some (Some "2025-02-30"%string)) None None None None
             None None None None None None (Some (Some "2025-03- 1"%string)) None
             None None None None None None None in
  exists r', r' ∈ rows (db (update_task no_faults (manager_of two_tasks) 1 k)) /\
    id r' = 1 /\ due_date r' = None /\ requested_date r' = Some "2025-03- 1"%string.
Proof.
  intros k.
  assert (Hin : set_columns (validate_dates k) (sample_task 1 "Calibrate sensor" None)
                ∈ rows (db (update_task no_faults (manager_of two_tasks) 1 k))) by left.
  eexists. split; [exact Hin|]. split; [reflexivity|].
  destruct (update_task_dates (mkDate 2026 11 4) (manager_of two_tasks) 1 k _ eq_refl Hin
              eq_refl) as (Hdue & Hreq & _).
  destruct (Hdue _ eq_refl) as [-> _]; [intros s [= <-]; reflexivity|].
  destruct (Hreq _ eq_refl) as [-> _]; [intros s [= <-]; reflexivity|].
  split; reflexivity.
Defined.

(** ** Filtering *)

Lemma column_is_spec (wanted value : option string) :
  column_is wanted value = true <->
  (forall w, wanted = Some w -> w <> EmptyString -> value = Some w).
Proof.
  unfold column_is. destruct wanted as [[|c w]|]; cbn.
  - split; [intros _ w [= <-] H; congruence | reflexivity].
  - destruct value as [v|].
    + rewrite String.eqb_eq. split.
      * intros -> w0 [= <-] _. reflexivity.
      * intros H. specialize (H _ eq_refl). injection H; [auto | discriminate].
    + split; [discriminate|]. intros H. specialize (H _ eq_refl). discriminate H. discriminate.
  - split; [intros _ w H; discriminate | reflexivity].
Qed.

Lemma sublist_list_filter {A} (p : A -> bool) (l : list A) : sublist (List.filter p l) l.
Proof.
  induction l as [|x l IH]; [constructor|]. cbn.
  destruct (p x); [apply sublist_skip | apply sublist_cons]; exact IH.
Qed.

(** X6. [get_filtered_tasks] returns, in table order, exactly the rows
    that meet every criterion given: pending unless completed tasks are
    asked for, and equal in category, main staff and assignee to each
    argument that is neither [None] nor the empty string. An empty
    argument filters nothing; a row without assignee matches no assignee. *)
Theorem get_filtered_tasks_spec (tm : TaskManager) (show_completed : bool)
    (by_category by_main_staff by_assigned_to : option string) :
  let result := get_filtered_tasks tm show_completed by_category by_main_staff by_assigned_to in
  sublist result (rows (db tm)) /\
  forall t, t ∈ result <->
    t ∈ rows (db tm) /\
    (show_completed = false -> completed t = false) /\
    (forall w, by_category = Some w -> w <> EmptyString -> category t = w) /\
    (forall w, by_main_staff = Some w -> w <> EmptyString -> main_staff t = Some w) /\
    (forall w, by_assigned_to = Some w -> w <> EmptyString -> assigned_to t = Some w).
Proof.
  cbv zeta. split; [apply sublist_list_filter|].
  intros t. unfold get_filtered_tasks.
  rewrite !list_elem_of_In, List.filter_In. unfold where_clause.
  rewrite !andb_true_iff, !column_is_spec.
  split.
  - intros (Hin & ((Hc & Hcat) & Hms) & Hat). split; [exact Hin|].
    split; [|split; [|split]]; try assumption.
    + intros ->. cbn in Hc. apply negb_true_iff in Hc. exact Hc.
    + intros w Hw Hne. specialize (Hcat w Hw Hne). congruence.
  - intros (Hin & Hc & Hcat & Hms & Hat). split; [exact Hin|].
    split; [split; [split|]|]; try assumption.
    + destruct show_completed; [reflexivity|]. cbn. rewrite Hc; reflexivity.
    + intros w Hw Hne. f_equal. apply Hcat; assumption.
Qed.

(** ** Completion and assignment *)

Lemma existsb_eqb_In (i : Z) (ids : list Z) :
  existsb (Z.eqb i) ids = true <-> i ∈ ids.
Proof.
  rewrite List.existsb_exists, list_elem_of_In. split.
  - intros (x & Hx & E). apply Z.eqb_eq in E. subst. exact Hx.
  - intros H. exists i. split; [exact H | apply Z.eqb_refl].
Qed.

(** The rows after one and the same update of every id of a list, on a
    reliable backend. *)
Lemma fold_update_rows (k : Kwargs) (ids : list Z) :
  no_columns (validate_dates k) = false ->
  (forall r, set_columns (validate_dates k) (set_columns (validate_dates k) r)
             = set_columns (validate_dates k) r) ->
  forall tm,
  rows (db (List.fold_left (fun tm0 i => update_task no_faults tm0 i k) ids tm))
  = List.map (fun r => if existsb (Z.eqb (id r)) ids
                       then set_columns (validate_dates k) r else r) (rows (db tm)).
Proof.
  intros Hcols Hidem. induction ids as [|i ids IH]; intros tm.
  - cbn. symmetry. apply List.map_id.
  - cbn [List.fold_left]. rewrite IH. unfold update_task at 1. rewrite Hcols. cbn.
    rewrite List.map_map. apply List.map_ext. intros r. unfold has_id.
    destruct (Z.eqb_spec (id r) i) as [E|N]; cbn.
    + destruct (existsb _ ids); [apply Hidem | reflexivity].
    + reflexivity.
Qed.

Lemma forallb_omap_find (p : Task -> bool) (ids : list Z) (l : list Task) :
  (forall r, r ∈ l -> id r ∈ ids -> p r = true) ->
  forallb p (omap (fun i => List.find (has_id i) l) ids) = true.
Proof.
  intros H. apply List.forallb_forall. intros t Ht.
  apply list_elem_of_In, list_elem_of_omap in Ht as (i & Hi & Hfind).
  apply find_id_Some in Hfind as [Hin Hid]. apply H; [exact Hin | congruence].
Qed.

Lemma map_ext_elem {A B} (g h : A -> B) (l : list A) :
  (forall x, x ∈ l -> g x = h x) -> List.map g l = List.map h l.
Proof.
  intros H. apply List.map_ext_in. intros x Hx. apply H, list_elem_of_In, Hx.
Qed.

(** The body of [complete_task] on a selection that is not empty. *)
Lemma complete_task_nonempty (f : Faults) (app : TaskManagerApp) (task_ids : list Z)
    (confirmed : bool) (choice : MixedAnswer) :
  task_ids <> [] ->
  complete_task f app task_ids confirmed choice =
  let tm := task_manager app in
  let found := omap (_find_task_by_id tm) task_ids in
  let tm1 :=
    if forallb completed found then
      (if confirmed then batch_update_completion_status f tm task_ids false else tm)
    else if forallb (fun task => negb (completed task)) found then
      (if confirmed then batch_update_completion_status f tm task_ids true else tm)
    else
      match choice with
      | AnswerYes => batch_update_completion_status f tm task_ids true
      | AnswerNo => batch_update_completion_status f tm task_ids false
      | AnswerCancel => tm
      end in
  refresh_task_list (mkApp tm1 (deleted_tasks_stack app) (max_undo_stack_size app)).
Proof. destruct task_ids; [congruence | reflexivity]. Qed.

(** X7. Toggling twice is the identity: on a reliable backend, when every
    selected task that exists is pending and the user confirms both
    times, [complete_task] first marks all of them completed and the
    second call, finding them all completed, marks them pending again;
    the table is row for row the one before. *)
Theorem complete_task_twice (app : TaskManagerApp) (task_ids : list Z)
    (choice1 choice2 : MixedAnswer) :
  (forall r, r ∈ rows (db (task_manager app)) -> id r ∈ task_ids -> completed r = false) ->
  (exists r, r ∈ rows (db (task_manager app)) /\ id r ∈ task_ids) ->
  let app1 := complete_task no_faults app task_ids true choice1 in
  let app2 := complete_task no_faults app1 task_ids true choice2 in
  (forall r, r ∈ rows (db (task_manager app1)) -> id r ∈ task_ids -> completed r = true) /\
  (forall r, r ∈ rows (db (task_manager app)) -> id r ∉ task_ids ->
             r ∈ rows (db (task_manager app1))) /\
  rows (db (task_manager app2)) = rows (db (task_manager app)).
Proof.
  intros Hpending (r0 & Hr0 & Hid0) app1 app2.
  assert (Hne : task_ids <> []) by (intros ->; inversion Hid0).
  set (l := rows (db (task_manager app))) in *.
  assert (Hfound0 : List.find (has_id (id r0)) l <> None).
  { intros H. apply find_id_None in H. apply H, list_elem_of_fmap. eauto. }
  assert (Hrows1 : rows (db (task_manager app1)) =
    List.map (fun r => if existsb (Z.eqb (id r)) task_ids
                       then set_columns (kw_completed true) r else r) l).
  { subst app1. rewrite complete_task_nonempty by exact Hne. cbv zeta.
    unfold _find_task_by_id, sql_select_id. fold l.
    assert (Hnot : forallb completed (omap (fun i => List.find (has_id i) l) task_ids) = false).
    { destruct (List.find (has_id (id r0)) l) as [t|] eqn:Et; [|congruence].
      apply not_true_is_false. intros Hall.
      rewrite List.forallb_forall in Hall.
      assert (Hin : In t (omap (fun i => List.find (has_id i) l) task_ids)).
      { apply list_elem_of_In, list_elem_of_omap. exists (id r0). split; assumption. }
      specialize (Hall t Hin).
      apply find_id_Some in Et as [Htl Htid].
      rewrite (Hpending t Htl) in Hall; [discriminate | congruence]. }
    rewrite Hnot.
    rewrite (forallb_omap_find (fun task => negb (completed task)))
      by (intros r Hr Hi; rewrite (Hpending r Hr Hi); reflexivity).
    cbn [refresh_task_list task_manager reload_tasks db].
    unfold batch_update_completion_status.
    rewrite fold_update_rows by (intros; reflexivity). reflexivity. }
  split; [|split].
  - intros r Hr Hi. rewrite Hrows1 in Hr.
    apply list_elem_of_In, List.in_map_iff in Hr as (r1 & <- & Hr1).
    destruct (existsb (Z.eqb (id r1)) task_ids) eqn:E; [reflexivity|].
    apply existsb_eqb_In in Hi. congruence.
  - intros r Hr Hi. rewrite Hrows1. apply list_elem_of_In, List.in_map_iff.
    exists r. split; [|apply list_elem_of_In, Hr].
    destruct (existsb (Z.eqb (id r)) task_ids) eqn:E; [|reflexivity].
    apply existsb_eqb_In in E. contradiction.
  - subst app2. rewrite complete_task_nonempty by exact Hne. cbv zeta.
    unfold _find_task_by_id, sql_select_id.
    set (l1 := rows (db (task_manager app1))) in *.
    rewrite (forallb_omap_find completed).
    + cbn [refresh_task_list task_manager reload_tasks db].
      unfold batch_update_completion_status.
      rewrite fold_update_rows by (intros; reflexivity). fold l1. rewrite Hrows1.
      rewrite List.map_map. rewrite <- (List.map_id l) at 2.
      apply map_ext_elem. intros r Hr.
      destruct (existsb (Z.eqb (id r)) task_ids) eqn:E.
      * cbn [id set_columns]. rewrite E.
        apply existsb_eqb_In in E. pose proof (Hpending r Hr E) as Hc.
        destruct r; cbn in *. subst. reflexivity.
      * rewrite E. reflexivity.
    + intros r Hr Hi. rewrite Hrows1 in Hr.
      apply list_elem_of_In, List.in_map_iff in Hr as (r1 & <- & Hr1).
      destruct (existsb (Z.eqb (id r1)) task_ids) eqn:E; [reflexivity|].
      apply existsb_eqb_In in Hi. congruence.
Qed.

Lemma complete_task_twice_witness :
  let app := init (manager_of two_tasks) in
  rows (db (task_manager
    (complete_task no_faults (complete_task no_faults app [1; 2] true AnswerCancel)
       [1; 2] true AnswerCancel))) = two_tasks.
Proof.
  intros app.
  apply (complete_task_twice app [1; 2] AnswerCancel AnswerCancel).
  - intros r Hr _. vm_compute in Hr.
    apply elem_of_cons in Hr as [->|Hr]; [reflexivity|].
    apply elem_of_cons in Hr as [->|Hr]; [reflexivity | inversion Hr].
  - exists (sample_task 1 "Calibrate sensor" None). split; left.
Defined.

(** X8. [assign_task_to] on a reliable backend writes the name into the
    assignee of every row whose id is selected and changes nothing else:
    the other columns of those rows and all other rows stay as they
    were. The name is not checked against the roster. *)
Theorem assign_task_to_effect (app : TaskManagerApp) (i0 : Z) (rest : list Z)
    (staff_name : string) :
  let task_ids := i0 :: rest in
  let app' := assign_task_to no_faults app task_ids staff_name in
  Forall2 (fun r r' =>
             if existsb (Z.eqb (id r)) task_ids
             then r' = set_columns (kw_assigned_to staff_name) r /\
                  assigned_to r' = Some staff_name /\ id r' = id r /\
                  title r' = title r /\ completed r' = completed r
             else r' = r)
    (rows (db (task_manager app))) (rows (db (task_manager app'))) /\
  deleted_tasks_stack app' = deleted_tasks_stack app.
Proof.
  cbv zeta. unfold assign_task_to. cbn [refresh_task_list task_manager reload_tasks db
    deleted_tasks_stack].
  split; [|reflexivity].
  rewrite fold_update_rows by (intros; reflexivity).
  apply Forall2_map_same. intros r.
  destruct (existsb (Z.eqb (id r)) (i0 :: rest)); [|reflexivity].
  repeat split; reflexivity.
Qed.


(** ** Ids stay unique *)

Lemma NoDup_snoc_fresh (ids : list Z) (i : Z) :
  NoDup ids -> i ∉ ids -> NoDup (ids ++ [i]).
Proof.
  intros Hnd Hi. apply NoDup_app. split; [exact Hnd|]. split.
  - intros x Hx Hin. apply elem_of_cons in Hin as [->|Hin]; [contradiction | inversion Hin].
  - apply NoDup_singleton.
Qed.

Lemma add_task_unique (f : Faults) (e : Env) (tm : TaskManager) (a : Fields) :
  unique_ids tm -> unique_ids (add_task f e tm a).1.
Proof.
  intros [Hr Hd]. unfold add_task.
  destruct (_find_task_by_id tm (new_id (tasks tm))) eqn:Hfind; [split; assumption|].
  apply find_id_None in Hfind.
  destruct (insert_raises f _); [split; assumption|].
  assert (Hnew : NoDup (id <$> rows (db tm) ++ [add_task_row e (new_id (tasks tm)) a])).
  { rewrite fmap_app. apply NoDup_snoc_fresh; assumption. }
  destruct (commit_raises f); split; cbn; assumption.
Qed.

Lemma add_task_direct_id_unique (f : Faults) (e : Env) (tm : TaskManager)
    (task_id : Z) (a : Fields) (done : bool) :
  _find_task_by_id tm task_id = None ->
  unique_ids tm -> unique_ids (add_task_direct_id f e tm task_id a done).
Proof.
  intros Hfind [Hr Hd]. apply find_id_None in Hfind. unfold add_task_direct_id.
  destruct (insert_raises f task_id); [split; assumption|].
  assert (Hnew : NoDup (id <$> rows (db tm) ++ [direct_id_row e task_id a done])).
  { rewrite fmap_app. apply NoDup_snoc_fresh; assumption. }
  destruct (commit_raises f); split; cbn; assumption.
Qed.

Lemma map_update_ids (i : Z) (k : Kwargs) (l : list Task) :
  id <$> List.map (fun t => if has_id i t then set_columns k t else t) l = id <$> l.
Proof.
  induction l as [|t l IH]; [reflexivity|]. cbn [List.map]. rewrite !fmap_cons, IH.
  f_equal. destruct (has_id i t); reflexivity.
Qed.

Lemma update_task_unique (f : Faults) (tm : TaskManager) (task_id : Z) (k : Kwargs) :
  unique_ids tm -> unique_ids (update_task f tm task_id k).
Proof.
  intros [Hr Hd]. unfold update_task.
  destruct (no_columns (validate_dates k)); [split; assumption|].
  destruct (update_raises f task_id); [split; assumption|].
  destruct (commit_raises f); split; cbn; rewrite ?map_update_ids; assumption.
Qed.

Lemma fold_unique {A} (g : TaskManager -> A -> TaskManager) (l : list A) :
  (forall tm x, unique_ids tm -> unique_ids (g tm x)) ->
  forall tm, unique_ids tm -> unique_ids (List.fold_left g l tm).
Proof.
  intros Hg. induction l as [|x l IH]; intros tm H; [exact H|]. apply IH, Hg, H.
Qed.

Lemma batch_delete_loop_sublist (f : Faults) (ids : list Z) : forall s,
  sublist (rows (batch_delete_loop f s ids).1) (rows s) /\
  durable (batch_delete_loop f s ids).1 = durable s.
Proof.
  induction ids as [|i ids IH]; intros s; [split; reflexivity|].
  cbn [batch_delete_loop]. destruct (delete_raises f i).
  - specialize (IH s). destruct (batch_delete_loop f s ids) as [s' [ok ko]]. exact IH.
  - specialize (IH (sql_delete i s)).
    destruct (batch_delete_loop f (sql_delete i s) ids) as [s' [ok ko]].
    cbn [fst] in *. destruct IH as [IH1 IH2]. split; [|exact IH2].
    etransitivity; [exact IH1|]. apply sublist_list_filter.
Qed.

Lemma NoDup_ids_sublist (l l' : list Task) :
  sublist l' l -> NoDup (id <$> l) -> NoDup (id <$> l').
Proof.
  intros Hs Hnd.
  apply (sublist_NoDup (id <$> l') (id <$> l)); [exact Hnd | apply fmap_sublist, Hs].
Qed.

Lemma batch_delete_tasks_unique (f : Faults) (tm : TaskManager) (ids : list Z) :
  unique_ids tm -> unique_ids (batch_delete_tasks f tm ids).1.
Proof.
  intros [Hr Hd]. unfold batch_delete_tasks.
  destruct (batch_delete_loop_sublist f ids (db tm)) as [Hs Hdur].
  destruct (batch_delete_loop f (db tm) ids) as [s1 [ok ko]]. cbn [fst] in *.
  pose proof (NoDup_ids_sublist _ _ Hs Hr) as Hr1.
  destruct (commit_raises f); split; cbn; try assumption. rewrite Hdur. exact Hd.
Qed.

Lemma rollback_unique (tm : TaskManager) :
  unique_ids tm -> unique_ids (rollback_transaction tm).
Proof. intros [_ Hd]. split; exact Hd. Qed.

Lemma commit_unique (tm : TaskManager) :
  unique_ids tm -> unique_ids (commit_transaction tm).
Proof. intros [Hr _]. split; exact Hr. Qed.

Lemma reload_unique (tm : TaskManager) : unique_ids tm -> unique_ids (reload_tasks tm).
Proof. intros H. exact H. Qed.

Lemma restore_task_unique (f : Faults) (e : Env) (tm : TaskManager) (task : Task) :
  unique_ids tm -> unique_ids (restore_task f e tm task).
Proof.
  intros H. unfold restore_task.
  destruct (_find_task_by_id tm (id task)) eqn:Hfind.
  - apply update_task_unique, H.
  - apply add_task_direct_id_unique; assumption.
Qed.

Lemma delete_task_unique (f : Faults) (e : Env) (app : TaskManagerApp)
    (task_ids : list Z) (confirmed : bool) :
  unique_ids (task_manager app) ->
  unique_ids (task_manager (delete_task f e app task_ids confirmed)).
Proof.
  intros H. unfold delete_task. destruct task_ids as [|i rest]; [exact H|].
  destruct confirmed; [|exact H]. cbn [negb]. unfold begin_transaction.
  destruct (omap _ (i :: rest)); [exact H|].
  pose proof (batch_delete_tasks_unique f (task_manager app) (i :: rest) H) as H1.
  destruct (batch_delete_tasks f (task_manager app) (i :: rest)) as [tm1 [ok [|k ko]]];
    cbn [fst] in H1; cbn [task_manager refresh_task_list].
  - apply reload_unique, commit_unique, H1.
  - apply rollback_unique, H1.
Qed.

Lemma undo_delete_unique (f : Faults) (e : Env) (app : TaskManagerApp) :
  unique_ids (task_manager app) -> unique_ids (task_manager (undo_delete f e app)).
Proof.
  intros H. unfold undo_delete.
  destruct (List.rev (deleted_tasks_stack app)) as [|r rs]; [exact H|].
  unfold begin_transaction.
  pose proof (fold_unique (restore_task f e) (rec_tasks r)
                (fun tm x => restore_task_unique f e tm x) _ H) as H1.
  destruct (rec_tasks r); cbn [task_manager refresh_task_list].
  - apply rollback_unique, H1.
  - apply reload_unique, commit_unique, H1.
Qed.

Lemma complete_task_unique (f : Faults) (app : TaskManagerApp) (task_ids : list Z)
    (confirmed : bool) (choice : MixedAnswer) :
  unique_ids (task_manager app) ->
  unique_ids (task_manager (complete_task f app task_ids confirmed choice)).
Proof.
  intros H. unfold complete_task. destruct task_ids as [|i rest]; [exact H|].
  cbn [task_manager refresh_task_list]. apply reload_unique.
  assert (Hb : forall c, unique_ids
            (batch_update_completion_status f (task_manager app) (i :: rest) c)).
  { intros c. apply fold_unique; [|exact H]. intros tm x. apply update_task_unique. }
  destruct (forallb completed _); [destruct confirmed; [apply Hb | exact H]|].
  destruct (forallb _ _); [destruct confirmed; [apply Hb | exact H]|].
  destruct choice; [apply Hb | apply Hb | exact H].
Qed.

Lemma exec_unique (app : TaskManagerApp) (c : Command) :
  unique_ids (task_manager app) -> unique_ids (task_manager (exec app c)).
Proof.
  intros H. destruct c as [f e d|f sel d|f ids c ch|f ids n|f e ids c|f e]; cbn [exec].
  - unfold app_add_task. destruct (save d) as [[a [c|]]|]; try exact H.
    pose proof (add_task_unique f e (task_manager app) a H) as Hadd.
    destruct (add_task f e (task_manager app) a) as [tm1 [t| |]]; try exact H;
      cbn [task_manager refresh_task_list]; apply reload_unique, Hadd.
  - unfold edit_task. destruct sel as [i|]; [|exact H].
    destruct (i =? 0); [exact H|].
    destruct (_find_task_by_id (task_manager app) i); [|exact H].
    destruct (save d); [|exact H].
    cbn [task_manager refresh_task_list]. apply reload_unique, update_task_unique, H.
  - apply complete_task_unique, H.
  - unfold assign_task_to. destruct ids as [|i rest]; [exact H|].
    cbn [task_manager refresh_task_list]. apply reload_unique.
    apply fold_unique; [|exact H]. intros tm x. apply update_task_unique.
  - apply delete_task_unique, H.
  - apply undo_delete_unique, H.
Qed.

(** X9. Ids stay unique as long as every SELECT is answered. Starting
    from a table whose ids are unique (in the connection's view and in
    the committed state), no sequence of add, edit, complete, assign,
    delete and undo leads to two rows with the same id, whichever INSERT,
    UPDATE and DELETE statements and commits the backend refuses:
    [add_task] writes only after finding the generated id free, the
    restore inserts only an id it did not find, and updates do not touch
    ids. (A refused SELECT, which makes [_find_task_by_id] answer [None],
    is outside [Faults] and not covered.) *)
Theorem ids_stay_unique (app : TaskManagerApp) (cs : list Command) :
  unique_ids (task_manager app) -> unique_ids (task_manager (exec_all app cs)).
Proof.
  revert app. induction cs as [|c cs IH]; intros app H; [exact H|].
  apply IH, exec_unique, H.
Qed.

Lemma ids_stay_unique_witness :
  unique_ids (task_manager
    (exec_all (init (manager_of two_tasks))
       [CmdAdd no_faults sample_env sample_dialog;
        CmdDelete no_faults sample_env [1; 3] true;
        CmdUndo no_faults sample_env])).
Proof.
  apply ids_stay_unique. split; apply (bool_decide_unpack _); vm_compute; exact I.
Defined.

(** ** What the dialog lets through *)

Lemma parse_digits_from_nonneg (s : string) : forall acc n,
  0 <= acc -> parse_digits_from acc s = Some n -> 0 <= n.
Proof.
  induction s as [|c s IH]; intros acc n Hacc; cbn.
  - intros [= <-]. exact Hacc.
  - unfold digit_val. destruct ((48 <=? N_of_ascii c)%N && (N_of_ascii c <=? 57)%N) eqn:E;
      [|discriminate].
    apply IH. apply andb_true_iff in E as [E1 _]. apply N.leb_le in E1. lia.
Qed.

Lemma mhr_value_nonneg (s : string) : 0 <= mhr_value s.
Proof.
  unfold mhr_value, parse_digits. destruct s as [|c s]; [lia|].
  destruct (parse_digits_from 0 (String c s)) eqn:E; [|lia].
  eapply parse_digits_from_nonneg; [|exact E]. lia.
Qed.

Lemma non_empty_ne (s : string) : non_empty s = true -> s <> EmptyString.
Proof. destruct s; [discriminate | discriminate]. Qed.

Lemma required_ok (value message : string) :
  required value message = [] -> value <> EmptyString.
Proof.
  unfold required. destruct (non_empty value) eqn:E; [|discriminate].
  intros _. apply non_empty_ne, E.
Qed.

Lemma in_list_In (s : string) (l : list string) : in_list s l = true -> In s l.
Proof.
  unfold in_list. rewrite List.existsb_exists. intros (x & Hx & E).
  apply String.eqb_eq in E. subst. exact Hx.
Qed.

Lemma roster_strip (u : string) : In u (List.tl USERS) -> strip u = u /\ u <> EmptyString.
Proof.
  cbn. intros H. repeat (destruct H as [<-|H]; [split; [reflexivity | discriminate]|]).
  destruct H.
Qed.

(** The fields of a dialog that [save] accepted. *)
Lemma save_fields (v : DialogVars) (a : Fields) (c : option bool) :
  save v = Some (a, c) ->
  f_title a <> EmptyString /\
  In (lower (f_priority a)) ["low"; "medium"; "high"]%string /\
  f_category a <> EmptyString /\
  (exists u, In u (List.tl USERS) /\ f_main_staff a = Some u) /\
  (f_assigned_to a = None \/ exists u, In u (List.tl USERS) /\ f_assigned_to a = Some u) /\
  f_applied_vessel a <> EmptyString /\
  isdigit (f_rev a) = true /\
  f_link a <> EmptyString /\ f_sdb_link a <> EmptyString /\
  f_request_no a <> EmptyString /\
  0 <= f_qtd_mhr a /\ 0 <= f_actual_mhr a.
Proof.
  unfold save. destruct (validation_errors v) as [|x l] eqn:E; [|discriminate].
  intros [= <- _]. unfold validation_errors in E.
  repeat (apply app_eq_nil in E as [?H E]).
  cbn [f_title f_priority f_category f_main_staff f_assigned_to f_applied_vessel f_rev
       f_link f_sdb_link f_request_no f_qtd_mhr f_actual_mhr].
  repeat match goal with H : required _ _ = [] |- _ => apply required_ok in H end.
  split; [assumption|].
  split.
  { destruct (in_list (lower (priority_var v)) ["low"; "medium"; "high"]%string) eqn:Ep;
      [apply in_list_In, Ep | discriminate]. }
  split.
  { destruct (non_empty (strip (category_var v))) eqn:Ec; [|discriminate].
    apply non_empty_ne, Ec. }
  split.
  { unfold one_of_users in *.
    destruct (non_empty (main_staff_var v)) eqn:Em.
    - destruct (in_list (main_staff_var v) (List.tl USERS)) eqn:Ei; [|discriminate].
      exists (main_staff_var v). split; [apply in_list_In, Ei | reflexivity].
    - exfalso. destruct (main_staff_var v); [|discriminate]. cbn in *. congruence. }
  split.
  { unfold one_of_users in *.
    destruct (non_empty (assigned_to_var v)) eqn:Em.
    - destruct (in_list (assigned_to_var v) (List.tl USERS)) eqn:Ei; [|discriminate].
      right. exists (assigned_to_var v). apply in_list_In in Ei.
      split; [exact Ei|]. destruct (roster_strip _ Ei) as [-> Hne].
      unfold or_none. destruct (assigned_to_var v); [congruence | reflexivity].
    - left. destruct (assigned_to_var v); [reflexivity | discriminate]. }
  split; [assumption|].
  split.
  { destruct (non_empty (strip (rev_var v))); [|discriminate].
    destruct (isdigit (strip (rev_var v))); [reflexivity | discriminate]. }
  repeat (split; [assumption|]).
  split; apply mhr_value_nonneg.
Qed.

(** X10. A task that the add dialog creates is stored well formed:
    [TaskManagerApp.add_task] leaves the table as it is or appends one
    row, and that row has a non-empty title, category, vessel, links and
    request number, a priority among low, medium and high in lower case,
    a main staff member (and an assignee, if any) of the roster, a
    revision made of digits, non-negative man-hours, and is pending. *)
Theorem app_add_task_well_formed (f : Faults) (e : Env) (app : TaskManagerApp)
    (dialog : DialogVars) :
  let app' := app_add_task f e app dialog in
  rows (db (task_manager app')) = rows (db (task_manager app)) \/
  exists t, rows (db (task_manager app')) = rows (db (task_manager app)) ++ [t] /\
            well_formed_row t /\ completed t = false.
Proof.
  cbv zeta. unfold app_add_task.
  destruct (save dialog) as [[a [c|]]|] eqn:Esave; try (left; reflexivity).
  unfold add_task.
  destruct (_find_task_by_id _ _); [left; reflexivity|].
  destruct (insert_raises f _); [left; reflexivity|].
  pose proof (save_fields _ _ _ Esave)
    as (Ht & Hp & Hc & Hm & Ha & Hv & Hr & Hl & Hs & Hq & Hqm & Ham).
  assert (Hwf : well_formed_row
            (add_task_row e (new_id (tasks (task_manager app))) a)).
  { unfold well_formed_row. cbn. repeat split; assumption. }
  destruct (commit_raises f); right; eexists; (split; [reflexivity|]);
    (split; [exact Hwf | reflexivity]).
Qed.


(** ** Sorting *)

(** X11. [apply_sorting] only rearranges: for each column and either
    direction its result is a permutation of the list it was given, so
    sorting shows no task twice and drops none. Tasks whose keys the
    comparison does not tell apart keep their relative order. *)
Theorem apply_sorting_permutation (today : Date) (column : SortColumn)
    (reverse : bool) (l : list Task) :
  Permutation (apply_sorting today column reverse l) l /\
  length (apply_sorting today column reverse l) = length l /\
  (forall t, t ∈ apply_sorting today column reverse l <-> t ∈ l) /\
  (forall k, List.filter (fun t => priority_key t =? k)
               (apply_sorting today ColPriority reverse l)
             = List.filter (fun t => priority_key t =? k) l).
Proof.
  assert (HP : Permutation (apply_sorting today column reverse l) l).
  { destruct column; apply PyExtra.sort_by_perm. }
  split; [exact HP|]. split; [apply Permutation_length, HP|]. split.
  - intros t. rewrite !list_elem_of_In. split; apply Permutation_in; [|symmetry]; exact HP.
  - intros k. apply PyExtra.sort_by_Z_stable.
Qed.

Lemma priority_key_cases (t : Task) :
  (priority_key t = 0 /\ lower (priority t) = "high"%string) \/
  (priority_key t = 1 /\ lower (priority t) = "medium"%string) \/
  (priority_key t = 2 /\ lower (priority t) = "low"%string) \/
  (priority_key t = 3 /\ ~ In (lower (priority t)) ["high"; "medium"; "low"]%string).
Proof.
  unfold priority_key.
  destruct (String.eqb_spec (lower (priority t)) "high") as [E1|N1]; [left; auto|].
  destruct (String.eqb_spec (lower (priority t)) "medium") as [E2|N2]; [right; left; auto|].
  destruct (String.eqb_spec (lower (priority t)) "low") as [E3|N3];
    [right; right; left; auto|].
  right; right; right. split; [reflexivity|]. cbn. intuition congruence.
Qed.

(** X12. Sorting by priority ranks the lower-cased priority: high, then
    medium, then low, then anything else, so "High" and "high" rank
    alike. Ascending, no task stands before one of a more urgent rank;
    with [reverse] no task stands before one of a less urgent rank. *)
Theorem priority_sort_ordered (today : Date) (reverse : bool) (l : list Task) :
  StronglySorted (key_le priority_key reverse) (apply_sorting today ColPriority reverse l) /\
  (forall t, (priority_key t = 0 <-> lower (priority t) = "high"%string) /\
             (priority_key t = 1 <-> lower (priority t) = "medium"%string) /\
             (priority_key t = 2 <-> lower (priority t) = "low"%string) /\
             0 <= priority_key t <= 3).
Proof.
  split; [apply PyExtra.sort_by_Z_sorted|].
  intros t. destruct (priority_key_cases t) as [[-> E]|[[-> E]|[[-> E]|[-> E]]]];
    try rewrite E; repeat split; try lia; try discriminate; try reflexivity.
  all: intros H; exfalso; apply E; rewrite H; cbn; auto.
Qed.

(** [status_key] in terms of the days to the due date. *)
Lemma status_key_days (today : Date) (t : Task) :
  status_key today t =
  if completed t then (2, EmptyString)
  else match days_until_due today (due_date t) with
       | None => (1, EmptyString)
       | Some days =>
           if days <? 0 then (0, format_0d 4 (Z.abs days))
           else (0, format_0d 4 (days + 10000))
       end.
Proof.
  unfold status_key, days_until_due. destruct (completed t); [reflexivity|].
  destruct (truthy (due_date t)); [|reflexivity]. cbn [negb].
  destruct (due_date t) as [s|]; [|reflexivity].
  destruct (strptime_ymd s); reflexivity.
Qed.

Lemma format_overdue (n : Z) : 1 <= n <= 999 ->
  format_0d 4 n = String (digit_char 0) (digits_fixed 3 n).
Proof.
  intros Hn. unfold format_0d.
  destruct (Z.ltb_spec n (10 ^ Z.of_nat 4)) as [_|H]; [|cbn in H; lia].
  rewrite PyFacts.digits_fixed_4.
  replace (n / 10 / 10 / 10 mod 10) with 0
    by (symmetry; Z.to_euclidean_division_equations; lia).
  reflexivity.
Qed.

Lemma format_ahead (m : Z) : 10000 <= m < 100000 ->
  format_0d 4 m = digits_fixed 5 m /\
  exists k rest, 1 <= k < 10 /\ digits_fixed 5 m = String (digit_char k) rest.
Proof.
  intros Hm. unfold format_0d.
  destruct (Z.ltb_spec m (10 ^ Z.of_nat 4)) as [H|_]; [cbn in H; lia|].
  split; [apply PyExtra.decimal_five_digits, Hm|].
  exists (m / 10 / 10 / 10 / 10 mod 10). eexists. split; [|reflexivity].
  Z.to_euclidean_division_equations. lia.
Qed.

Lemma string_ltb_fixed (w : nat) (a b : Z) :
  0 <= a < 10 ^ Z.of_nat w -> 0 <= b < 10 ^ Z.of_nat w ->
  String.ltb (digits_fixed w a) (digits_fixed w b) = (a <? b).
Proof.
  intros Ha Hb. unfold String.ltb, Z.ltb.
  rewrite PyExtra.compare_digits_fixed by assumption. reflexivity.
Qed.

(** The status keys of two tasks whose due dates are near compare the
    way their places in the intended order compare. *)
Lemma status_key_ltb_near (today : Date) (a b : Task) :
  near_due today a -> near_due today b ->
  status_key_ltb (status_key today a) (status_key today b)
  = (status_order today a <? status_order today b).
Proof.
  intros Ha Hb. rewrite !status_key_days. unfold status_order, near_due in *.
  destruct (completed a) eqn:Ca, (completed b) eqn:Cb.
  - reflexivity.
  - destruct (days_until_due today (due_date b)) as [db|] eqn:Eb; [|reflexivity].
    specialize (Hb eq_refl db eq_refl).
    destruct (Z.ltb_spec db 0); cbn; symmetry; apply Z.ltb_ge; lia.
  - destruct (days_until_due today (due_date a)) as [da|] eqn:Ea; [|reflexivity].
    specialize (Ha eq_refl da eq_refl).
    destruct (Z.ltb_spec da 0); cbn; symmetry; apply Z.ltb_lt; lia.
  - destruct (days_until_due today (due_date a)) as [da|] eqn:Ea,
             (days_until_due today (due_date b)) as [db|] eqn:Eb.
    + specialize (Ha eq_refl da eq_refl). specialize (Hb eq_refl db eq_refl).
      destruct (Z.ltb_spec da 0) as [Na|Pa], (Z.ltb_spec db 0) as [Nb|Pb];
        unfold status_key_ltb; cbn [fst snd]; rewrite Z.eqb_refl; cbn [Z.ltb Z.compare orb andb].
      * rewrite !format_overdue by lia. unfold String.ltb. cbn [String.compare].
        rewrite PyExtra.compare_digit_char by lia. cbn [Z.compare].
        fold (String.ltb (digits_fixed 3 (Z.abs da)) (digits_fixed 3 (Z.abs db))).
        apply string_ltb_fixed; cbn; lia.
      * rewrite (format_overdue (Z.abs da)) by lia.
        destruct (format_ahead (db + 10000)) as [-> (k & rest & Hk & ->)]; [lia|].
        unfold String.ltb. cbn [String.compare].
        rewrite PyExtra.compare_digit_char by lia.
        replace (0 ?= k) with Lt by (symmetry; apply Z.compare_lt_iff; lia).
        symmetry. apply Z.ltb_lt. lia.
      * rewrite (format_overdue (Z.abs db)) by lia.
        destruct (format_ahead (da + 10000)) as [-> (k & rest & Hk & ->)]; [lia|].
        unfold String.ltb. cbn [String.compare].
        rewrite PyExtra.compare_digit_char by lia.
        replace (k ?= 0) with Gt by (symmetry; apply Z.compare_gt_iff; lia).
        symmetry. apply Z.ltb_ge. lia.
      * destruct (format_ahead (da + 10000)) as [-> _]; [lia|].
        destruct (format_ahead (db + 10000)) as [-> _]; [lia|].
        rewrite string_ltb_fixed by (cbn; lia). reflexivity.
    + specialize (Ha eq_refl da eq_refl).
      destruct (Z.ltb_spec da 0); cbn; symmetry; apply Z.ltb_lt; lia.
    + specialize (Hb eq_refl db eq_refl).
      destruct (Z.ltb_spec db 0); cbn; symmetry; apply Z.ltb_ge; lia.
    + reflexivity.
Qed.

(** X13. Sorting by status is right for due dates that are near. When
    every pending task with a due date is at most 999 days overdue and
    has fewer than 90000 days left, the sort by status is the stable sort
    by place in the intended order: overdue tasks first, the least
    overdue first; then tasks by days left, fewest first; then tasks
    without a due date that parses; completed tasks last (and the
    reverse with [reverse]). *)
Theorem status_sort_near_due (today : Date) (reverse : bool) (l : list Task) :
  Forall (near_due today) l ->
  apply_sorting today ColStatus reverse l
    = sort_by (status_order today) Z.ltb reverse l /\
  StronglySorted (key_le (status_order today) reverse)
    (apply_sorting today ColStatus reverse l).
Proof.
  intros Hnear.
  assert (E : apply_sorting today ColStatus reverse l
              = sort_by (status_order today) Z.ltb reverse l).
  { cbn [apply_sorting]. apply PyExtra.sort_by_ext. intros x y Hx Hy.
    rewrite List.Forall_forall in Hnear.
    apply status_key_ltb_near; apply Hnear; assumption. }
  split; [exact E|]. rewrite E. apply PyExtra.sort_by_Z_sorted.
Qed.

Lemma status_sort_near_due_witness :
  let today := mkDate 2026 11 4 in
  let done := mkTask 5 "done" None None None (Some "2026-11-05") "low" "general" None None
                true "" "" None "" "" "" None None 0 0 None None in
  status_order today <$>
    apply_sorting today ColStatus false
      [done; sample_task 1 "undated" None; sample_task 2 "soon" (Some "2026-11-07");
       sample_task 3 "late" (Some "2026-10-01"); sample_task 4 "later" (Some "2026-11-01")]
  = [3; 34; 10003; 100000; 200000].
Proof.
  intros today done.
  destruct (status_sort_near_due today false
              [done; sample_task 1 "undated" None; sample_task 2 "soon" (Some "2026-11-07");
               sample_task 3 "late" (Some "2026-10-01");
               sample_task 4 "later" (Some "2026-11-01")]) as [-> _].
  - repeat (apply List.Forall_cons;
              [intros Hc days Hd; vm_compute in Hc, Hd;
               first [discriminate | injection Hd as <-; lia]|]).
    apply List.Forall_nil.
  - vm_compute. reflexivity.
Defined.


(** ** Searching *)

Lemma search_matches_total (search_term : string) (t : Task) :
  is_Some (description t) -> is_Some (main_staff t) -> is_Some (assigned_to t) ->
  search_matches search_term t = Some (matches_any search_term t).
Proof.
  intros [d Hd] [m Hm] [a Ha]. unfold search_matches, matches_any.
  rewrite Hd, Hm, Ha.
  destruct (contains search_term (lower (title t))); [reflexivity|].
  destruct (contains search_term (lower d)); [reflexivity|].
  destruct (contains search_term (lower (applied_vessel t))); [reflexivity|].
  destruct (contains search_term (lower (category t))); [reflexivity|].
  destruct (contains search_term (lower m)); reflexivity.
Qed.

Lemma search_filter_raises (search_term : string) (l : list Task) (t : Task) :
  t ∈ l -> search_matches search_term t = None -> search_filter search_term l = None.
Proof.
  induction l as [|u l IH]; intros Hin Ht; [inversion Hin|]. cbn [search_filter].
  apply elem_of_cons in Hin as [<-|Hin].
  - rewrite Ht. reflexivity.
  - destruct (search_matches search_term u); [|reflexivity].
    rewrite (IH Hin Ht). reflexivity.
Qed.



(** ** The three views of a due date *)

(** X15. The status tag, the status text, the row colour and the sort
    key read the due date alike. A completed task is tagged completed
    and ranks last. A pending task without a due date that parses is
    tagged pending, reads "No Due Date", is white and ranks in the
    middle. A pending task with a due date ranks first, and it is tagged
    overdue exactly when it is coloured as overdue, exactly when the due
    date is before today (due today and due within three days likewise);
    its text is made of the number of days. *)
Theorem due_date_views_agree (today : Date) (t : Task) :
  (completed t = true ->
     status_tag today t = "completed"%string /\ fst (status_key today t) = 2) /\
  (completed t = false ->
     match days_until_due today (due_date t) with
     | None =>
         status_tag today t = "pending"%string /\
         status_text today t = "• No Due Date"%string /\
         _get_due_date_color today (due_date t) = "#ffffff"%string /\
         fst (status_key today t) = 1
     | Some days =>
         fst (status_key today t) = 0 /\
         (days < 0 <-> status_tag today t = "overdue"%string) /\
         (days < 0 <-> _get_due_date_color today (due_date t) = "#ffcccc"%string) /\
         (days = 0 <-> status_tag today t = "due_today"%string) /\
         (days = 0 <-> _get_due_date_color today (due_date t) = "#ffd9d9"%string) /\
         (1 <= days <= 3 <-> status_tag today t = "pending_soon"%string) /\
         (1 <= days <= 3 <-> _get_due_date_color today (due_date t) = "#ffe6e6"%string) /\
         (3 < days <-> status_tag today t = "pending"%string) /\
         (days < 0 ->
            status_text today t =
              String.append "! " (String.append (decimal (- days)) " Days Overdue")) /\
         (1 < days ->
            status_text today t =
              String.append "• " (String.append (decimal days) " Days Left"))
     end).
Proof.
  split.
  - intros Hc. rewrite status_key_days. unfold status_tag. rewrite Hc. split; reflexivity.
  - intros Hc. rewrite status_key_days.
    unfold status_tag, status_text, _get_due_date_color. rewrite Hc.
    destruct (days_until_due today (due_date t)) as [days|]; [|repeat split; reflexivity].
    destruct (Z.ltb_spec days 0) as [Hneg|Hpos].
    { replace (Z.abs days) with (- days) by lia.
      repeat split; try reflexivity; try lia; try discriminate; intros; lia. }
    destruct (Z.eqb_spec days 0) as [->|H0].
    { cbn. repeat split; try reflexivity; try lia; try discriminate; intros; lia. }
    destruct (Z.eqb_spec days 1) as [->|H1].
    { cbn. repeat split; try reflexivity; try lia; try discriminate; intros; lia. }
    destruct (Z.leb_spec days 3) as [H3|H3].
    { repeat split; try reflexivity; try lia; try discriminate; intros; lia. }
    destruct (Z.leb_spec days 7); [|destruct (Z.leb_spec days 14)];
      repeat split; try reflexivity; try lia; try discriminate; intros; lia.
Qed.

(** ** The status bar *)

(** X16. The numbers of the status bar add up: completed and pending
    make the total, none is negative, and pending counts the cached tasks
    that are not completed. With a cache that mirrors the table, pending
    is the number of rows the unfiltered view shows while completed tasks
    are hidden. *)
Theorem status_counts_spec (tm : TaskManager) :
  let '(total, done, pending) := status_counts tm in
  total = done + pending /\ 0 <= done /\ 0 <= pending /\
  pending = Z.of_nat (length (List.filter (fun t => negb (completed t)) (tasks tm))) /\
  (tasks tm = rows (db tm) ->
   pending = Z.of_nat (length (get_filtered_tasks tm false None None None))).
Proof.
  unfold status_counts.
  pose proof (PyExtra.length_filter_split completed (tasks tm)) as H.
  assert (Hp : Z.of_nat (length (tasks tm)) - Z.of_nat (length (List.filter completed (tasks tm)))
               = Z.of_nat (length (List.filter (fun t => negb (completed t)) (tasks tm))))
    by lia.
  split; [lia|]. split; [lia|]. split; [lia|]. split; [exact Hp|].
  intros Hsync. rewrite Hp, Hsync. unfold get_filtered_tasks. do 2 f_equal.
  apply List.filter_ext. intros t. unfold where_clause, column_is. cbn.
  destruct (completed t); reflexivity.
Qed.

(** ** Undoing a batch of any size *)

Lemma delete_task_ok (e : Env) (app : TaskManagerApp) (i0 : Z) (rest : list Z) :
  omap (_find_task_by_id (task_manager app)) (i0 :: rest) <> [] ->
  delete_task no_faults e app (i0 :: rest) true =
  mkApp (manager_of (without_ids (i0 :: rest) (rows (db (task_manager app)))))
    (push_bounded (max_undo_stack_size app) (deleted_tasks_stack app)
       (mkDeletionRecord (now e)
          (omap (_find_task_by_id (task_manager app)) (i0 :: rest)) (i0 :: rest)))
    (max_undo_stack_size app).
Proof.
  intros Hfound. unfold delete_task. cbn [negb]. unfold begin_transaction.
  destruct (omap (_find_task_by_id (task_manager app)) (i0 :: rest)) as [|t found] eqn:E;
    [congruence|].
  unfold batch_delete_tasks. rewrite batch_delete_loop_ok by (intros; reflexivity).
  reflexivity.
Qed.

Lemma restore_all (e : Env) (found : list Task) : forall tm,
  found <> [] ->
  NoDup (id <$> found) ->
  (forall t, t ∈ found -> id t ∉ (id <$> rows (db tm))) ->
  List.fold_left (restore_task no_faults e) found tm
  = manager_of (rows (db tm) ++ (restamped e <$> found)).
Proof.
  induction found as [|t found IH]; intros tm Hne Hnd Hfresh; [congruence|].
  cbn [List.fold_left]. rewrite fmap_cons in Hnd. apply NoDup_cons in Hnd as [Ht Hnd].
  rewrite restore_task_free by (apply find_id_None, Hfresh; left).
  destruct found as [|u found'].
  - reflexivity.
  - rewrite IH; [| discriminate | exact Hnd |].
    + cbn [manager_of db rows]. rewrite <- List.app_assoc. reflexivity.
    + intros v Hv. cbn [manager_of db rows]. rewrite fmap_app. intros Hin.
      apply elem_of_app in Hin as [Hin|Hin].
      * apply (Hfresh v); [right; exact Hv | exact Hin].
      * apply elem_of_cons in Hin as [Hin|Hin]; [|inversion Hin].
        apply Ht. cbn in Hin. rewrite <- Hin. apply list_elem_of_fmap. eauto.
Qed.

Lemma omap_find_ids (l : list Task) (ids : list Z) :
  sublist (id <$> omap (fun i => List.find (has_id i) l) ids) ids /\
  forall t, t ∈ omap (fun i => List.find (has_id i) l) ids -> t ∈ l /\ id t ∈ ids.
Proof.
  split.
  - induction ids as [|i ids IH]; [constructor|]. cbn [omap list_omap].
    destruct (List.find (has_id i) l) as [t|] eqn:E.
    + apply find_id_Some in E as [_ <-]. rewrite fmap_cons. apply sublist_skip, IH.
    + apply sublist_cons, IH.
  - intros t Ht. apply list_elem_of_omap in Ht as (i & Hi & Hfind).
    apply find_id_Some in Hfind as [Hin <-]. split; assumption.
Qed.




(** ** Due dates as the date entry writes them *)

Lemma days_until_due_written (today d : Date) :
  valid_date d = true ->
  days_until_due today (Some (strftime_ymd d)) = Some (days_between d today).
Proof.
  intros Hv. unfold days_until_due. rewrite (PyExtra.strptime_strftime d Hv).
  unfold strftime_ymd. rewrite PyFacts.digits_fixed_4. reflexivity.
Qed.




(** ** A deletion the backend refuses *)

Lemma pop_after_push (limit : nat) (stack : list DeletionRecord) (r : DeletionRecord) :
  (0 < limit)%nat ->
  List.removelast (push_bounded limit stack r) =
  if (limit <? length stack + 1)%nat then List.tl stack else stack.
Proof.
  intros Hpos. unfold push_bounded. rewrite length_app. cbn [length].
  destruct (Nat.ltb_spec limit (length stack + 1)) as [Hlt|Hle].
  - destruct stack as [|x stack]; [cbn in Hlt; lia|].
    cbn [app List.tl]. apply List.removelast_last.
  - apply List.removelast_last.
Qed.

(** X19. A deletion that fails costs an undo step when the history is
    full. [delete_task] records the deletion before it deletes and takes
    the record back when a statement or the commit was refused; but the
    record was pushed onto a bounded stack, so with the history at its
    capacity the oldest entry has been evicted by then and stays lost.
    Below capacity the history is as before. The cached task list is not
    touched either way. *)
Theorem failed_delete_history (f : Faults) (e : Env) (app : TaskManagerApp)
    (i0 : Z) (rest : list Z) :
  let task_ids := i0 :: rest in
  omap (_find_task_by_id (task_manager app)) task_ids <> [] ->
  (commit_raises f = true \/ exists i, i ∈ task_ids /\ delete_raises f i = true) ->
  (0 < max_undo_stack_size app)%nat ->
  let app' := delete_task f e app task_ids true in
  deleted_tasks_stack app' =
    (if (length (deleted_tasks_stack app) <? max_undo_stack_size app)%nat
     then deleted_tasks_stack app else List.tl (deleted_tasks_stack app)) /\
  max_undo_stack_size app' = max_undo_stack_size app /\
  tasks (task_manager app') = tasks (task_manager app).
Proof.
  intros task_ids Hfound Hfail Hpos app'. subst app'. unfold delete_task.
  fold task_ids. unfold task_ids at 1. cbn [negb]. unfold begin_transaction.
  destruct (omap (_find_task_by_id (task_manager app)) task_ids) as [|t found] eqn:E;
    [congruence|].
  assert (Hko : (batch_delete_tasks f (task_manager app) task_ids).2.2 <> []).
  { unfold batch_delete_tasks.
    destruct Hfail as [Hc|(i & Hin & Hi)].
    - destruct (batch_delete_loop f _ task_ids) as [s1 [ok ko]]. rewrite Hc. discriminate.
    - pose proof (batch_delete_loop_failed f task_ids (db (task_manager app)) i Hin Hi) as H.
      destruct (batch_delete_loop f _ task_ids) as [s1 [ok ko]].
      destruct (commit_raises f); [discriminate | exact H]. }
  assert (Hcache : tasks (batch_delete_tasks f (task_manager app) task_ids).1
                   = tasks (task_manager app)).
  { unfold batch_delete_tasks. destruct (batch_delete_loop f _ task_ids) as [s1 [ok ko]].
    destruct (commit_raises f); reflexivity. }
  destruct (batch_delete_tasks f (task_manager app) task_ids) as [tm1 [ok ko]].
  cbn [fst snd] in Hko, Hcache. destruct ko as [|k ko]; [congruence|].
  cbn [deleted_tasks_stack max_undo_stack_size task_manager rollback_transaction tasks].
  split; [|split; [reflexivity | exact Hcache]].
  rewrite pop_after_push by exact Hpos.
  destruct (Nat.ltb_spec (max_undo_stack_size app) (length (deleted_tasks_stack app) + 1)),
           (Nat.ltb_spec (length (deleted_tasks_stack app)) (max_undo_stack_size app));
    (reflexivity || lia).
Qed.

Lemma failed_delete_history_witness :
  let app := run (init (manager_of eleven_tasks)) ten_deletions in
  length (deleted_tasks_stack app) = 10%nat /\
  length (deleted_tasks_stack (delete_task refuses_eleven sample_env app [11] true)) = 9%nat.
Proof.
  intros app. split; [vm_compute; reflexivity|].
  destruct (failed_delete_history refuses_eleven sample_env app 11 []) as (-> & _).
  - vm_compute. discriminate.
  - right. exists 11. split; [left | reflexivity].
  - vm_compute. lia.
  - vm_compute. reflexivity.
Defined.


(** ** Editing through the dialog *)

Lemma save_result (v : DialogVars) (result : Fields * option bool) :
  save v = Some result ->
  f_title result.1 = strip (title_var v) /\
  f_priority result.1 = priority_var v /\
  f_due_date result.1 = due_date_picker v /\
  result.2 = dialog_completed_var v.
Proof.
  unfold save. destruct (validation_errors v); [|discriminate].
  intros [= <-]. repeat split; reflexivity.
Qed.

(** X20. What an edit through the dialog stores. On a backend that
    refuses nothing, [edit_task] with a dialog that passes its checks
    changes the selected row alone: the row keeps its id and its
    provenance (an edit stamps neither [last_modified] nor
    [modified_by]), takes the stripped title, and takes the priority
    exactly as the dialog holds it. Unlike [add_task], the edit does not
    lower-case the priority, so an edited row can hold "High" where an
    added row holds "high"; its lower-cased form is one of low, medium,
    high. A due date that does not parse is stored as [None]. *)
Theorem app_edit_task_effect (app : TaskManagerApp) (task_id : Z) (dialog : DialogVars)
    (result : Fields * option bool) :
  task_id <> 0 ->
  is_Some (_find_task_by_id (task_manager app) task_id) ->
  save dialog = Some result ->
  let app' := edit_task no_faults app (Some task_id) dialog in
  Forall2 (fun r r' =>
             if has_id task_id r
             then r' = set_columns (validate_dates (kwargs_of_result result)) r /\
                  id r' = id r /\
                  created_date r' = created_date r /\ created_by r' = created_by r /\
                  last_modified r' = last_modified r /\ modified_by r' = modified_by r /\
                  title r' = strip (title_var dialog) /\ title r' <> EmptyString /\
                  priority r' = priority_var dialog /\
                  In (lower (priority r')) ["low"; "medium"; "high"]%string /\
                  due_date r' = validate_date (due_date_picker dialog) /\
                  completed r' = or_keep (dialog_completed_var dialog) (completed r)
             else r' = r)
    (rows (db (task_manager app))) (rows (db (task_manager app'))) /\
  tasks (task_manager app') = rows (db (task_manager app')) /\
  durable (db (task_manager app')) = rows (db (task_manager app')) /\
  deleted_tasks_stack app' = deleted_tasks_stack app.
Proof.
  intros Hid [old Hold] Hsave app'. subst app'. unfold edit_task.
  destruct (Z.eqb_spec task_id 0) as [|_]; [contradiction|].
  rewrite Hold, Hsave.
  destruct (save_result dialog result Hsave) as (Ht & Hp & Hd & Hc).
  destruct (save_fields dialog result.1 result.2) as (Hne & Hprio & _).
  { rewrite Hsave. destruct result; reflexivity. }
  unfold update_task.
  assert (Hcols : no_columns (validate_dates (kwargs_of_result result)) = false) by reflexivity.
  rewrite Hcols.
  cbn [no_faults update_raises commit_raises refresh_task_list task_manager reload_tasks db
       deleted_tasks_stack max_undo_stack_size tasks conn_commit sql_update rows durable
       _load_tasks].
  split; [|repeat split; reflexivity].
  apply Forall2_map_same. intros r. destruct (has_id task_id r); [|reflexivity].
  cbn [set_columns validate_dates kwargs_of_result id created_date created_by last_modified
       modified_by title priority due_date completed or_keep
       k_title k_priority k_due_date k_completed fmap option_fmap option_map].
  rewrite Ht in *. rewrite Hp in *. rewrite Hd, Hc.
  repeat split; assumption || reflexivity.
Qed.

Lemma app_edit_task_effect_witness :
  let app := init (manager_of two_tasks) in
  let app' := edit_task no_faults app (Some 1) sample_dialog in
  priority <$> rows (db (task_manager app')) = ["High"; "high"]%string /\
  tasks (task_manager app') = rows (db (task_manager app')).
Proof.
  intros app app'. split; [vm_compute; reflexivity|].
  assert (Hs : exists r, save sample_dialog = Some r) by (eexists; reflexivity).
  destruct Hs as [r Hs].
  refine (proj1 (proj2 (app_edit_task_effect app 1 sample_dialog r _ _ Hs))).
  - discriminate.
  - eexists. reflexivity.
Defined.

End MainExtra.

(* ===================================================================== *)
(** * Further properties of the file-backed manager *)
(* ===================================================================== *)

Module V11Extra.
Import Py V11 Samples V11Facts.

(** ** The two stacks *)

Lemma snoc_of_nonempty {A} (l : list A) : l <> [] -> exists l' x, l = l' ++ [x].
Proof.
  intros H. destruct (List.exists_last H) as (l' & x & E). eauto.
Qed.

Lemma length_freeze (current : list Task) (l : list Action) :
  length (freeze current <$> l) = length l.
Proof. apply length_fmap. Qed.

Lemma length_replace_last {A} (l : list A) (x : A) :
  l <> [] -> length (List.removelast l ++ [x]) = length l.
Proof.
  intros H. destruct (snoc_of_nonempty l H) as (l' & y & ->).
  rewrite List.removelast_last, !length_app. reflexivity.
Qed.

Lemma undo_action_lengths (m m2 : DailyTaskManager) (a : Action) :
  redo_stack m <> [] ->
  undo_action m a = Some m2 ->
  length (undo_stack m2) = length (undo_stack m) /\
  length (redo_stack m2) = length (redo_stack m).
Proof.
  intros Hne. destruct a as [i new|i old new|i old|[l|]]; cbn [undo_action].
  - destruct (i <? length (tasks m))%nat; intros [= <-]; split; reflexivity.
  - destruct (from_dict old); cbn [mbind option_bind]; [|discriminate].
    destruct (i <? length (tasks m))%nat; intros [= <-]; split; reflexivity.
  - destruct (from_dict old); cbn [mbind option_bind]; [|discriminate]. intros [= <-]; split; reflexivity.
  - intros [= <-]. cbn [undo_stack redo_stack rebind]. split.
    + apply length_freeze.
    + rewrite length_replace_last, length_freeze; [reflexivity|].
      intros E. apply fmap_nil_inv in E. contradiction.
  - intros [= <-]. split; reflexivity.
Qed.

Lemma redo_action_lengths (m m2 : DailyTaskManager) (a : Action) :
  redo_action m a = Some m2 ->
  length (undo_stack m2) = length (undo_stack m) /\
  length (redo_stack m2) = length (redo_stack m).
Proof.
  destruct a as [i new|i old new|i old|r]; cbn [redo_action].
  - destruct (from_dict new); cbn [mbind option_bind]; [|discriminate]. intros [= <-]; split; reflexivity.
  - destruct (from_dict new); cbn [mbind option_bind]; [|discriminate].
    destruct (i <? length (tasks m))%nat; intros [= <-]; split; reflexivity.
  - destruct (i <? length (tasks m))%nat; intros [= <-]; split; reflexivity.
  - intros [= <-]. cbn [undo_stack redo_stack rebind]. split; apply length_freeze.
Qed.

Lemma undo_lengths (m : DailyTaskManager) (st : list Action) (a : Action) :
  undo_stack m = st ++ [a] ->
  length (undo_stack (undo m)) = length st /\
  length (redo_stack (undo m)) = S (length (redo_stack m)).
Proof.
  intros E. rewrite (undo_top m st a E).
  destruct (undo_action _ a) as [m2|] eqn:Ea.
  - apply undo_action_lengths in Ea as [H1 H2].
    + cbn [save_tasks undo_stack redo_stack] in *. rewrite H1, H2, length_app. cbn. lia.
    + cbn. intros H. apply app_eq_nil in H as [_ H]. discriminate.
  - cbn. rewrite length_app. cbn. lia.
Qed.

Lemma redo_lengths (m : DailyTaskManager) (rd : list Action) (a : Action) :
  redo_stack m = rd ++ [a] ->
  length (undo_stack (redo m)) = S (length (undo_stack m)) /\
  length (redo_stack (redo m)) = length rd.
Proof.
  intros E. rewrite (redo_top m rd a E).
  destruct (redo_action _ a) as [m2|] eqn:Ea.
  - apply redo_action_lengths in Ea as [H1 H2].
    cbn [save_tasks undo_stack redo_stack] in *. rewrite H1, H2, length_app. cbn. lia.
  - cbn. rewrite length_app. cbn. lia.
Qed.

Lemma delete_loop_redo (indices : list nat) : forall m m1 b,
  delete_loop m indices = (m1, b) -> m1 = m \/ redo_stack m1 = [].
Proof.
  induction indices as [|i rest IH]; intros m m1 b; cbn [delete_loop].
  - intros [= <- _]. left; reflexivity.
  - destruct (tasks m !! i) as [t|]; [|intros [= <- _]; left; reflexivity].
    intros H. apply IH in H as [->| ->]; right; reflexivity.
Qed.

(** X21. The two stacks keep the account of the history. [undo] takes
    the newest action off the undo stack and puts that very action on
    the redo stack, and [redo] moves the newest action of the redo stack
    back, also when carrying the action out raises; nothing else on
    either stack changes, and with an empty stack either operation does
    nothing at all. (Only the way an action of kind [clear_completed]
    refers to its list is rewritten: once [undo] has bound the task list
    to the list the action holds, the action refers to the live list, and
    [freeze] keeps for every such action the list as it was when the
    task list was bound anew.) Every other operation that records an
    action (add, edit, delete, clear completed) empties the redo stack:
    what was undone can then no longer be redone. *)
Theorem history_accounting (m : DailyTaskManager) :
  (undo_stack m = [] -> undo m = m) /\
  (redo_stack m = [] -> redo m = m) /\
  (forall st a, undo_stack m = st ++ [a] ->
     match a with
     | ActClearCompleted (Snapshot _) =>
         undo_stack (undo m) = freeze (tasks m) <$> st /\
         redo_stack (undo m) =
           (freeze (tasks m) <$> redo_stack m) ++ [ActClearCompleted Live]
     | _ =>
         undo_stack (undo m) = st /\ redo_stack (undo m) = redo_stack m ++ [a]
     end) /\
  (forall rd a, redo_stack m = rd ++ [a] ->
     match a with
     | ActClearCompleted _ =>
         undo_stack (redo m) = freeze (tasks m) <$> (undo_stack m ++ [a]) /\
         redo_stack (redo m) = freeze (tasks m) <$> rd
     | _ =>
         undo_stack (redo m) = undo_stack m ++ [a] /\ redo_stack (redo m) = rd
     end) /\
  (undo_stack m <> [] ->
     S (length (undo_stack (undo m))) = length (undo_stack m) /\
     length (redo_stack (undo m)) = S (length (redo_stack m))) /\
  (redo_stack m <> [] ->
     length (undo_stack (redo m)) = S (length (undo_stack m)) /\
     S (length (redo_stack (redo m))) = length (redo_stack m)) /\
  (forall op, op <> OpUndo -> op <> OpRedo ->
     undo_stack (step m op) <> undo_stack m -> redo_stack (step m op) = []).
Proof.
  split; [|split; [|split; [|split; [|split; [|split]]]]].
  - intros E. unfold undo. rewrite E. reflexivity.
  - intros E. unfold redo. rewrite E. reflexivity.
  - intros st a E. rewrite (undo_top m st a E).
    destruct a as [i new|i old new|i old|[l|]]; cbn [undo_action tasks].
    + destruct (i <? length (tasks m))%nat; split; reflexivity.
    + destruct (from_dict old); cbn [mbind option_bind]; [|split; reflexivity].
      destruct (i <? length (tasks m))%nat; split; reflexivity.
    + destruct (from_dict old); cbn [mbind option_bind]; split; reflexivity.
    + cbn [save_tasks rebind tasks task_file undo_stack redo_stack].
      split; [reflexivity|]. rewrite fmap_app. cbn [fmap list_fmap freeze].
      rewrite List.removelast_last. reflexivity.
    + split; reflexivity.
  - intros rd a E. rewrite (redo_top m rd a E).
    destruct a as [i new|i old new|i old|r]; cbn [redo_action tasks].
    + destruct (from_dict new); cbn [mbind option_bind]; split; reflexivity.
    + destruct (from_dict new); cbn [mbind option_bind]; [|split; reflexivity].
      destruct (i <? length (tasks m))%nat; split; reflexivity.
    + destruct (i <? length (tasks m))%nat; split; reflexivity.
    + split; reflexivity.
  - intros H. destruct (snoc_of_nonempty _ H) as (st & a & E).
    destruct (undo_lengths m st a E) as [H1 H2]. rewrite H1, H2, E, length_app. cbn. lia.
  - intros H. destruct (snoc_of_nonempty _ H) as (rd & a & E).
    destruct (redo_lengths m rd a E) as [H1 H2]. rewrite H1, H2, E, length_app. cbn. lia.
  - intros [w|i w|sel c|c| |] Hu Hr; try congruence; cbn [step]; intros Hch.
    + unfold add_task in *. destruct (title_rejected _); [congruence | reflexivity].
    + unfold edit_task in *. destruct (title_rejected _); [congruence|].
      destruct (tasks m !! i); [reflexivity | congruence].
    + unfold delete_task in *. destruct sel as [|i0 sel]; [congruence|].
      destruct (negb c); [congruence|].
      destruct (delete_loop m _) as [m1 b] eqn:E.
      apply delete_loop_redo in E as [->|E]; destruct b; cbn in *; congruence.
    + unfold clear_completed_tasks in *. destruct (negb c); [congruence | reflexivity].
Qed.

(** ** Editing *)

(** X22. An accepted edit of an existing task replaces that task alone,
    leaves its reminders in place, and can be taken back: [undo] restores
    the task list as it was before the edit and saves it, so that the
    document then holds that list (whatever it held before the edit),
    and [redo] brings the edit back. *)
Theorem edit_then_undo (m : DailyTaskManager) (index : nat) (w : Form) (old : Task) :
  title_rejected (strip (title_entry w)) = false ->
  tasks m !! index = Some old ->
  valid_reminders old ->
  let m1 := edit_task m index w in
  let edited := task_of_form w (reminders old) in
  tasks m1 = <[index := edited]> (tasks m) /\
  reminders edited = reminders old /\
  task_file m1 = Some (to_dict <$> tasks m1) /\
  undo_stack m1 = undo_stack m ++ [ActEdit index (to_dict old) (to_dict edited)] /\
  tasks (undo m1) = tasks m /\
  undo_stack (undo m1) = undo_stack m /\
  task_file (undo m1) = Some (to_dict <$> tasks m) /\
  tasks (redo (undo m1)) = tasks m1.
Proof.
  intros Ht Hold Hv m1 edited.
  assert (Hm1 : m1 = mkManager (<[index := edited]> (tasks m))
                       (Some (to_dict <$> <[index := edited]> (tasks m)))
                       (undo_stack m ++ [ActEdit index (to_dict old) (to_dict edited)]) []).
  { subst m1. unfold edit_task. rewrite Ht, Hold. reflexivity. }
  assert (Hlt : (index <? length (<[index := edited]> (tasks m)))%nat = true).
  { apply Nat.ltb_lt. rewrite length_insert. eapply lookup_lt_Some, Hold. }
  assert (Hundo : undo m1 = mkManager (tasks m) (Some (to_dict <$> tasks m)) (undo_stack m)
                              [ActEdit index (to_dict old) (to_dict edited)]).
  { rewrite (undo_top m1 (undo_stack m) (ActEdit index (to_dict old) (to_dict edited)))
      by (rewrite Hm1; reflexivity).
    rewrite Hm1. cbn [tasks task_file redo_stack undo_action].
    rewrite (from_dict_to_dict old Hv). cbn [mbind option_bind tasks]. rewrite Hlt.
    unfold save_tasks, set_tasks. cbn [tasks task_file undo_stack redo_stack].
    rewrite list_insert_insert_eq, (list_insert_id _ _ _ Hold). reflexivity. }
  rewrite Hundo. rewrite Hm1 at 1 2 3 4. cbn [tasks task_file undo_stack redo_stack].
  repeat (split; [reflexivity|]).
  rewrite (redo_top _ [] (ActEdit index (to_dict old) (to_dict edited))) by reflexivity.
  cbn [tasks task_file undo_stack redo_stack redo_action].
  rewrite (from_dict_to_dict edited) by exact Hv. cbn [mbind option_bind tasks].
  assert (Hlt' : (index <? length (tasks m))%nat = true).
  { apply Nat.ltb_lt. eapply lookup_lt_Some, Hold. }
  rewrite Hlt'. rewrite Hm1. reflexivity.
Qed.

Lemma edit_then_undo_witness :
  let m := mkManager three_v11_tasks None [] [] in
  tasks (undo (edit_task m 0 sample_form)) = three_v11_tasks /\
  reminders (task_of_form sample_form (reminders sample_v11_task)) = reminders sample_v11_task.
Proof.
  intros m.
  assert (Hv : valid_reminders sample_v11_task).
  { repeat (apply List.Forall_cons; [reflexivity|]). apply List.Forall_nil. }
  destruct (edit_then_undo m 0 sample_form sample_v11_task eq_refl eq_refl Hv)
    as (_ & Hr & _ & _ & Hu & _).
  split; [exact Hu | exact Hr].
Defined.

(** ** Clearing completed tasks *)

Lemma filter_sublist {A} (p : A -> bool) (l : list A) : sublist (List.filter p l) l.
Proof.
  induction l as [|x l IH]; [constructor|]. cbn [List.filter].
  destruct (p x); [apply sublist_skip | apply sublist_cons]; exact IH.
Qed.

(** X23. Clearing completed tasks keeps, in order, exactly the tasks
    that are not completed and saves them; [undo] brings back the whole
    list as it was, [redo] clears it again and a second [undo] brings it
    back once more. *)
Theorem clear_completed_then_undo (m : DailyTaskManager) :
  let m1 := clear_completed_tasks m true in
  tasks m1 = List.filter (fun t => negb (py_truthy (completed t))) (tasks m) /\
  sublist (tasks m1) (tasks m) /\
  (forall t, t ∈ tasks m1 <-> t ∈ tasks m /\ py_truthy (completed t) = false) /\
  task_file m1 = Some (to_dict <$> tasks m1) /\
  length (undo_stack m1) = S (length (undo_stack m)) /\
  tasks (undo m1) = tasks m /\
  task_file (undo m1) = Some (to_dict <$> tasks m) /\
  length (undo_stack (undo m1)) = length (undo_stack m) /\
  tasks (redo (undo m1)) = tasks m1 /\
  tasks (undo (redo (undo m1))) = tasks m.
Proof.
  intros m1.
  set (kept := List.filter (fun t => negb (py_truthy (completed t))) (tasks m)).
  set (a := ActClearCompleted (Snapshot (tasks m))).
  assert (Hm1 : m1 = mkManager kept (Some (to_dict <$> kept))
                       ((freeze (tasks m) <$> undo_stack m) ++ [a]) []).
  { subst m1. unfold clear_completed_tasks, save_tasks, rebind, record_action.
    cbn [negb tasks task_file undo_stack redo_stack]. rewrite fmap_app. reflexivity. }
  set (st1 := freeze kept <$> (freeze (tasks m) <$> undo_stack m)).
  assert (Hundo : undo m1 = mkManager (tasks m) (Some (to_dict <$> tasks m)) st1
                              [ActClearCompleted Live]).
  { rewrite (undo_top m1 (freeze (tasks m) <$> undo_stack m) a) by (rewrite Hm1; reflexivity).
    rewrite Hm1. reflexivity. }
  assert (Hredo : redo (undo m1) = mkManager kept (Some (to_dict <$> kept))
                                     ((freeze (tasks m) <$> st1) ++ [a]) []).
  { rewrite Hundo. rewrite (redo_top _ [] (ActClearCompleted Live)) by reflexivity.
    cbn [tasks task_file undo_stack redo_stack redo_action].
    unfold save_tasks, rebind. cbn [tasks task_file undo_stack redo_stack].
    rewrite fmap_app. reflexivity. }
  rewrite Hredo, Hundo. clear Hredo Hundo. clearbody m1. subst m1.
  cbn [tasks task_file undo_stack redo_stack].
  split; [reflexivity|]. split; [apply filter_sublist|]. split.
  { intros t. unfold kept. rewrite !list_elem_of_In, List.filter_In, negb_true_iff.
    reflexivity. }
  split; [reflexivity|]. split; [rewrite length_app, length_freeze; cbn; lia|].
  split; [reflexivity|]. split; [reflexivity|].
  split; [unfold st1; rewrite !length_freeze; reflexivity|].
  split; [reflexivity|].
  rewrite (undo_top _ (freeze (tasks m) <$> st1) a) by reflexivity. reflexivity.
Qed.

(** ** Importing *)

(** X24. An import is all or nothing. Either every entry of the chosen
    document converts, and then the converted tasks are appended, in
    order, behind the tasks there were, and the whole list is saved; or
    one entry fails and nothing at all has changed. An import is not
    recorded: neither stack changes, so [undo] cannot take it back. What
    the program itself has written converts entry for entry. *)
Theorem import_all_or_nothing (m : DailyTaskManager) (data : list (gmap string pyval)) :
  let m' := import_tasks m (Some data) in
  ((mapM from_dict data = None /\ m' = m) \/
   (exists imported,
      mapM from_dict data = Some imported /\ length imported = length data /\
      tasks m' = tasks m ++ imported /\
      task_file m' = Some (to_dict <$> tasks m') /\
      undo_stack m' = undo_stack m /\ redo_stack m' = redo_stack m)) /\
  (forall l, Forall valid_reminders l -> data = to_dict <$> l ->
     tasks m' = tasks m ++ l) /\
  import_tasks m None = m.
Proof.
  intros m'. split; [|split; [|reflexivity]].
  - subst m'. unfold import_tasks. destruct (mapM from_dict data) as [imported|] eqn:E.
    + right. exists imported. split; [reflexivity|].
      split; [symmetry; eapply length_mapM, E|]. repeat split; reflexivity.
    + left. split; reflexivity.
  - intros l Hv ->. subst m'. unfold import_tasks.
    rewrite (mapM_from_dict_to_dict l Hv). reflexivity.
Qed.


(** ** Deleting *)

Lemma insert_back {A} (l : list A) (i : nat) (x : A) :
  l !! i = Some x -> take i (delete i l) ++ x :: drop i (delete i l) = l.
Proof.
  intros H. pose proof (lookup_lt_Some _ _ _ H) as Hlt.
  rewrite delete_take_drop.
  rewrite take_app_length' by (rewrite length_take_le; lia).
  rewrite drop_app_length' by (rewrite length_take_le; lia).
  apply take_drop_middle, H.
Qed.

Lemma undo_delete_top (r : DailyTaskManager) (st : list Action) (i : nat) (t : Task) :
  undo_stack r = st ++ [ActDelete i (to_dict t)] ->
  valid_reminders t ->
  tasks (undo r) = take i (tasks r) ++ t :: drop i (tasks r) /\
  undo_stack (undo r) = st /\
  redo_stack (undo r) = redo_stack r ++ [ActDelete i (to_dict t)].
Proof.
  intros E Hv. rewrite (undo_top r st _ E). cbn [undo_action tasks].
  rewrite from_dict_to_dict by exact Hv. cbn [mbind option_bind].
  repeat split; reflexivity.
Qed.

Lemma omap_ext_Forall {A B} (f g : A -> option B) (l : list A) :
  Forall (fun i => f i = g i) l -> omap f l = omap g l.
Proof.
  induction 1 as [|x l Hx _ IH]; [reflexivity|].
  cbn. rewrite Hx. destruct (g x); [f_equal|]; exact IH.
Qed.

Lemma at_positions_ext (l1 l : list Task) (indices : list nat) :
  Forall (fun i => l1 !! i = l !! i) indices ->
  delete_actions l1 indices = delete_actions l indices /\
  tasks_at l1 indices = tasks_at l indices.
Proof.
  intros H. unfold delete_actions, tasks_at. split.
  - apply omap_ext_Forall. eapply Forall_impl; [exact H|].
    intros i Hi. cbv beta in *. rewrite Hi. reflexivity.
  - apply omap_ext_Forall, H.
Qed.

Lemma below_deleted (l : list Task) (i : nat) (rest : list nat) :
  Forall (fun b => b < i)%nat rest ->
  Forall (fun b => delete i l !! b = l !! b) rest.
Proof.
  intros H. eapply Forall_impl; [exact H|]. intros b Hb. cbv beta.
  apply list_lookup_delete_lt. exact Hb.
Qed.

Lemma at_positions_cons (l : list Task) (i : nat) (t : Task) (rest : list nat) :
  l !! i = Some t ->
  delete_actions l (i :: rest) = ActDelete i (to_dict t) :: delete_actions l rest /\
  tasks_at l (i :: rest) = t :: tasks_at l rest.
Proof.
  intros H. unfold delete_actions, tasks_at. cbn [omap list_omap]. rewrite H.
  split; reflexivity.
Qed.

(** The loop of [delete_task] over positions that descend and lie in
    the list. *)
Lemma delete_loop_desc (indices : list nat) : forall l f st rd,
  StronglySorted (fun a b => b < a)%nat indices ->
  Forall (fun i => i < length l)%nat indices ->
  delete_loop (mkManager l f st rd) indices =
    (mkManager (delete_all l indices) f (st ++ delete_actions l indices)
       (match indices with [] => rd | _ :: _ => [] end), true) /\
  sublist (delete_all l indices) l /\
  l ≡ₚ delete_all l indices ++ tasks_at l indices /\
  (length (delete_all l indices) + length indices = length l)%nat /\
  length (delete_actions l indices) = length indices.
Proof.
  induction indices as [|i rest IH]; intros l f st rd Hs Hin.
  - cbn. rewrite !app_nil_r. repeat split; (reflexivity || lia).
  - apply StronglySorted_inv in Hs as [Hs Hlt].
    apply Forall_cons in Hin as [Hi Hin].
    destruct (lookup_lt_is_Some_2 l i Hi) as [t Ht].
    pose proof (below_deleted l i rest Hlt) as Hsame.
    destruct (at_positions_ext _ _ _ Hsame) as [Ea Et].
    destruct (at_positions_cons l i t rest Ht) as [Ea' Et'].
    assert (Hin' : Forall (fun b => b < length (delete i l))%nat rest).
    { rewrite length_delete by eauto. eapply Forall_impl; [exact Hlt|].
      intros b Hb. cbv beta in *. lia. }
    destruct (IH (delete i l) f (st ++ [ActDelete i (to_dict t)]) [] Hs Hin')
      as (Hloop & Hsub & Hperm & Hlen & Hacts).
    rewrite Ea, Et in *. rewrite Ea', Et'.
    change (delete_all l (i :: rest)) with (delete_all (delete i l) rest).
    split; [|split; [|split; [|split]]].
    + cbn [delete_loop tasks]. rewrite Ht.
      unfold record_action, set_tasks. cbn [tasks task_file undo_stack redo_stack].
      rewrite Hloop, <- app_assoc. cbn [app]. destruct rest; reflexivity.
    + etrans; [exact Hsub | apply sublist_delete].
    + rewrite (delete_Permutation l i t Ht), Hperm at 1.
      apply Permutation_middle.
    + rewrite length_delete in Hlen by eauto. cbn [length]. lia.
    + cbn [length]. rewrite Hacts. reflexivity.
Qed.

Lemma undo_deletions (indices : list nat) : forall l f st rd,
  StronglySorted (fun a b => b < a)%nat indices ->
  Forall (fun i => i < length l)%nat indices ->
  Forall valid_reminders l ->
  let r := Nat.iter (length indices) undo
             (mkManager (delete_all l indices) f (st ++ delete_actions l indices) rd) in
  tasks r = l /\ undo_stack r = st /\
  length (redo_stack r) = (length rd + length indices)%nat.
Proof.
  induction indices as [|i rest IH]; intros l f st rd Hs Hin Hv.
  - cbn. rewrite app_nil_r. repeat split; lia.
  - apply StronglySorted_inv in Hs as [Hs Hlt].
    apply Forall_cons in Hin as [Hi Hin].
    destruct (lookup_lt_is_Some_2 l i Hi) as [t Ht].
    pose proof (below_deleted l i rest Hlt) as Hsame.
    destruct (at_positions_ext _ _ _ Hsame) as [Ea _].
    destruct (at_positions_cons l i t rest Ht) as [Ea' _].
    assert (Hin' : Forall (fun b => b < length (delete i l))%nat rest).
    { rewrite length_delete by eauto. eapply Forall_impl; [exact Hlt|].
      intros b Hb. cbv beta in *. lia. }
    specialize (IH (delete i l) f (st ++ [ActDelete i (to_dict t)]) rd Hs Hin'
                  (Forall_delete _ _ _ Hv)).
    cbv zeta in IH. rewrite Ea, <- app_assoc in IH. cbn [app] in IH.
    destruct IH as (Ht1 & Hu1 & Hr1).
    cbv zeta. rewrite Ea'.
    change (delete_all l (i :: rest)) with (delete_all (delete i l) rest).
    cbn [length]. rewrite Nat.iter_succ.
    match goal with |- context [undo ?r] => set (r' := r) in * end.
    destruct (undo_delete_top r' st i t Hu1) as (Ht2 & Hu2 & Hr2).
    { eapply Forall_lookup_1; [exact Hv | exact Ht]. }
    rewrite Ht2, Hu2, Hr2, Ht1, length_app, Hr1. cbn [length].
    split; [apply insert_back, Ht|]. split; [reflexivity | lia].
Qed.

Lemma ltb_of_nat (x y : nat) : (x <? y)%nat = (Z.of_nat x <? Z.of_nat y)%Z.
Proof.
  destruct (Nat.ltb_spec x y), (Z.ltb_spec (Z.of_nat x) (Z.of_nat y)); (reflexivity || lia).
Qed.

Lemma strictly_descending (l : list nat) :
  StronglySorted (key_le Z.of_nat true) l -> NoDup l ->
  StronglySorted (fun a b => b < a)%nat l.
Proof.
  induction 1 as [|a l Hl IH Ha]; intros Hnd; [constructor|].
  apply NoDup_cons in Hnd as [Hnotin Hnd].
  constructor; [apply IH, Hnd|].
  apply List.Forall_forall. intros b Hb.
  rewrite List.Forall_forall in Ha. specialize (Ha b Hb). unfold key_le in Ha.
  assert (b <> a) by (intros ->; apply Hnotin, list_elem_of_In, Hb). lia.
Qed.

(** The positions [delete_task] works through. *)
Lemma sorted_selection (selected : list nat) :
  NoDup selected ->
  let indices := sort_by (fun i : nat => i) Nat.ltb true selected in
  indices ≡ₚ selected /\ StronglySorted (fun a b => b < a)%nat indices.
Proof.
  intros Hnd indices.
  assert (Hperm : indices ≡ₚ selected) by apply PyExtra.sort_by_perm.
  split; [exact Hperm|]. apply strictly_descending.
  - subst indices.
    rewrite (PyExtra.sort_by_ext (fun i : nat => i) Nat.ltb Z.of_nat Z.ltb)
      by (intros; apply ltb_of_nat).
    apply PyExtra.sort_by_Z_sorted.
  - rewrite Hperm. exact Hnd.
Qed.

Lemma delete_task_selected (m : DailyTaskManager) (selected : list nat) :
  selected <> [] ->
  NoDup selected ->
  Forall (fun i => i < length (tasks m))%nat selected ->
  let indices := sort_by (fun i : nat => i) Nat.ltb true selected in
  delete_task m selected true =
    mkManager (delete_all (tasks m) indices)
      (Some (to_dict <$> delete_all (tasks m) indices))
      (undo_stack m ++ delete_actions (tasks m) indices) [] /\
  indices ≡ₚ selected /\
  StronglySorted (fun a b => b < a)%nat indices /\
  Forall (fun i => i < length (tasks m))%nat indices.
Proof.
  intros Hne Hnd Hin indices.
  destruct (sorted_selection selected Hnd) as [Hperm Hs]. fold indices in Hperm, Hs.
  assert (Hin' : Forall (fun i => i < length (tasks m))%nat indices)
    by (rewrite Hperm; exact Hin).
  split; [|repeat split; assumption].
  unfold delete_task. destruct selected as [|i0 sel]; [congruence|]. cbn [negb].
  fold indices. destruct m as [l f st rd]. cbn [tasks undo_stack] in *.
  destruct (delete_loop_desc indices l f st rd Hs Hin') as (-> & _).
  destruct indices as [|j js]; [|reflexivity].
  apply Permutation_nil_l in Hperm. discriminate.
Qed.

(** X25. [delete_task] removes exactly the selected tasks and each
    deletion can be undone. For a confirmed selection of distinct
    positions of the list: the tasks left are the others, in order, and
    saved; one action per deleted task is recorded and the redo stack is
    emptied; and as many [undo] as tasks were deleted put every task
    back in its place, leaving the undo stack as it was before. *)
Theorem delete_then_undo_all (m : DailyTaskManager) (selected : list nat) :
  selected <> [] ->
  NoDup selected ->
  Forall (fun i => i < length (tasks m))%nat selected ->
  Forall valid_reminders (tasks m) ->
  let m1 := delete_task m selected true in
  let k := length selected in
  sublist (tasks m1) (tasks m) /\
  tasks m ≡ₚ tasks m1 ++ tasks_at (tasks m) selected /\
  (length (tasks m1) + k = length (tasks m))%nat /\
  task_file m1 = Some (to_dict <$> tasks m1) /\
  length (undo_stack m1) = (length (undo_stack m) + k)%nat /\
  redo_stack m1 = [] /\
  tasks (Nat.iter k undo m1) = tasks m /\
  undo_stack (Nat.iter k undo m1) = undo_stack m /\
  length (redo_stack (Nat.iter k undo m1)) = k.
Proof.
  intros Hne Hnd Hin Hv m1 k.
  destruct (delete_task_selected m selected Hne Hnd Hin) as (Hm1 & Hperm & Hs & Hin').
  set (indices := sort_by (fun i : nat => i) Nat.ltb true selected) in *.
  destruct (delete_loop_desc indices (tasks m) (task_file m) (undo_stack m) (redo_stack m)
              Hs Hin') as (_ & Hsub & Hp & Hlen & Hacts).
  pose proof (undo_deletions indices (tasks m)
                (Some (to_dict <$> delete_all (tasks m) indices)) (undo_stack m) []
                Hs Hin' Hv) as Hundo.
  cbv zeta in Hundo. rewrite <- Hm1 in Hundo. fold m1 in Hundo, Hm1.
  assert (Hk : length indices = k) by (apply Permutation_length, Hperm).
  rewrite Hk in Hundo, Hlen, Hacts. destruct Hundo as (H1 & H2 & H3).
  clearbody m1. subst m1. cbn [tasks task_file undo_stack redo_stack].
  split; [exact Hsub|]. split.
  { rewrite Hp at 1. apply Permutation_app_head. unfold tasks_at. rewrite Hperm. reflexivity. }
  split; [exact Hlen|]. split; [reflexivity|].
  split; [rewrite length_app, Hacts; reflexivity|]. split; [reflexivity|].
  split; [exact H1|]. split; [exact H2 | exact H3].
Qed.

Lemma delete_then_undo_all_witness :
  let m := mkManager three_v11_tasks None [] [] in
  tasks (Nat.iter 2 undo (delete_task m [0; 2]%nat true)) = three_v11_tasks.
Proof.
  intros m.
  assert (Hv : Forall valid_reminders (tasks m)).
  { repeat (apply List.Forall_cons;
            [repeat (apply List.Forall_cons; [reflexivity|]); apply List.Forall_nil|]).
    apply List.Forall_nil. }
  refine (proj1 (proj2 (proj2 (proj2 (proj2 (proj2 (proj2
    (delete_then_undo_all m [0; 2]%nat _ _ _ Hv)))))))).
  - discriminate.
  - apply (bool_decide_unpack _). vm_compute. exact I.
  - repeat (apply List.Forall_cons; [cbn; lia|]). apply List.Forall_nil.
Defined.


(** ** The list on screen *)

Lemma update_rows_spec (f : Filters) (l : list Task) : forall i rows finished,
  update_rows f i l = (rows, finished) ->
  Forall (fun row => (i <= fst row)%nat /\ l !! (fst row - i)%nat = Some (snd row) /\
                     row_shown f (snd row) = Some true) rows /\
  StronglySorted (fun a b => fst a < fst b)%nat rows /\
  (finished = true ->
     snd <$> rows = List.filter (fun t => bool_decide (row_shown f t = Some true)) l /\
     Forall (fun t => is_Some (row_shown f t)) l) /\
  (finished = false -> exists t, t ∈ l /\ row_shown f t = None).
Proof.
  induction l as [|task rest IH]; intros i rows finished; cbn [update_rows].
  - intros [= <- <-]. repeat split; try constructor. discriminate.
  - destruct (row_shown f task) as [[|]|] eqn:E.
    + destruct (update_rows f (S i) rest) as [rows' fin'] eqn:Er. intros [= <- <-].
      destruct (IH _ _ _ Er) as (Hrows & Hs & Hfin & Hfail).
      split; [|split; [|split]].
      * constructor.
        { cbn [fst snd]. rewrite Nat.sub_diag. repeat split; [lia | exact E]. }
        eapply Forall_impl; [exact Hrows|]. intros [n t] (Hn & Ht & Hshown).
        cbn [fst snd] in *. split; [lia|]. split; [|exact Hshown].
        replace (n - i)%nat with (S (n - S i)) by lia. exact Ht.
      * constructor; [exact Hs|]. apply List.Forall_forall. intros r Hr.
        rewrite List.Forall_forall in Hrows. destruct (Hrows r Hr) as [Hn _].
        cbn [fst]. lia.
      * intros Ht. destruct (Hfin Ht) as [Hf Hall]. split.
        { cbn [List.filter]. rewrite E. rewrite bool_decide_eq_true_2 by reflexivity.
          rewrite fmap_cons. cbn [snd]. rewrite Hf. reflexivity. }
        constructor; [rewrite E; eauto | exact Hall].
      * intros Hf. destruct (Hfail Hf) as (t & Ht & Hn). exists t. split; [right|]; assumption.
    + intros Er. destruct (IH _ _ _ Er) as (Hrows & Hs & Hfin & Hfail).
      split; [|split; [|split]].
      * eapply Forall_impl; [exact Hrows|]. intros [n t] (Hn & Ht & Hshown).
        cbn [fst snd] in *. split; [lia|]. split; [|exact Hshown].
        replace (n - i)%nat with (S (n - S i)) by lia. exact Ht.
      * exact Hs.
      * intros Ht. destruct (Hfin Ht) as [Hf Hall]. split.
        { cbn [List.filter]. rewrite E. rewrite bool_decide_eq_false_2 by discriminate.
          exact Hf. }
        constructor; [rewrite E; eauto | exact Hall].
      * intros Hf. destruct (Hfail Hf) as (t & Ht & Hn). exists t. split; [right|]; assumption.
    + intros [= <- <-]. split; [constructor|]. split; [constructor|].
      split; [discriminate|]. intros _. exists task. split; [left | exact E].
Qed.

Lemma update_rows_no_filters (l : list Task) : forall i,
  update_rows no_filters i l = (zip (seq i (length l)) l, true).
Proof.
  induction l as [|t l IH]; intros i; [reflexivity|].
  cbn [update_rows length seq zip zip_with].
  change (row_shown no_filters t) with (Some true). rewrite IH. reflexivity.
Qed.

Lemma sublist_Forall {A} (P : A -> Prop) (l1 l2 : list A) :
  sublist l1 l2 -> Forall P l2 -> Forall P l1.
Proof.
  induction 1 as [|x l1 l2 Hsub IH|x l1 l2 Hsub IH]; intros H.
  - constructor.
  - apply Forall_cons in H as [Hx H]. constructor; [exact Hx | apply IH, H].
  - apply Forall_cons in H as [_ H]. apply IH, H.
Qed.

Lemma sorted_sublist {A} (R : A -> A -> Prop) (l1 l2 : list A) :
  sublist l1 l2 -> StronglySorted R l2 -> StronglySorted R l1.
Proof.
  induction 1 as [|x l1 l2 Hsub IH|x l1 l2 Hsub IH]; intros Hs.
  - constructor.
  - apply StronglySorted_inv in Hs as [Hs Hx]. constructor; [apply IH, Hs|].
    eapply sublist_Forall; [exact Hsub | exact Hx].
  - apply StronglySorted_inv in Hs as [Hs _]. apply IH, Hs.
Qed.

Lemma sorted_numbers_NoDup (rows : list (nat * Task)) :
  StronglySorted (fun a b => fst a < fst b)%nat rows ->
  Forall (fun row => 1 <= fst row)%nat rows ->
  NoDup (selected_indices rows).
Proof.
  induction 1 as [|r rows Hs IH Hr]; intros Hpos; [constructor|].
  apply Forall_cons in Hpos as [Hr1 Hpos].
  unfold selected_indices in *. rewrite fmap_cons. constructor; [|apply IH, Hpos].
  intros Hin. apply list_elem_of_fmap in Hin as (r' & E & Hin).
  rewrite List.Forall_forall in Hr. apply list_elem_of_In in Hin.
  specialize (Hr r' Hin). rewrite Forall_forall in Hpos.
  specialize (Hpos r' (proj2 (list_elem_of_In _ _) Hin)). cbv beta in *. lia.
Qed.

(** What a selection of rows of the view names. *)
Lemma selection_of_view (f : Filters) (l : list Task) (selection : list (nat * Task)) :
  sublist selection (update_rows f 1 l).1 ->
  NoDup (selected_indices selection) /\
  Forall (fun i => i < length l)%nat (selected_indices selection) /\
  tasks_at l (selected_indices selection) = snd <$> selection.
Proof.
  intros Hsub. destruct (update_rows f 1 l) as [rows finished] eqn:E. cbn [fst] in Hsub.
  destruct (update_rows_spec f l 1 rows finished E) as (Hrows & Hs & _).
  pose proof (sublist_Forall _ _ _ Hsub Hrows) as Hsel.
  split; [|split].
  - apply sorted_numbers_NoDup.
    + eapply sorted_sublist; [exact Hsub | exact Hs].
    + eapply Forall_impl; [exact Hsel|]. intros r (H1 & _). exact H1.
  - unfold selected_indices. apply Forall_fmap.
    eapply Forall_impl; [exact Hsel|]. intros r (_ & Hr & _). cbv beta.
    unfold compose. eapply lookup_lt_Some, Hr.
  - clear Hsub. unfold tasks_at, selected_indices.
    induction Hsel as [|r sel (_ & Hr & _) _ IH]; [reflexivity|].
    rewrite !fmap_cons. cbn [omap list_omap]. rewrite Hr. f_equal. exact IH.
Qed.

(** X26. Every row of the task list on screen shows the number of its
    task: a row numbered [n] shows the task at position [n - 1] of the
    list, the numbers ascend, and a row is there only for a task that
    passes the filters. When the refresh runs to its end the rows are
    exactly the tasks that pass, in list order; it ends early when a
    filter reads a field that is no string, and then only the rows
    before that task are shown. Without filters every task has its row.
    Hence the positions read off any selection of rows are distinct, lie
    in the list and name the tasks the rows show. *)
Theorem update_task_list_rows (f : Filters) (m : DailyTaskManager) :
  let rows := (update_task_list f m).1 in
  let finished := (update_task_list f m).2 in
  Forall (fun row => (1 <= fst row)%nat /\ tasks m !! (fst row - 1)%nat = Some (snd row) /\
                     row_shown f (snd row) = Some true) rows /\
  StronglySorted (fun a b => fst a < fst b)%nat rows /\
  (finished = true ->
     snd <$> rows = List.filter (fun t => bool_decide (row_shown f t = Some true)) (tasks m)) /\
  (finished = false -> exists t, t ∈ tasks m /\ row_shown f t = None) /\
  update_task_list no_filters m = (zip (seq 1 (length (tasks m))) (tasks m), true) /\
  (forall selection, sublist selection rows ->
     NoDup (selected_indices selection) /\
     Forall (fun i => i < length (tasks m))%nat (selected_indices selection) /\
     tasks_at (tasks m) (selected_indices selection) = snd <$> selection).
Proof.
  intros rows finished. unfold update_task_list in *.
  destruct (update_rows_spec f (tasks m) 1 rows finished) as (Hrows & Hs & Hfin & Hfail).
  { subst rows finished. destruct (update_rows f 1 (tasks m)); reflexivity. }
  split; [exact Hrows|]. split; [exact Hs|].
  split; [intros H; apply Hfin, H|]. split; [exact Hfail|].
  split; [apply update_rows_no_filters|].
  intros selection Hsub. apply (selection_of_view f), Hsub.
Qed.

(** X27. Deleting the rows selected on screen deletes the tasks those
    rows show. Whatever the filters, for a confirmed selection of rows
    of the current view, [delete_task] runs to its end: the tasks left
    are the tasks of the rows not selected together with the hidden
    ones, in order, and they are saved; and as many [undo] as rows were
    selected restore the list. *)
Theorem delete_selected_rows (f : Filters) (m : DailyTaskManager)
    (selection : list (nat * Task)) :
  sublist selection (update_task_list f m).1 ->
  selection <> [] ->
  Forall valid_reminders (tasks m) ->
  let m1 := delete_task m (selected_indices selection) true in
  sublist (tasks m1) (tasks m) /\
  tasks m ≡ₚ tasks m1 ++ (snd <$> selection) /\
  task_file m1 = Some (to_dict <$> tasks m1) /\
  tasks (Nat.iter (length selection) undo m1) = tasks m.
Proof.
  intros Hsub Hne Hv m1.
  destruct (selection_of_view f (tasks m) selection Hsub) as (Hnd & Hin & Hat).
  assert (Hne' : selected_indices selection <> []).
  { destruct selection; [congruence | discriminate]. }
  destruct (delete_task_selected m _ Hne' Hnd Hin) as (Hm1 & Hperm & Hs & Hin').
  set (indices := sort_by (fun i : nat => i) Nat.ltb true (selected_indices selection)) in *.
  destruct (delete_loop_desc indices (tasks m) (task_file m) (undo_stack m) (redo_stack m)
              Hs Hin') as (_ & Hsub' & Hp & _ & _).
  pose proof (undo_deletions indices (tasks m)
                (Some (to_dict <$> delete_all (tasks m) indices)) (undo_stack m) []
                Hs Hin' Hv) as Hundo.
  cbv zeta in Hundo. rewrite <- Hm1 in Hundo. fold m1 in Hundo, Hm1.
  assert (Hk : length indices = length selection).
  { rewrite (Permutation_length Hperm). unfold selected_indices. apply length_fmap. }
  rewrite Hk in Hundo. destruct Hundo as (H1 & _).
  clearbody m1. subst m1. cbn [tasks task_file].
  split; [exact Hsub'|]. split; [|split; [reflexivity | exact H1]].
  rewrite Hp at 1. apply Permutation_app_head. rewrite <- Hat.
  unfold tasks_at. rewrite Hperm. reflexivity.
Qed.

Lemma delete_selected_rows_witness :
  let m := mkManager three_v11_tasks None [] [] in
  let f := mkFilters "All" "Not Completed" "" "" in
  (update_task_list f m).1 =
    [(1%nat, sample_v11_task); (3%nat, List.last three_v11_tasks sample_v11_task)] /\
  tasks (Nat.iter 1 undo
           (delete_task m (selected_indices [(3%nat, List.last three_v11_tasks sample_v11_task)])
              true))
  = three_v11_tasks.
Proof.
  intros m f. split; [reflexivity|].
  assert (Hv : Forall valid_reminders (tasks m)).
  { repeat (apply List.Forall_cons;
            [repeat (apply List.Forall_cons; [reflexivity|]); apply List.Forall_nil|]).
    apply List.Forall_nil. }
  refine (proj2 (proj2 (proj2
    (delete_selected_rows f m [(3%nat, List.last three_v11_tasks sample_v11_task)] _ _ Hv)))).
  - apply sublist_cons, sublist_skip, sublist_nil.
  - discriminate.
Defined.


(** ** Reminders *)

Lemma datetime_eqb_refl (x : DateTime) : datetime_eqb x x = true.
Proof. unfold datetime_eqb. apply bool_decide_eq_true_2. reflexivity. Qed.

Lemma datetime_eqb_due (now x y : DateTime) :
  datetime_eqb y x = true -> is_due now y = is_due now x.
Proof.
  unfold datetime_eqb, is_due, datetime_leb. intros H.
  apply bool_decide_eq_true_1 in H. rewrite H. reflexivity.
Qed.

Lemma list_remove_first (now : DateTime) (kept : list DateTime) (x : DateTime)
    (rest : list DateTime) :
  Forall (fun r => is_due now r = false) kept ->
  is_due now x = true ->
  list_remove x (kept ++ x :: rest) = Some (kept ++ rest).
Proof.
  intros Hk Hx. induction Hk as [|y kept Hy _ IH]; cbn [app list_remove].
  - rewrite datetime_eqb_refl. reflexivity.
  - destruct (datetime_eqb y x) eqn:E.
    + apply (datetime_eqb_due now) in E. congruence.
    + rewrite IH. reflexivity.
Qed.

Lemma filter_none_due (now : DateTime) (l : list DateTime) :
  existsb (is_due now) l = false ->
  List.filter (fun r => negb (is_due now r)) l = l.
Proof.
  induction l as [|r l IH]; [reflexivity|]. cbn [existsb List.filter].
  intros H. apply orb_false_iff in H as [Hr H]. rewrite Hr. cbn [negb]. f_equal. apply IH, H.
Qed.

Lemma filter_all_due (now : DateTime) (l : list DateTime) :
  existsb (is_due now) l = false -> List.filter (is_due now) l = [].
Proof.
  induction l as [|r l IH]; [reflexivity|]. cbn [existsb List.filter].
  intros H. apply orb_false_iff in H as [Hr H]. rewrite Hr. apply IH, H.
Qed.

Lemma pending_not_due (now : DateTime) (l : list DateTime) :
  existsb (is_due now) (List.filter (fun r => negb (is_due now r)) l) = false.
Proof.
  induction l as [|r l IH]; [reflexivity|]. cbn [List.filter].
  destruct (is_due now r) eqn:E; cbn [negb existsb]; [exact IH|]. rewrite E. exact IH.
Qed.

Lemma remind_loop_spec (now : DateTime) (save : list DateTime -> list (gmap string pyval))
    (copy : list DateTime) : forall kept file shown,
  Forall (fun r => is_due now r = false) kept ->
  remind_loop now save copy (kept ++ copy) file shown =
  Some (kept ++ List.filter (fun r => negb (is_due now r)) copy,
        (if existsb (is_due now) copy
         then Some (save (kept ++ List.filter (fun r => negb (is_due now r)) copy))
         else file),
        (shown + length (List.filter (is_due now) copy))%nat).
Proof.
  induction copy as [|r rest IH]; intros kept file shown Hk.
  - cbn. rewrite Nat.add_0_r. reflexivity.
  - cbn [remind_loop List.filter existsb]. fold (is_due now r).
    destruct (is_due now r) eqn:E; cbn [negb orb].
    + rewrite (list_remove_first now kept r rest Hk E). cbn [mbind option_bind].
      rewrite (IH kept _ _ Hk). cbn [length].
      destruct (existsb (is_due now) rest) eqn:Er.
      * do 2 f_equal. lia.
      * rewrite (filter_none_due now rest Er). do 2 f_equal. lia.
    + replace (kept ++ r :: rest) with ((kept ++ [r]) ++ rest)
        by (rewrite <- app_assoc; reflexivity).
      rewrite IH by (apply Forall_app; split; [exact Hk | repeat constructor; exact E]).
      rewrite <- !app_assoc. reflexivity.
Qed.

Lemma pending_reminders_id (now : DateTime) (t : Task) :
  existsb (is_due now) (reminders t) = false -> pending_reminders now t = t.
Proof.
  intros H. unfold pending_reminders. rewrite (filter_none_due now _ H).
  destruct t; reflexivity.
Qed.

Lemma pending_reminders_all_id (now : DateTime) (l : list Task) :
  existsb (fun t => existsb (is_due now) (reminders t)) l = false ->
  pending_reminders now <$> l = l.
Proof.
  induction l as [|t l IH]; [reflexivity|]. cbn [existsb]. intros H.
  apply orb_false_iff in H as [Ht H]. rewrite fmap_cons, (pending_reminders_id now t Ht), IH
    by exact H. reflexivity.
Qed.

Lemma check_reminders_loop_spec (now : DateTime) (todo : list Task) : forall done file,
  check_reminders_loop now done todo file =
  Some (done ++ (pending_reminders now <$> todo),
        (if existsb (fun t => existsb (is_due now) (reminders t)) todo
         then Some (to_dict <$> (done ++ (pending_reminders now <$> todo)))
         else file),
        List.flat_map (fun t => replicate (due_count now t) (title t, description t)) todo).
Proof.
  induction todo as [|task rest IH]; intros done file.
  - cbn. rewrite app_nil_r. reflexivity.
  - cbn [check_reminders_loop].
    rewrite (remind_loop_spec now _ (reminders task) [] file 0 (List.Forall_nil _)).
    cbn [mbind option_bind app Nat.add]. rewrite IH. cbn [mbind option_bind].
    fold (pending_reminders now task). fold (due_count now task).
    cbn [existsb List.flat_map]. rewrite fmap_cons, <- !app_assoc. cbn [app].
    destruct (existsb (is_due now) (reminders task)) eqn:Et; cbn [orb];
      destruct (existsb (fun t => existsb (is_due now) (reminders t)) rest) eqn:Er;
      try reflexivity.
    rewrite (pending_reminders_all_id now rest Er). reflexivity.
Qed.

Lemma none_due_after (now : DateTime) (l : list Task) :
  existsb (fun t => existsb (is_due now) (reminders t)) (pending_reminders now <$> l) = false.
Proof.
  induction l as [|t l IH]; [reflexivity|]. rewrite fmap_cons. cbn [existsb].
  rewrite IH, orb_false_r. apply pending_not_due.
Qed.

Lemma no_notifications (now : DateTime) (l : list Task) :
  existsb (fun t => existsb (is_due now) (reminders t)) l = false ->
  List.flat_map (fun t => replicate (due_count now t) (title t, description t)) l = [].
Proof.
  induction l as [|t l IH]; [reflexivity|]. cbn [existsb List.flat_map]. intros H.
  apply orb_false_iff in H as [Ht H]. rewrite (IH H). unfold due_count.
  rewrite (filter_all_due now _ Ht). reflexivity.
Qed.

(** X28. One pass of [check_reminders] over tasks whose reminders are
    naive timestamps, the kind [add_reminder] creates and this model
    represents, never fails and shows every due reminder exactly once.
    Whatever such tasks and the reading of the clock: [list.remove]
    always finds the reminder it is to take out; afterwards each task
    holds, in order, exactly its reminders that lie after the clock
    reading, every other field untouched; each task was notified once
    for each of its due reminders, duplicates included; the document was
    saved with the list as it is after the pass, if anything was due, and
    not written otherwise. A second pass with the same clock reading
    shows nothing and changes nothing. (A reminder with a UTC offset,
    which [from_dict] can read from a file, is not represented: comparing
    it with the naive clock reading raises [TypeError] in the source.) *)
Theorem check_reminders_pass_spec (now : DateTime) (l : list Task)
    (file : option (list (gmap string pyval))) :
  let after := pending_reminders now <$> l in
  let file' := if existsb (fun t => existsb (is_due now) (reminders t)) l
               then Some (to_dict <$> after) else file in
  check_reminders_pass now l file =
    Some (after, file',
          List.flat_map (fun t => replicate (due_count now t) (title t, description t)) l) /\
  check_reminders_pass now after file' = Some (after, file', []) /\
  Forall (fun t => Forall (fun r => datetime_leb r now = false) (reminders t)) after /\
  Forall2 (fun t t' =>
             sublist (reminders t') (reminders t) /\
             (length (reminders t') + due_count now t = length (reminders t))%nat /\
             set_reminders t' (reminders t) = t) l after.
Proof.
  intros after file'. unfold check_reminders_pass.
  split; [apply check_reminders_loop_spec|]. split; [|split].
  - rewrite check_reminders_loop_spec. cbn [app].
    pose proof (none_due_after now l) as Hn. fold after in Hn.
    rewrite Hn, (pending_reminders_all_id now after Hn), (no_notifications now after Hn).
    reflexivity.
  - subst after. apply Forall_fmap, List.Forall_forall. intros t _.
    unfold compose, pending_reminders, set_reminders. cbn [reminders].
    apply List.Forall_forall. intros r Hr. apply List.filter_In in Hr as [_ Hr].
    apply negb_true_iff in Hr. exact Hr.
  - subst after. apply Forall2_fmap_r, Forall_Forall2_diag, List.Forall_forall.
    intros t _. unfold pending_reminders, set_reminders, due_count. cbn [reminders].
    split; [apply filter_sublist|]. split; [|destruct t; reflexivity].
    pose proof (PyExtra.length_filter_split (is_due now) (reminders t)).
    cbn [reminders]. lia.
Qed.

Lemma check_reminders_pass_spec_witness :
  let now := mkDateTime (mkDate 2025 3 1) 0 0 0 0 in
  exists tasks' file',
    check_reminders_pass now three_v11_tasks None = Some (tasks', file', [(PStr "Calibrate sensor", PStr "")]) /\
    reminders <$> tasks' =
      [[mkDateTime (mkDate 2025 3 1) 7 30 15 250]; []; [mkDateTime (mkDate 2025 3 1) 7 30 15 250]].
Proof.
  intros now. eexists _, _.
  split; [exact (proj1 (check_reminders_pass_spec now three_v11_tasks None))|].
  reflexivity.
Defined.

End V11Extra.
